(** * N-Wheeler-AI: the UEBA monitor and the master-agent pipeline

    A shallow embedding of [backend/ueba/monitor.py],
    [backend/agents/master_agent.py] and [backend/agents/scheduling_agent.py],
    and of [backend/agents/customer_agent.py], [backend/api/routes.py] and
    the diagnosis of [backend/agents/diagnosis_agent.py].

    Python objects are mutated in place and exceptions unwind the stack while
    the mutations made so far stay; the embedding therefore threads one
    [World] through every call and returns an [outcome] next to the world
    reached, also when the call raises. Everything the code obtains from
    outside these files (clocks, the persisted model, the other agents,
    the database service) is answered by an [Env], indexed by the number of
    interactions made so far. *)

From Stdlib Require Import ZArith List Lia.
From stdpp Require Import base gmap strings list pretty.

#[local] Open Scope Z_scope.
#[local] Set Warnings "-register-all".

(** ** Python values *)

Module Py.

(** An exception object: its class name and its message. *)
Inductive exn : Type :=
| Exception (kind msg : string).

Definition exn_msg (e : exn) : string :=
  match e with Exception _ msg => msg end.

(** How a call ends. *)
Inductive outcome (A : Type) : Type :=
| Returns (a : A)
| Raises (e : exn).

Arguments Returns {A} a.
Arguments Raises {A} e.

(** The values that travel in the dictionaries of the agents. A datetime
    [VTime t] is the number of microseconds since 1970-01-01T00:00:00;
    [VIso t] is the string [dt.isoformat()] of that datetime; [VFmt] is an
    f-string whose holes are not all strings, kept as its text and the
    values of its holes. *)
Inductive pyval : Type :=
| VNone
| VBool (b : bool)
| VInt (z : Z)
| VStr (s : string)
| VTime (t : Z)
| VIso (t : Z)
| VFmt (template : string) (holes : list pyval)
| VList (l : list pyval)
| VDict (d : gmap string pyval).

Abbreviation dict := (gmap string pyval).

(** [bool(v)]. *)
Definition truthy (v : pyval) : bool :=
  match v with
  | VNone => false
  | VBool b => b
  | VInt z => negb (z =? 0)
  | VStr s => negb (String.eqb s "")
  | VTime _ => true
  | VIso _ => true
  | VFmt template _ => negb (String.eqb template "")
  | VList l => match l with [] => false | _ :: _ => true end
  | VDict d => negb (Nat.eqb (size d) 0)
  end.

(** [d.get(key, dflt)] and [d.get(key)]. *)
Definition get (d : dict) (key : string) (dflt : pyval) : pyval :=
  default dflt (d !! key).

Definition get_none (d : dict) (key : string) : pyval :=
  get d key VNone.

(** [l[-n:]] for a positive [n]. *)
Definition last_n {A : Type} (n : nat) (l : list A) : list A :=
  drop (length l - n) l.

(** [len(l)]. *)
Definition len {A : Type} (l : list A) : Z := Z.of_nat (length l).

(** Fields of a datetime and of a timedelta, on microsecond counts. *)
Definition US_PER_SECOND : Z := 1000000.
Definition US_PER_HOUR : Z := 3600 * US_PER_SECOND.
Definition US_PER_DAY : Z := 86400 * US_PER_SECOND.

(** [dt.hour]. *)
Definition hour_of (t : Z) : Z := (t mod US_PER_DAY) / US_PER_HOUR.

(** [dt.weekday()]: Monday is 0; 1970-01-01 was a Thursday. *)
Definition weekday_of (t : Z) : Z := (t / US_PER_DAY + 3) mod 7.

(** [dt.date()], as a day number. *)
Definition date_of (t : Z) : Z := t / US_PER_DAY.

(** [td.seconds]: a timedelta is normalised to days, seconds in
    [0, 86400) and microseconds; [.seconds] is the middle field only. *)
Definition td_seconds (d : Z) : Z := (d mod US_PER_DAY) / US_PER_SECOND.

(** [timedelta(days=n)]. *)
Definition days (n : Z) : Z := n * US_PER_DAY.

(** [datetime.min] and [datetime.max]: 0001-01-01T00:00:00 and
    9999-12-31T23:59:59.999999. *)
Definition DATETIME_MIN : Z := -62135596800 * US_PER_SECOND.
Definition DATETIME_MAX : Z := 253402300800 * US_PER_SECOND - 1.

Definition is_datetime (t : Z) : Prop := DATETIME_MIN <= t <= DATETIME_MAX.

Definition date_out_of_range : exn :=
  Exception "OverflowError" "date value out of range".

(** [dt + td]: the sum, or [OverflowError] when it is no datetime. *)
Definition plus_timedelta (t d : Z) : outcome Z :=
  if (DATETIME_MIN <=? t + d) && (t + d <=? DATETIME_MAX)
  then Returns (t + d)
  else Raises date_out_of_range.

End Py.

Export Py.

(** ** The data of the UEBA monitor *)

(** One entry of [activity_logs]. *)
Module Activity.
Record t : Type := Build {
  agent : string;
  action : string;
  metadata : dict;
  timestamp : Z;
  hour : Z;
  day_of_week : Z
}.
End Activity.

(** One entry of [normal_patterns]. *)
Module Pattern.
Record t : Type := Build {
  max_calls_per_minute : Z;
  allowed_actions : list string
}.
End Pattern.

(** One entry of the list [anomalies]. *)
Module Anomaly.
Record t : Type := Build {
  type : string;
  severity : string;
  message : string
}.
End Anomaly.

(** What [_check_anomaly] returns when it found something. *)
Module Report.
Record t : Type := Build {
  detected : bool;
  anomalies : list Anomaly.t;
  agent : string;
  action : string
}.
End Report.

(** The dictionary [security_log] of [_handle_anomaly]. *)
Module SecurityLog.
Record t : Type := Build {
  activity : Activity.t;
  anomaly : Report.t;
  timestamp : Z;
  action_taken : string
}.
End SecurityLog.

(** The isolation forest, as far as the monitor uses it: [predict] takes the
    rows and gives one label per row, or raises. The float [1.0] of the
    feature vector is written as the integer 1. *)
Record Model : Type := {
  predict : list (list Z) -> outcome (list Z)
}.

(** The fields of a [UEBAMonitor] object. *)
Record UEBAMonitor : Type := {
  activity_logs : list Activity.t;
  model_path : string;
  model : option Model;
  agent_activity_counts : gmap string Z;
  normal_patterns : gmap string Pattern.t
}.

(** ** The world *)

(** What loguru receives. *)
Inductive log_line : Type :=
| LogInfo (text : pyval)
| LogWarning (text : pyval)
| LogError (text : pyval)
| LogSecurityAlert (anomaly : Report.t)
| LogSecurityLog (entry : SecurityLog.t).

(** The calls a pipeline run makes, in the order they complete: an activity
    appended to the ledger of the monitor, and the four stage calls of the
    master agent with the way each ended. *)
Inductive call : Type :=
| Recorded (agent action : string)
| Analyze (vehicle_id : string) (res : outcome dict)
| Diagnose (vehicle_id : string) (res : outcome dict)
| Notify (vehicle_id : string) (res : outcome dict)
| Schedule (vehicle_id : string) (res : outcome dict).

Record World : Type := {
  ueba_monitor : UEBAMonitor;
  steps : nat;
  logged : list log_line;
  calls : list call
}.

(** The answers of everything outside the embedded files. [_at n] is the
    answer when [n] interactions were made before. *)
Record Env : Type := {
  SKLEARN_AVAILABLE : bool;
  utcnow_at : nat -> Z;
  now_at : nat -> Z;
  (** [os.path.exists(model_path)] and [joblib.load(model_path)] *)
  persisted_model : option (outcome Model);
  (** [IsolationForest(...)], [fit], [os.makedirs], [joblib.dump] *)
  fit_and_dump : outcome Model;
  (** [datetime.fromisoformat] on a string that is not a [VIso] *)
  fromisoformat_text : string -> outcome Z;
  analyze_data_at : nat -> string -> dict -> outcome dict;
  predict_failures_at : nat -> string -> dict -> outcome dict;
  send_alert_at : nat -> string -> dict -> outcome dict;
  get_appointments_by_date_at : nat -> Z -> outcome (list dict);
  store_appointment_at : nat -> dict -> outcome unit
}.

(** ** State and exceptions *)

Definition M (A : Type) : Type := World -> outcome A * World.

Definition ret {A : Type} (a : A) : M A := fun w => (Returns a, w).

Definition raise {A : Type} (e : exn) : M A := fun w => (Raises e, w).

Definition bind {A B : Type} (c : M A) (k : A -> M B) : M B :=
  fun w =>
    match c w with
    | (Returns a, w') => k a w'
    | (Raises e, w') => (Raises e, w')
    end.

Notation "x <- c ;; k" := (bind c (fun x => k))
  (at level 100, c at next level, right associativity).
Notation "c ;;; k" := (bind c (fun _ => k))
  (at level 100, right associativity).

(** [try: body except Exception as e: handler(e)]. *)
Definition try_except {A : Type} (body : M A) (handler : exn -> M A) : M A :=
  fun w =>
    match body w with
    | (Returns a, w') => (Returns a, w')
    | (Raises e, w') => handler e w'
    end.

(** The result of something outside, as a computation. *)
Definition lift {A : Type} (o : outcome A) : M A := fun w => (o, w).

Definition tick (w : World) : World :=
  {| ueba_monitor := ueba_monitor w; steps := S (steps w);
     logged := logged w; calls := calls w |}.

Definition with_monitor (m : UEBAMonitor) (w : World) : World :=
  {| ueba_monitor := m; steps := steps w;
     logged := logged w; calls := calls w |}.

Definition get_monitor : M UEBAMonitor := fun w => (Returns (ueba_monitor w), w).

Definition put_monitor (m : UEBAMonitor) : M unit :=
  fun w => (Returns tt, with_monitor m w).

Definition logger (l : log_line) : M unit :=
  fun w => (Returns tt,
            {| ueba_monitor := ueba_monitor w; steps := steps w;
               logged := logged w ++ [l]; calls := calls w |}).

Definition emit (c : call) : M unit :=
  fun w => (Returns tt,
            {| ueba_monitor := ueba_monitor w; steps := steps w;
               logged := logged w; calls := calls w ++ [c] |}).

(** One interaction with the outside: the environment answers for the
    current step, and the step counter advances. *)
Definition ask {A : Type} (answer : nat -> outcome A) : M A :=
  fun w => (answer (steps w), tick w).

(** ** [ueba/monitor.py] *)

Module UEBA.

Section Monitor.
Context (env : Env).

(** [datetime.utcnow()], in microseconds. *)
Definition utcnow : M Z := ask (fun n => Returns (utcnow_at env n)).

(** [_create_model]: [None] without scikit-learn, else a forest trained
    on synthetic data and dumped to [model_path]. *)
Definition _create_model : outcome (option Model) :=
  if negb (SKLEARN_AVAILABLE env) then Returns None
  else match fit_and_dump env with
       | Returns m => Returns (Some m)
       | Raises e => Raises e
       end.

(** [_load_or_create_model]: the value it stores in [self.model]. *)
Definition _load_or_create_model : outcome (option Model) :=
  match persisted_model env with
  | Some (Returns m) => Returns (Some m)
  | Some (Raises _) => _create_model
  | None => _create_model
  end.

Definition the_normal_patterns : gmap string Pattern.t :=
  list_to_map
    [ ("master_agent",
       Pattern.Build 100
         ["process_telematics_data"; "handle_customer_query";
          "schedule_maintenance"; "submit_feedback"; "get_vehicle_status"]);
      ("data_analysis_agent",
       Pattern.Build 200 ["analyze_data"; "get_latest_analysis"]);
      ("diagnosis_agent",
       Pattern.Build 100 ["predict_failures"; "get_predictions"]);
      ("customer_agent",
       Pattern.Build 50 ["process_message"; "send_alert"]);
      ("scheduling_agent",
       Pattern.Build 30
         ["schedule_appointment"; "auto_schedule"; "get_available_slots";
          "cancel_appointment"]);
      ("feedback_agent",
       Pattern.Build 20 ["process_feedback"; "get_feedback_summary"]) ].

(** [UEBAMonitor()]. *)
Definition __init__ : outcome UEBAMonitor :=
  match _load_or_create_model with
  | Returns m =>
      Returns {| activity_logs := [];
                 model_path := "./models/ueba_model.pkl";
                 model := m;
                 agent_activity_counts := ∅;
                 normal_patterns := the_normal_patterns |}
  | Raises e => Raises e
  end.

(** The ledger is capped at this many entries. *)
Definition MAX_LOGS : nat := Z.to_nat 10000.

(** [self.activity_logs.append(activity)] and the trimming that follows. *)
Definition append_activity (activity : Activity.t) (logs : list Activity.t)
  : list Activity.t :=
  let logs := logs ++ [activity] in
  if len logs >? 10000 then last_n MAX_LOGS logs else logs.

(** The comprehension of check 1: the clock is read for every entry of the
    agent, because [and] evaluates its right side only then. *)
Fixpoint recent_within (agent_name : string) (logs : list Activity.t)
  : M (list Activity.t) :=
  match logs with
  | [] => ret []
  | log :: rest =>
      if decide (Activity.agent log = agent_name) then
        now <- utcnow ;;
        kept <- recent_within agent_name rest ;;
        ret (if td_seconds (now - Activity.timestamp log) <? 60
             then log :: kept else kept)
      else recent_within agent_name rest
  end.

(** Check 1: rate limiting. *)
Definition rate_limit_check (agent_name : string) : M (list Anomaly.t) :=
  self <- get_monitor ;;
  match normal_patterns self !! agent_name with
  | Some pattern =>
      recent_activities <-
        recent_within agent_name (last_n 100 (activity_logs self)) ;;
      ret (if len recent_activities >? Pattern.max_calls_per_minute pattern
           then [ {| Anomaly.type := "rate_limit_exceeded";
                     Anomaly.severity := "high";
                     Anomaly.message :=
                       "Agent " +:+ agent_name +:+ " exceeded rate limit ("
                       +:+ pretty (Pattern.max_calls_per_minute pattern)
                       +:+ " calls/min)" |} ]
           else [])
  | None => ret []
  end.

(** Check 2: unauthorized action. *)
Definition unauthorized_check (self : UEBAMonitor) (agent_name action : string)
  : list Anomaly.t :=
  match normal_patterns self !! agent_name with
  | Some pattern =>
      if decide (action ∈ Pattern.allowed_actions pattern) then []
      else [ {| Anomaly.type := "unauthorized_action";
                Anomaly.severity := "critical";
                Anomaly.message :=
                  "Agent " +:+ agent_name
                  +:+ " attempted unauthorized action: " +:+ action |} ]
  | None => []
  end.

Definition agent_id_map : gmap string Z :=
  list_to_map
    [ ("master_agent", 0); ("data_analysis_agent", 1); ("diagnosis_agent", 2);
      ("customer_agent", 3); ("scheduling_agent", 4); ("feedback_agent", 5) ].

(** [_extract_features]. *)
Definition _extract_features (agent_name action : string)
  : M (option (list Z)) :=
  self <- get_monitor ;;
  let recent_activities :=
    filter (fun log => Activity.agent log = agent_name)
           (last_n 100 (activity_logs self)) in
  if len recent_activities <? 5 then ret None
  else
    let agent_id := default 0 (agent_id_map !! agent_name) in
    let actions_per_hour := len recent_activities in
    t_hour <- utcnow ;;
    t_day <- utcnow ;;
    let success_rate := 1 in
    ret (Some [agent_id; actions_per_hour; hour_of t_hour;
               weekday_of t_day; success_rate]).

Definition ml_anomaly (agent_name : string) : Anomaly.t :=
  {| Anomaly.type := "ml_anomaly";
     Anomaly.severity := "medium";
     Anomaly.message :=
       "ML model detected anomalous pattern for agent " +:+ agent_name |}.

(** [prediction[0]]. *)
Definition first_label (prediction : list Z) : outcome Z :=
  match prediction with
  | x :: _ => Returns x
  | [] => Raises (Exception "IndexError" "index 0 is out of bounds")
  end.

(** Check 3: the model, guarded by [try ... except Exception: pass]. *)
Definition ml_check (agent_name action : string) : M (list Anomaly.t) :=
  self <- get_monitor ;;
  match model self with
  | Some the_model =>
      if SKLEARN_AVAILABLE env && (len (activity_logs self) >=? 10) then
        try_except
          (features <- _extract_features agent_name action ;;
           match features with
           | Some row =>
               prediction <- lift (predict the_model [row]) ;;
               label <- lift (first_label prediction) ;;
               ret (if label =? -1 then [ml_anomaly agent_name] else [])
           | None => ret []
           end)
          (fun _ => ret [])
      else ret []
  | None => ret []
  end.

(** The end of [_check_anomaly]: a report if [anomalies] is not empty,
    else [None]. *)
Definition make_report (agent_name action : string)
    (anomalies : list Anomaly.t) : option Report.t :=
  match anomalies with
  | _ :: _ =>
      Some {| Report.detected := true;
              Report.anomalies := anomalies;
              Report.agent := agent_name;
              Report.action := action |}
  | [] => None
  end.

(** [_check_anomaly]: the three checks append to [anomalies] in turn. *)
Definition _check_anomaly (agent_name action : string) : M (option Report.t) :=
  rate <- rate_limit_check agent_name ;;
  self <- get_monitor ;;
  let unauthorized := unauthorized_check self agent_name action in
  ml <- ml_check agent_name action ;;
  ret (make_report agent_name action (rate ++ unauthorized ++ ml)).

(** [_handle_anomaly]. *)
Definition _handle_anomaly (activity : Activity.t) (anomaly : Report.t)
  : M unit :=
  logger (LogSecurityAlert anomaly) ;;;
  now <- utcnow ;;
  let security_log :=
    {| SecurityLog.activity := activity;
       SecurityLog.anomaly := anomaly;
       SecurityLog.timestamp := now;
       SecurityLog.action_taken := "logged" |} in
  logger (LogSecurityLog security_log).

(** [self.agent_activity_counts[key] += 1] on a [defaultdict(int)]. *)
Definition count_activity (key : string) (counts : gmap string Z)
  : gmap string Z :=
  <[key := default 0 (counts !! key) + 1]> counts.

(** [log_agent_activity]. The function has no [return] statement: the value
    of every call is [None]. *)
Definition log_agent_activity (agent_name action : string)
    (metadata : option dict) : M (option Report.t) :=
  t_stamp <- utcnow ;;
  t_hour <- utcnow ;;
  t_day <- utcnow ;;
  let activity :=
    {| Activity.agent := agent_name;
       Activity.action := action;
       Activity.metadata := default ∅ metadata;
       Activity.timestamp := t_stamp;
       Activity.hour := hour_of t_hour;
       Activity.day_of_week := weekday_of t_day |} in
  self <- get_monitor ;;
  put_monitor
    {| activity_logs := append_activity activity (activity_logs self);
       model_path := model_path self;
       model := model self;
       agent_activity_counts := agent_activity_counts self;
       normal_patterns := normal_patterns self |} ;;;
  emit (Recorded agent_name action) ;;;
  anomaly <- _check_anomaly agent_name action ;;
  match anomaly with
  | Some found =>
      logger (LogWarning
                (VStr ("⚠️ UEBA Alert: Anomalous activity detected - Agent: "
                       +:+ agent_name +:+ ", Action: " +:+ action))) ;;;
      _handle_anomaly activity found
  | None => ret tt
  end ;;;
  self <- get_monitor ;;
  let key := agent_name +:+ ":" +:+ action in
  put_monitor
    {| activity_logs := activity_logs self;
       model_path := model_path self;
       model := model self;
       agent_activity_counts := count_activity key (agent_activity_counts self);
       normal_patterns := normal_patterns self |} ;;;
  ret None.

End Monitor.

End UEBA.

(** ** [agents/scheduling_agent.py] and [agents/master_agent.py] *)

Module Agents.

Section Agents.
Context (env : Env).

(** [datetime.now()], in microseconds. *)
Definition now : M Z := ask (fun n => Returns (now_at env n)).

(** [datetime.fromisoformat(v)]. *)
Definition fromisoformat (v : pyval) : outcome Z :=
  match v with
  | VIso t => Returns t
  | VStr s => fromisoformat_text env s
  | _ => Raises (Exception "TypeError" "fromisoformat: argument must be str")
  end.

(** [self.available_slots = list(range(9, 17))]. *)
Definition available_slots : list Z := [9; 10; 11; 12; 13; 14; 15; 16].

(** [slot == v] for an integer [slot]. *)
Definition int_eq (slot : Z) (v : pyval) : bool :=
  match v with
  | VInt z => z =? slot
  | VBool b => (if b then 1 else 0) =? slot
  | _ => false
  end.

(** [_find_available_slot]: the date and the hour of the first free slot. *)
Definition _find_available_slot (date : Z) : M (option (Z * Z)) :=
  existing_appointments <-
    ask (fun n => get_appointments_by_date_at env n (date_of date)) ;;
  let booked_times :=
    map (fun apt => get_none apt "time") existing_appointments in
  ret (match filter (fun slot => existsb (int_eq slot) booked_times = false)
                    available_slots with
       | slot :: _ => Some (date, slot)
       | [] => None
       end).

Definition durations : gmap string Z :=
  list_to_map
    [ ("battery_replacement", 60); ("brake_replacement", 120);
      ("oil_change", 30); ("engine_inspection", 90);
      ("general_inspection", 60); ("diagnostic_check", 45);
      ("tire_rotation", 30); ("tire_replacement", 60) ].

(** [_get_service_duration]: [durations.get(service_type, 60)]; a list or
    a dictionary cannot be hashed. *)
Definition _get_service_duration (service_type : pyval) : outcome Z :=
  match service_type with
  | VStr s => Returns (default 60 (durations !! s))
  | VList _ | VDict _ => Raises (Exception "TypeError" "unhashable type")
  | _ => Returns 60
  end.

(** [schedule_appointment]. *)
Definition schedule_appointment (vehicle_id : string) (service_type : pyval)
    (preferred_date : pyval) : M dict :=
  try_except
    (logger (LogInfo (VFmt "📅 Scheduling Agent: Scheduling {} for vehicle {}"
                           [service_type; VStr vehicle_id])) ;;;
     appointment_date <-
       (if truthy preferred_date then
          try_except (lift (fromisoformat preferred_date))
                     (fun _ => t <- now ;; lift (plus_timedelta t (days 1)))
        else t <- now ;; lift (plus_timedelta t (days 1))) ;;
     available_slot <- _find_available_slot appointment_date ;;
     available_slot <-
       match available_slot with
       | Some slot => ret (Some slot)
       | None =>
           appointment_date <-
             lift (plus_timedelta appointment_date (days 1)) ;;
           _find_available_slot appointment_date
       end ;;
     match available_slot with
     | None =>
         ret (<["status" := VStr "error"]>
              (<["message" :=
                   VStr "No available slots found. Please try a different date."]>
               ∅))
     | Some (slot_date, slot_time) =>
         estimated_duration <- lift (_get_service_duration service_type) ;;
         created_at <- UEBA.utcnow env ;;
         let appointment : dict :=
           list_to_map
             [ ("vehicle_id", VStr vehicle_id);
               ("service_type", service_type);
               ("date", VIso slot_date);
               ("time", VInt slot_time);
               ("status", VStr "scheduled");
               ("estimated_duration", VInt estimated_duration);
               ("created_at", VIso created_at) ] in
         ask (fun n => store_appointment_at env n appointment) ;;;
         ret (list_to_map
                [ ("status", VStr "scheduled");
                  ("appointment", VDict appointment);
                  ("message",
                   VFmt "Appointment scheduled for {:%Y-%m-%d} at {}:00"
                        [VTime slot_date; VInt slot_time]) ])
     end)
    (fun e =>
       logger (LogError (VStr ("❌ Scheduling Agent error: " +:+ exn_msg e))) ;;;
       raise e).

(** [auto_schedule]. *)
Definition auto_schedule (vehicle_id : string) (service_type : pyval)
  : M dict :=
  t <- now ;;
  tomorrow <- lift (plus_timedelta t (days 1)) ;;
  let preferred_date := VIso tomorrow in
  schedule_appointment vehicle_id service_type preferred_date.

(** A call of another agent: the environment answers, the call is noted. *)
Definition stage (note : outcome dict -> call)
    (answer : nat -> outcome dict) : M dict :=
  fun w =>
    let res := answer (steps w) in
    match emit (note res) (tick w) with
    | (_, w') => (res, w')
    end.

(** A call of an embedded agent, noted when it ends. *)
Definition noted (note : outcome dict -> call) (c : M dict) : M dict :=
  fun w =>
    match c w with
    | (res, w') =>
        match emit (note res) w' with
        | (_, w'') => (res, w'')
        end
    end.

(** [MasterAgent.process_telematics_data]. *)
Definition process_telematics_data (vehicle_id : string) (sensor_data : dict)
  : M dict :=
  try_except
    (UEBA.log_agent_activity env "master_agent" "process_telematics_data"
       (Some (<["vehicle_id" := VStr vehicle_id]> ∅)) ;;;
     logger (LogInfo (VStr ("🔍 Master Agent: Analyzing data for vehicle "
                            +:+ vehicle_id))) ;;;
     analysis_result <-
       stage (Analyze vehicle_id)
             (fun n => analyze_data_at env n vehicle_id sensor_data) ;;
     logger (LogInfo
               (VStr ("🔬 Master Agent: Diagnosing potential issues for vehicle "
                      +:+ vehicle_id))) ;;;
     diagnosis_result <-
       stage (Diagnose vehicle_id)
             (fun n => predict_failures_at env n vehicle_id analysis_result) ;;
     diagnosis_result <-
       (if truthy (get diagnosis_result "critical_alert" (VBool false)) then
          logger (LogWarning (VStr ("⚠️ Master Agent: Critical alert for vehicle "
                                    +:+ vehicle_id))) ;;;
          stage (Notify vehicle_id)
                (fun n => send_alert_at env n vehicle_id diagnosis_result) ;;;
          if truthy (get diagnosis_result "auto_schedule" (VBool false)) then
            logger (LogInfo
                      (VStr ("📅 Master Agent: Auto-scheduling maintenance for vehicle "
                             +:+ vehicle_id))) ;;;
            schedule_result <-
              noted (Schedule vehicle_id)
                    (auto_schedule vehicle_id
                       (get_none diagnosis_result "recommended_service")) ;;
            ret (<["scheduling" := VDict schedule_result]> diagnosis_result)
          else ret diagnosis_result
        else ret diagnosis_result) ;;
     ret (list_to_map
            [ ("vehicle_id", VStr vehicle_id);
              ("analysis", VDict analysis_result);
              ("diagnosis", VDict diagnosis_result);
              ("timestamp", get_none sensor_data "timestamp") ]))
    (fun e =>
       logger (LogError (VStr ("❌ Master Agent error: " +:+ exn_msg e))) ;;;
       raise e).

(** [MasterAgent.schedule_maintenance]. *)
Definition schedule_maintenance (vehicle_id : string) (service_type : string)
    (preferred_date : pyval) : M dict :=
  UEBA.log_agent_activity env "master_agent" "schedule_maintenance"
    (Some (<["vehicle_id" := VStr vehicle_id]>
           (<["service_type" := VStr service_type]> ∅))) ;;;
  schedule_appointment vehicle_id (VStr service_type) preferred_date.

(** The world right after [MasterAgent()]: a fresh monitor, nothing logged
    and no call made. *)
Definition fresh_world : outcome World :=
  match UEBA.__init__ env with
  | Returns m =>
      Returns {| ueba_monitor := m; steps := 0%nat; logged := []; calls := [] |}
  | Raises e => Raises e
  end.

End Agents.

End Agents.

(** ** Vocabulary of the statements *)

Module Spec.

(** The findings of a report, none when there is no report. *)
Definition findings (report : option Report.t) : list Anomaly.t :=
  match report with
  | Some r => Report.anomalies r
  | None => []
  end.

(** Some finding of the list has this type. *)
Definition has_type (ty : string) (found : list Anomaly.t) : Prop :=
  exists a, a ∈ found /\ Anomaly.type a = ty.

(** The reports handed to [_handle_anomaly] so far, read off the log. *)
Definition alerts (w : World) : list Report.t :=
  omap (fun l => match l with LogSecurityAlert r => Some r | _ => None end)
       (logged w).

(** The entries of [agent_name] among the last hundred of the ledger. *)
Definition recent_of (agent_name : string) (w : World) : list Activity.t :=
  filter (fun log => Activity.agent log = agent_name)
         (last_n 100 (activity_logs (ueba_monitor w))).

(** The ledger after the activities [evs] were appended in this order. *)
Definition appended (logs evs : list Activity.t) : list Activity.t :=
  foldl (fun logs a => UEBA.append_activity a logs) logs evs.

(** The activity [log_agent_activity] builds in world [w]: three readings
    of the clock. *)
Definition activity_at (env : Env) (agent_name action : string)
    (metadata : option dict) (w : World) : Activity.t :=
  {| Activity.agent := agent_name;
     Activity.action := action;
     Activity.metadata := default ∅ metadata;
     Activity.timestamp := utcnow_at env (steps w);
     Activity.hour := hour_of (utcnow_at env (S (steps w)));
     Activity.day_of_week := weekday_of (utcnow_at env (S (S (steps w)))) |}.

(** The world in which [log_agent_activity] calls [_check_anomaly]: the
    activity is in the ledger. *)
Definition after_append (env : Env) (agent_name action : string)
    (metadata : option dict) (w : World) : World :=
  {| ueba_monitor :=
       {| activity_logs :=
            UEBA.append_activity (activity_at env agent_name action metadata w)
              (activity_logs (ueba_monitor w));
          model_path := model_path (ueba_monitor w);
          model := model (ueba_monitor w);
          agent_activity_counts := agent_activity_counts (ueba_monitor w);
          normal_patterns := normal_patterns (ueba_monitor w) |};
     steps := S (S (S (steps w)));
     logged := logged w;
     calls := calls w ++ [Recorded agent_name action] |}.

(** The outlier model of the monitor cannot give a verdict: there is none,
    or scikit-learn is missing, or its [predict] raises on every input. *)
Definition model_unusable (env : Env) (w : World) : Prop :=
  model (ueba_monitor w) = None
  \/ SKLEARN_AVAILABLE env = false
  \/ exists the_model,
       model (ueba_monitor w) = Some the_model
       /\ forall rows, exists e, predict the_model rows = Raises e.

(** The world after the calls [log_agent_activity(agent, action, metadata)]
    of [requests], made in this order. *)
Fixpoint log_all (env : Env) (requests : list (string * string * option dict))
    (w : World) : World :=
  match requests with
  | [] => w
  | (agent_name, action, metadata) :: rest =>
      log_all env rest
        (snd (UEBA.log_agent_activity env agent_name action metadata w))
  end.

(** The activities these calls build, in the order of the calls. *)
Fixpoint activities_of (env : Env)
    (requests : list (string * string * option dict)) (w : World)
  : list Activity.t :=
  match requests with
  | [] => []
  | (agent_name, action, metadata) :: rest =>
      activity_at env agent_name action metadata w
      :: activities_of env rest
           (snd (UEBA.log_agent_activity env agent_name action metadata w))
  end.

(** A computation that leaves the monitor, the log and the calls alone: it
    may only advance the step counter. *)
Definition quiet_step (w w' : World) : Prop :=
  ueba_monitor w' = ueba_monitor w /\ logged w' = logged w
  /\ calls w' = calls w.

(** A computation that leaves the monitor and the calls alone. *)
Definition same_monitor_and_calls (w w' : World) : Prop :=
  ueba_monitor w' = ueba_monitor w /\ calls w' = calls w.

(** A computation that keeps them from every world. *)
Definition keeps_monitor_and_calls {A : Type} (c : M A) : Prop :=
  forall w, same_monitor_and_calls w (snd (c w)).

(** The calls made between two worlds of one run. *)
Definition new_calls (w w' : World) : list call :=
  drop (length (calls w)) (calls w').

Inductive stage_name : Type := analyze | diagnose | notify | schedule.

(** The stage calls of a trace, in order. *)
Definition stages (tr : list call) : list stage_name :=
  omap (fun c => match c with
                 | Recorded _ _ => None
                 | Analyze _ _ => Some analyze
                 | Diagnose _ _ => Some diagnose
                 | Notify _ _ => Some notify
                 | Schedule _ _ => Some schedule
                 end) tr.

Definition is_stage_call (c : call) : Prop :=
  match c with Recorded _ _ => False | _ => True end.

(** Every stage call of the trace has an activity recorded since the stage
    call before it; [fresh] says whether one was recorded already. *)
Fixpoint each_stage_monitored (fresh : bool) (tr : list call) : bool :=
  match tr with
  | [] => true
  | Recorded _ _ :: rest => each_stage_monitored true rest
  | _ :: rest => fresh && each_stage_monitored false rest
  end.

Definition critical (diagnosis_result : dict) : bool :=
  truthy (get diagnosis_result "critical_alert" (VBool false)).

Definition wants_schedule (diagnosis_result : dict) : bool :=
  truthy (get diagnosis_result "auto_schedule" (VBool false)).

(** The dictionary a run returns. *)
Definition pipeline_outcome (vehicle_id : string) (sensor_data : dict)
    (analysis_result diagnosis_result : dict) : dict :=
  list_to_map
    [ ("vehicle_id", VStr vehicle_id);
      ("analysis", VDict analysis_result);
      ("diagnosis", VDict diagnosis_result);
      ("timestamp", get_none sensor_data "timestamp") ].

(** The ways a run of the pipeline can go: its result and its stage calls. *)
Inductive run_shape (vehicle_id : string) (sensor_data : dict)
  : outcome dict -> list call -> Prop :=
| analysis_failed e :
    run_shape vehicle_id sensor_data (Raises e)
      [Analyze vehicle_id (Raises e)]
| diagnosis_failed a e :
    run_shape vehicle_id sensor_data (Raises e)
      [Analyze vehicle_id (Returns a); Diagnose vehicle_id (Raises e)]
| not_critical a d :
    critical d = false ->
    run_shape vehicle_id sensor_data
      (Returns (pipeline_outcome vehicle_id sensor_data a d))
      [Analyze vehicle_id (Returns a); Diagnose vehicle_id (Returns d)]
| notification_failed a d e :
    critical d = true ->
    run_shape vehicle_id sensor_data (Raises e)
      [Analyze vehicle_id (Returns a); Diagnose vehicle_id (Returns d);
       Notify vehicle_id (Raises e)]
| notified_only a d n :
    critical d = true -> wants_schedule d = false ->
    run_shape vehicle_id sensor_data
      (Returns (pipeline_outcome vehicle_id sensor_data a d))
      [Analyze vehicle_id (Returns a); Diagnose vehicle_id (Returns d);
       Notify vehicle_id (Returns n)]
| scheduling_failed a d n e :
    critical d = true -> wants_schedule d = true ->
    run_shape vehicle_id sensor_data (Raises e)
      [Analyze vehicle_id (Returns a); Diagnose vehicle_id (Returns d);
       Notify vehicle_id (Returns n); Schedule vehicle_id (Raises e)]
| scheduled a d n sr :
    critical d = true -> wants_schedule d = true ->
    run_shape vehicle_id sensor_data
      (Returns (pipeline_outcome vehicle_id sensor_data a
                  (<["scheduling" := VDict sr]> d)))
      [Analyze vehicle_id (Returns a); Diagnose vehicle_id (Returns d);
       Notify vehicle_id (Returns n); Schedule vehicle_id (Returns sr)].

End Spec.

Import Spec.

(** ** Concrete environments and runs *)

Module Scenario.

(** A model that labels every row an outlier, one that labels every row an
    inlier, and one whose [predict] raises. *)
Definition outlier_model : Model :=
  {| predict := fun rows => Returns (map (fun _ => -1) rows) |}.

Definition inlier_model : Model :=
  {| predict := fun rows => Returns (map (fun _ => 1) rows) |}.

Definition broken_model : Model :=
  {| predict := fun _ => Raises (Exception "ValueError" "X has 5 features") |}.

(** The diagnosis of a healthy vehicle, of a vehicle low on oil, and of a
    vehicle with a dying battery, with the keys the master agent reads. *)
Definition diagnosis (critical_alert auto_schedule : bool)
    (recommended_service : pyval) : dict :=
  list_to_map
    [ ("critical_alert", VBool critical_alert);
      ("auto_schedule", VBool auto_schedule);
      ("recommended_service", recommended_service) ].

Definition healthy : dict := diagnosis false false VNone.
Definition low_oil : dict := diagnosis true false (VStr "oil_change").
Definition dying_battery : dict :=
  diagnosis true true (VStr "battery_replacement").

Definition analysis : dict :=
  list_to_map [ ("status", VStr "normal") ].

Definition alert_sent : dict :=
  list_to_map [ ("status", VStr "sent") ].

Definition db_down : exn :=
  Exception "Exception" "PostgreSQL database is not connected".

(** An environment without scikit-learn and without a persisted model, where
    every clock shows [clock], the diagnosis agent answers [diag], every slot
    of every day is free unless [booked], and the database accepts an
    appointment unless [db_fails]. *)
Definition env_of (clock : Z) (diag : dict) (booked db_fails : bool) : Env :=
  {| SKLEARN_AVAILABLE := false;
     utcnow_at := fun _ => clock;
     now_at := fun _ => clock;
     persisted_model := None;
     fit_and_dump := Raises (Exception "ImportError" "No module named sklearn");
     fromisoformat_text := fun _ =>
       Raises (Exception "ValueError" "Invalid isoformat string");
     analyze_data_at := fun _ _ _ => Returns analysis;
     predict_failures_at := fun _ _ _ => Returns diag;
     send_alert_at := fun _ _ _ => Returns alert_sent;
     get_appointments_by_date_at := fun _ _ =>
       Returns (if booked
                then map (fun slot => <["time" := VInt slot]> ∅)
                         Agents.available_slots
                else []);
     store_appointment_at := fun _ _ =>
       if db_fails then Raises db_down else Returns tt |}.

(** The same with scikit-learn and a persisted model [m]. *)
Definition env_with_model (m : Model) : Env :=
  {| SKLEARN_AVAILABLE := true;
     utcnow_at := fun _ => 0;
     now_at := fun _ => 0;
     persisted_model := Some (Returns m);
     fit_and_dump := Returns m;
     fromisoformat_text := fromisoformat_text (env_of 0 healthy false false);
     analyze_data_at := fun _ _ _ => Returns analysis;
     predict_failures_at := fun _ _ _ => Returns healthy;
     send_alert_at := fun _ _ _ => Returns alert_sent;
     get_appointments_by_date_at := fun _ _ => Returns [];
     store_appointment_at := fun _ _ => Returns tt |}.

Definition quiet : Env := env_of 0 healthy false false.

(** The environment of a dying battery in which the customer agent cannot
    send its alert. *)
Definition alert_down : Env :=
  let base := env_of 0 dying_battery false false in
  {| SKLEARN_AVAILABLE := SKLEARN_AVAILABLE base;
     utcnow_at := utcnow_at base;
     now_at := now_at base;
     persisted_model := persisted_model base;
     fit_and_dump := fit_and_dump base;
     fromisoformat_text := fromisoformat_text base;
     analyze_data_at := analyze_data_at base;
     predict_failures_at := predict_failures_at base;
     send_alert_at := fun _ _ _ => Raises db_down;
     get_appointments_by_date_at := get_appointments_by_date_at base;
     store_appointment_at := store_appointment_at base |}.

(** A monitor with the profiles of [__init__] and model [m]. *)
Definition monitor_with (m : option Model) (logs : list Activity.t)
  : UEBAMonitor :=
  {| activity_logs := logs;
     model_path := "./models/ueba_model.pkl";
     model := m;
     agent_activity_counts := ∅;
     normal_patterns := UEBA.the_normal_patterns |}.

Definition world_with (m : option Model) (logs : list Activity.t) : World :=
  {| ueba_monitor := monitor_with m logs;
     steps := 0%nat; logged := []; calls := [] |}.

Definition world0 : World := world_with None [].

(** [n] calls of [log_agent_activity] in a row. *)
Definition repeat_log (env : Env) (n : nat) (agent_name action : string)
    (w : World) : World :=
  log_all env (replicate n (agent_name, action, None)) w.

(** An activity of [agent_name] at time 0. *)
Definition activity_of (agent_name action : string) : Activity.t :=
  {| Activity.agent := agent_name; Activity.action := action;
     Activity.metadata := ∅; Activity.timestamp := 0;
     Activity.hour := 0; Activity.day_of_week := 3 |}.

End Scenario.

(** ** More of [ueba/monitor.py] *)

Module Summary.

(** The key of [agent_activity_counts] and of [by_action]. *)
Definition activity_key (agent_name action : string) : string :=
  agent_name +:+ ":" +:+ action.

(** The loop of [get_activity_summary]: both counters grow together. *)
Definition count_activities (activities : list Activity.t)
  : gmap string Z * gmap string Z :=
  foldl (fun counters activity =>
           (UEBA.count_activity (Activity.agent activity) counters.1,
            UEBA.count_activity
              (activity_key (Activity.agent activity)
                 (Activity.action activity)) counters.2))
        (∅, ∅) activities.

(** One entry of [recent_activities]. *)
Definition recent_entry (a : Activity.t) : pyval :=
  VDict (list_to_map
           [ ("agent", VStr (Activity.agent a));
             ("action", VStr (Activity.action a));
             ("timestamp", VIso (Activity.timestamp a)) ]).

(** The activities the summary is about: those of [agent_name] when it is
    given and not empty, else all. *)
Definition selected (self : UEBAMonitor) (agent_name : option string)
  : list Activity.t :=
  match agent_name with
  | Some name =>
      if String.eqb name "" then activity_logs self
      else filter (fun log => Activity.agent log = name) (activity_logs self)
  | None => activity_logs self
  end.

(** [get_activity_summary]. *)
Definition get_activity_summary (self : UEBAMonitor)
    (agent_name : option string) : dict :=
  let activities := selected self agent_name in
  match activities with
  | [] => <["total_activities" := VInt 0]> ∅
  | _ :: _ =>
      let counters := count_activities activities in
      list_to_map
        [ ("total_activities", VInt (len activities));
          ("by_agent", VDict (VInt <$> counters.1));
          ("by_action", VDict (VInt <$> counters.2));
          ("recent_activities",
           VList (map recent_entry (last_n 10 activities))) ]
  end.

End Summary.

(** ** More of [agents/scheduling_agent.py] *)

Module SchedulingMore.

Section WithEnv.
Context (env : Env).

(** [get_available_slots]. *)
Definition get_available_slots (date : pyval) : M (list dict) :=
  try_except
    (appointment_date <- lift (Agents.fromisoformat env date) ;;
     existing_appointments <-
       ask (fun n =>
              get_appointments_by_date_at env n (date_of appointment_date)) ;;
     let booked_times :=
       map (fun apt => get_none apt "time") existing_appointments in
     ret (map (fun slot =>
                 if existsb (Agents.int_eq slot) booked_times
                 then list_to_map
                        [ ("time", VInt slot); ("available", VBool false) ]
                 else list_to_map
                        [ ("time", VInt slot); ("available", VBool true) ])
              Agents.available_slots))
    (fun e =>
       logger (LogError (VStr ("Error getting available slots: "
                               +:+ exn_msg e))) ;;;
       ret []).

End WithEnv.

(** The hour is taken by one of the appointments the database returned. *)
Definition hour_is_booked (appointments : list dict) (hour : Z) : bool :=
  existsb (Agents.int_eq hour)
          (map (fun apt => get_none apt "time") appointments).

(** The date [schedule_appointment] starts its search from, in world [w]:
    the preferred date if it is given and can be parsed, else tomorrow,
    which overflows when the clock shows the last day of the year 9999. *)
Definition requested_date (env : Env) (preferred_date : pyval) (w : World)
  : outcome Z :=
  if truthy preferred_date then
    match Agents.fromisoformat env preferred_date with
    | Returns d => Returns d
    | Raises _ => plus_timedelta (now_at env (steps w)) (days 1)
    end
  else plus_timedelta (now_at env (steps w)) (days 1).

(** The result of [schedule_appointment] when no slot is free. *)
Definition no_slot_result : dict :=
  <["status" := VStr "error"]>
    (<["message" :=
         VStr "No available slots found. Please try a different date."]> ∅).

(** The appointment [schedule_appointment] hands to the database. *)
Definition the_appointment (vehicle_id : string) (service_type : pyval)
    (slot_date slot_time estimated_duration created_at : Z) : dict :=
  list_to_map
    [ ("vehicle_id", VStr vehicle_id);
      ("service_type", service_type);
      ("date", VIso slot_date);
      ("time", VInt slot_time);
      ("status", VStr "scheduled");
      ("estimated_duration", VInt estimated_duration);
      ("created_at", VIso created_at) ].

(** The result of [schedule_appointment] when it stored an appointment. *)
Definition scheduled_result (vehicle_id : string) (service_type : pyval)
    (slot_date slot_time estimated_duration created_at : Z) : dict :=
  list_to_map
    [ ("status", VStr "scheduled");
      ("appointment",
       VDict (the_appointment vehicle_id service_type slot_date slot_time
                estimated_duration created_at));
      ("message",
       VFmt "Appointment scheduled for {:%Y-%m-%d} at {}:00"
            [VTime slot_date; VInt slot_time]) ].

(** The error line of the scheduling agent. *)
Definition scheduling_error (e : exn) : log_line :=
  LogError (VStr ("❌ Scheduling Agent error: " +:+ exn_msg e)).

(** Why a call of [schedule_appointment] that started in world [w] and
    ended in world [w'] raised [e]: tomorrow or the day after the requested
    date is no datetime; or a query for the appointments of the requested
    date or of the day after, the duration table, or the storing of the
    appointment raised it, each of them a step of this call. *)
Definition failure_cause (env : Env) (vehicle_id : string)
    (service_type preferred_date : pyval) (w w' : World) (e : exn) : Prop :=
  (requested_date env preferred_date w = Raises e /\ e = date_out_of_range)
  \/ exists d0,
       requested_date env preferred_date w = Returns d0
       /\ ((plus_timedelta d0 (days 1) = Raises e /\ e = date_out_of_range)
           \/ (exists n d,
                 (steps w <= n < steps w')%nat
                 /\ (d = d0 \/ plus_timedelta d0 (days 1) = Returns d)
                 /\ get_appointments_by_date_at env n (date_of d) = Raises e)
           \/ Agents._get_service_duration service_type = Raises e
           \/ (exists n d h dur created,
                 (steps w <= n < steps w')%nat
                 /\ store_appointment_at env n
                      (the_appointment vehicle_id service_type d h dur created)
                    = Raises e)).

(** The hour and the date of the appointment in a result. *)
Definition appointment_field (result : dict) (field : string) : pyval :=
  match result !! "appointment" with
  | Some (VDict appointment) => get_none appointment field
  | _ => VNone
  end.

End SchedulingMore.

(** ** [agents/customer_agent.py]: the chat *)

(** The answers of what the chat, the other entry points of the master
    agent and the routes obtain from outside, beside [Env]. *)
Record Outside : Type := {
  (** [str.lower()] *)
  lower : string -> string;
  get_conversation_history_at : nat -> string -> outcome (list dict);
  store_conversation_at : nat -> string -> string -> pyval -> outcome unit;
  (** [self.openai_client], and for a list of messages with their roles
      the text [chat.completions.create(...).choices[0].message.content] *)
  openai_client : option (nat -> list (string * pyval) -> outcome pyval);
  process_feedback_at : nat -> string -> string -> dict -> outcome dict;
  get_latest_analysis_at : nat -> string -> outcome pyval;
  get_predictions_at : nat -> string -> outcome pyval;
  get_upcoming_appointments_at : nat -> string -> outcome pyval;
  get_all_vehicles_at : nat -> outcome dict
}.

Module Customer.

(** [needle in text] for strings. *)
Definition contains (needle text : string) : bool :=
  match String.index 0 needle text with
  | Some _ => true
  | None => false
  end.

Definition apology : string :=
  "I apologize, but I'm experiencing technical difficulties. Please try again later or contact our support team.".

Definition answer_schedule : string :=
  "I can help you schedule a maintenance appointment. Please provide your vehicle ID and preferred date.".

Definition answer_battery : string :=
  "I can check your battery status. Let me retrieve that information for you.".

Definition answer_brake : string :=
  "I can help with brake-related questions. Would you like me to check your brake pad status?".

Definition answer_hello : string :=
  "Hello! I'm your vehicle maintenance assistant. How can I help you today?".

(** The words [_fallback_response] looks for, in its order. *)
Definition keywords : list string :=
  ["schedule"; "appointment"; "battery"; "brake"; "hello"; "hi"].

Definition answer_other : string :=
  "I understand you're asking about your vehicle. Let me help you with that. Could you provide more details?".

(** [_prepare_context]. *)
Definition _prepare_context (session_id : string) (history : list dict)
  : string :=
  "
Session ID: " +:+ session_id +:+ "
Recent alerts: None
Upcoming appointments: None
Vehicle status: Normal
".

(** The system message of [_generate_response]. *)
Definition system_prompt (context : string) : string :=
  "You are a helpful vehicle maintenance assistant. You help customers with:
- Vehicle health and diagnostics
- Scheduling maintenance appointments
- Answering questions about their vehicle
- Providing maintenance recommendations

Context: " +:+ context +:+ "

Be friendly, professional, and concise. If you don't know something, ask for more information or suggest contacting support.".

Section WithOutside.
Context (out : Outside).

(** [_fallback_response]. *)
Definition _fallback_response (message : string) : string :=
  let message_lower := lower out message in
  if contains "schedule" message_lower || contains "appointment" message_lower
  then answer_schedule
  else if contains "battery" message_lower then answer_battery
  else if contains "brake" message_lower then answer_brake
  else if contains "hello" message_lower || contains "hi" message_lower
  then answer_hello
  else answer_other.

(** The messages sent to the model: the system message, the last five
    exchanges and the new message. *)
Definition chat_messages (message context : string) (history : list dict)
  : list (string * pyval) :=
  [("system", VStr (system_prompt context))]
  ++ flat_map (fun h => [ ("user", get h "message" (VStr ""));
                          ("assistant", get h "response" (VStr "")) ])
              (last_n 5 history)
  ++ [("user", VStr message)].

(** [_generate_response]. *)
Definition _generate_response (message context : string)
    (history : list dict) : M pyval :=
  match openai_client out with
  | None => ret (VStr (_fallback_response message))
  | Some create =>
      try_except
        (ask (fun n => create n (chat_messages message context history)))
        (fun e =>
           logger (LogError (VStr ("OpenAI API error: " +:+ exn_msg e))) ;;;
           ret (VStr (_fallback_response message)))
  end.

(** [process_message]. *)
Definition process_message (message session_id : string) : M pyval :=
  try_except
    (logger (LogInfo (VStr ("💬 Customer Agent: Processing message from session "
                            +:+ session_id))) ;;;
     history <- ask (fun n => get_conversation_history_at out n session_id) ;;
     let context := _prepare_context session_id history in
     response <- _generate_response message context history ;;
     ask (fun n => store_conversation_at out n session_id message response) ;;;
     ret response)
    (fun e =>
       logger (LogError (VStr ("❌ Customer Agent error: " +:+ exn_msg e))) ;;;
       ret (VStr apology)).

End WithOutside.

End Customer.

(** ** The other entry points of [agents/master_agent.py] *)

Module MasterMore.

Section WithEnv.
Context (env : Env) (out : Outside).

(** [MasterAgent.handle_customer_query]. *)
Definition handle_customer_query (session_id message : string) : M pyval :=
  UEBA.log_agent_activity env "master_agent" "handle_customer_query"
    (Some (<["session_id" := VStr session_id]> ∅)) ;;;
  Customer.process_message out message session_id.

(** [MasterAgent.submit_feedback]. *)
Definition submit_feedback (vehicle_id service_id : string)
    (feedback_data : dict) : M dict :=
  UEBA.log_agent_activity env "master_agent" "submit_feedback"
    (Some (<["vehicle_id" := VStr vehicle_id]>
           (<["service_id" := VStr service_id]> ∅))) ;;;
  ask (fun n => process_feedback_at out n vehicle_id service_id feedback_data).

(** [MasterAgent.get_vehicle_status]. *)
Definition get_vehicle_status (vehicle_id : string) : M dict :=
  UEBA.log_agent_activity env "master_agent" "get_vehicle_status"
    (Some (<["vehicle_id" := VStr vehicle_id]> ∅)) ;;;
  analysis <- ask (fun n => get_latest_analysis_at out n vehicle_id) ;;
  predictions <- ask (fun n => get_predictions_at out n vehicle_id) ;;
  appointments <- ask (fun n => get_upcoming_appointments_at out n vehicle_id) ;;
  ret (list_to_map
         [ ("vehicle_id", VStr vehicle_id);
           ("analysis", analysis);
           ("predictions", predictions);
           ("appointments", appointments) ]).

End WithEnv.

End MasterMore.

(** ** [api/routes.py] *)

Module Routes.

(** [HTTPException(status_code=500, detail=str(e))]. *)
Definition HTTPException (e : exn) : exn :=
  Exception "HTTPException" (exn_msg e).

(** The body of every handler: [try: ... return {"status": "success",
    key: result}] and [except Exception as e: raise HTTPException(...)]. *)
Definition respond (key : string) (c : M pyval) : M dict :=
  try_except
    (result <- c ;;
     ret (list_to_map [ ("status", VStr "success"); (key, result) ]))
    (fun e => raise (HTTPException e)).

(** A request, with the fields its model gives the handler. *)
Inductive request : Type :=
| PostTelematics (vehicle_id : string) (data : dict)
| GetVehicleStatus (vehicle_id : string)
| PostChat (message session_id : string)
| PostSchedule (vehicle_id service_type : string) (preferred_date : pyval)
| GetAvailableSlots (date : pyval)
| PostFeedback (vehicle_id service_id : string) (rating : Z)
    (comments service_quality : pyval)
| GetAlerts (vehicle_id : string)
| GetVehicles
| GetUebaActivity (agent_name : option string).

(** The key under which a route answers. *)
Definition response_key (r : request) : string :=
  match r with
  | PostTelematics _ _ => "result"
  | PostChat _ _ => "response"
  | GetAvailableSlots _ => "slots"
  | GetAlerts _ => "alerts"
  | GetVehicles => "vehicles"
  | GetVehicleStatus _ | PostSchedule _ _ _ | PostFeedback _ _ _ _ _
  | GetUebaActivity _ => "data"
  end.

Section WithEnv.
Context (env : Env) (out : Outside).

(** The monitor [routes.py] makes for itself when it is imported. *)
Context (ueba_monitor : UEBAMonitor).

(** The dictionary wrapped into a value: an [M dict] as an [M pyval]. *)
Definition as_value (c : M dict) : M pyval :=
  d <- c ;; ret (VDict d).

(** What the handler of each route awaits inside its [try]. *)
Definition awaited (r : request) : M pyval :=
  match r with
  | PostTelematics vehicle_id data =>
      let sensor_data := <["vehicle_id" := VStr vehicle_id]> data in
      as_value (Agents.process_telematics_data env vehicle_id sensor_data)
  | GetVehicleStatus vehicle_id =>
      as_value (MasterMore.get_vehicle_status env out vehicle_id)
  | PostChat message session_id =>
      MasterMore.handle_customer_query env out session_id message
  | PostSchedule vehicle_id service_type preferred_date =>
      as_value (Agents.schedule_maintenance env vehicle_id service_type
                  preferred_date)
  | GetAvailableSlots date =>
      slots <- SchedulingMore.get_available_slots env date ;;
      ret (VList (map VDict slots))
  | PostFeedback vehicle_id service_id rating comments service_quality =>
      let feedback_data : dict :=
        list_to_map
          [ ("rating", VInt rating);
            ("comments", comments);
            ("service_quality",
             if truthy service_quality then service_quality else VDict ∅) ] in
      as_value (MasterMore.submit_feedback env out vehicle_id service_id
                  feedback_data)
  | GetAlerts vehicle_id =>
      ask (fun n => get_upcoming_appointments_at out n vehicle_id)
  | GetVehicles =>
      as_value (ask (fun n => get_all_vehicles_at out n))
  | GetUebaActivity agent_name =>
      ret (VDict (Summary.get_activity_summary ueba_monitor agent_name))
  end.

(** The handler of each route. *)
Definition handle (r : request) : M dict :=
  respond (response_key r) (awaited r).

End WithEnv.

(** The action the master agent records for a request, if it serves it. *)
Definition master_action (r : request) : option string :=
  match r with
  | PostTelematics _ _ => Some "process_telematics_data"
  | GetVehicleStatus _ => Some "get_vehicle_status"
  | PostChat _ _ => Some "handle_customer_query"
  | PostSchedule _ _ _ => Some "schedule_maintenance"
  | PostFeedback _ _ _ _ _ => Some "submit_feedback"
  | GetAvailableSlots _ | GetAlerts _ | GetVehicles | GetUebaActivity _ => None
  end.

(** The routes whose handler catches every failure before [respond]. *)
Definition never_fails (r : request) : bool :=
  match r with
  | PostChat _ _ | GetAvailableSlots _ | GetUebaActivity _ => true
  | _ => false
  end.

End Routes.

(** ** More vocabulary *)

Module SpecMore.

(** A computation that relates every world to the one it leaves. *)
Definition keeps {A : Type} (R : World -> World -> Prop) (c : M A) : Prop :=
  forall w, R w (snd (c w)).

(** Nothing was handed to [_handle_anomaly], and the profiles and the model
    are as before. *)
Definition no_alert (w w' : World) : Prop :=
  normal_patterns (ueba_monitor w') = normal_patterns (ueba_monitor w)
  /\ model (ueba_monitor w') = model (ueba_monitor w)
  /\ alerts w' = alerts w.

(** A report about the master agent with the finding of the model alone. *)
Definition model_alert (r : Report.t) : Prop :=
  Report.agent r = "master_agent"
  /\ Report.anomalies r = [UEBA.ml_anomaly "master_agent"].

(** Only such reports were handed to [_handle_anomaly], and the profiles
    and the model are as before. *)
Definition only_model_alerts (w w' : World) : Prop :=
  normal_patterns (ueba_monitor w') = normal_patterns (ueba_monitor w)
  /\ model (ueba_monitor w') = model (ueba_monitor w)
  /\ exists new, alerts w' = alerts w ++ new /\ Forall model_alert new.

(** The actions the profile of [__init__] allows the master agent. *)
Definition master_actions : list string :=
  ["process_telematics_data"; "handle_customer_query";
   "schedule_maintenance"; "submit_feedback"; "get_vehicle_status"].

(** The monitor has the profiles of [__init__]. *)
Definition built_in_profiles (w : World) : Prop :=
  normal_patterns (ueba_monitor w) = UEBA.the_normal_patterns.

(** The monitor of [w'] is that of [w] after one more activity of the
    master agent doing [action]: one entry more in the ledger, one count
    more under the key of the activity, the rest as before. *)
Definition recorded_once (env : Env) (action : string) (w w' : World)
  : Prop :=
  exists metadata,
    ueba_monitor w'
    = {| activity_logs :=
           UEBA.append_activity
             (activity_at env "master_agent" action metadata w)
             (activity_logs (ueba_monitor w));
         model_path := model_path (ueba_monitor w);
         model := model (ueba_monitor w);
         agent_activity_counts :=
           UEBA.count_activity (Summary.activity_key "master_agent" action)
             (agent_activity_counts (ueba_monitor w));
         normal_patterns := normal_patterns (ueba_monitor w) |}.

(** What check 1 counts in world [w]. The clock is read once for each entry
    of [agent_name] among the last hundred of the ledger, in the order of the
    ledger and from step [steps w] on; an entry counts when the seconds
    field of its age at the reading made for it is below 60. *)
Definition within_a_minute (env : Env) (agent_name : string) (w : World)
  : list Activity.t :=
  let mine := recent_of agent_name w in
  let readings := map (utcnow_at env) (seq (steps w) (length mine)) in
  (filter (fun p => td_seconds (p.1 - Activity.timestamp p.2) < 60)
          (zip readings mine)).*2.

(** The monitor is as before. *)
Definition same_monitor (w w' : World) : Prop :=
  ueba_monitor w' = ueba_monitor w.

(** The relation of the alerts under the profiles of [__init__]. *)
Definition model_alerts_only (w w' : World) : Prop :=
  built_in_profiles w -> only_model_alerts w w'.

(** The same when the model cannot give a verdict. *)
Definition silent (env : Env) (w w' : World) : Prop :=
  built_in_profiles w -> model_unusable env w -> no_alert w w'.

End SpecMore.

(** ** More concrete environments *)

Module ScenarioMore.

Import Scenario.

(** [str.lower] on the letters A to Z. *)
Definition lower_letter (c : Ascii.ascii) : Ascii.ascii :=
  let n := Ascii.nat_of_ascii c in
  if (65 <=? n)%nat && (n <=? 90)%nat then Ascii.ascii_of_nat (n + 32) else c.

Fixpoint lower_ascii (s : string) : string :=
  match s with
  | EmptyString => EmptyString
  | String c rest => String (lower_letter c) (lower_ascii rest)
  end.

(** The outside of a chat with the language model [client], if any; the
    database of the conversations is down when [db_fails]. *)
Definition outside_of
    (client : option (nat -> list (string * pyval) -> outcome pyval))
    (db_fails : bool) : Outside :=
  {| lower := lower_ascii;
     get_conversation_history_at := fun _ _ =>
       if db_fails then Raises db_down else Returns [];
     store_conversation_at := fun _ _ _ _ =>
       if db_fails then Raises db_down else Returns tt;
     openai_client := client;
     process_feedback_at := fun _ _ _ _ =>
       Returns (list_to_map [ ("status", VStr "processed") ]);
     get_latest_analysis_at := fun _ _ => Returns VNone;
     get_predictions_at := fun _ _ => Returns VNone;
     get_upcoming_appointments_at := fun _ _ => Returns (VList []);
     get_all_vehicles_at := fun _ => Returns ∅ |}.

(** No language model, and the database answers. *)
Definition offline : Outside := outside_of None false.

(** A ledger with two activities of the master agent and one of the
    customer agent. *)
Definition three_activities : list Activity.t :=
  [ activity_of "master_agent" "get_vehicle_status";
    activity_of "customer_agent" "send_alert";
    activity_of "master_agent" "get_vehicle_status" ].

(** A day on which the hours 9 and 10 are taken. *)
Definition morning_taken : list dict :=
  [ <["time" := VInt 9]> ∅; <["time" := VInt 10]> ∅ ].

(** The quiet environment, with these two appointments on every day. *)
Definition busy_morning : Env :=
  {| SKLEARN_AVAILABLE := SKLEARN_AVAILABLE quiet;
     utcnow_at := utcnow_at quiet;
     now_at := now_at quiet;
     persisted_model := persisted_model quiet;
     fit_and_dump := fit_and_dump quiet;
     fromisoformat_text := fromisoformat_text quiet;
     analyze_data_at := analyze_data_at quiet;
     predict_failures_at := predict_failures_at quiet;
     send_alert_at := send_alert_at quiet;
     get_appointments_by_date_at := fun _ _ => Returns morning_taken;
     store_appointment_at := store_appointment_at quiet |}.

(** The environment in which the database refuses every appointment. *)
Definition database_down : Env := env_of 0 healthy false true.



(** The clock shows second 100. *)
Definition at_second_100 : Env :=
  env_of (100 * US_PER_SECOND) healthy false false.

(** An activity of the feedback agent recorded at second [s]. *)
Definition feedback_at (s : Z) : Activity.t :=
  {| Activity.agent := "feedback_agent";
     Activity.action := "process_feedback";
     Activity.metadata := ∅;
     Activity.timestamp := s * US_PER_SECOND;
     Activity.hour := 0;
     Activity.day_of_week := 3 |}.

(** A ledger of the feedback agent: [old] entries of second 10 and then
    [new] entries of second 90. *)
Definition feedback_ledger (old new : nat) : list Activity.t :=
  replicate old (feedback_at 10) ++ replicate new (feedback_at 90).

End ScenarioMore.

(** ** [agents/diagnosis_agent.py] and the alert of the customer agent *)

(** What the diagnosis and the alert obtain from outside. The health scores
    are floats, which the values of the embedding do not hold: how a score
    compares with an integer is for the environment to say. *)
Record Clinic : Type := {
  (** [score < bound] for a score found in [health_scores] *)
  below : pyval -> Z -> outcome bool;
  (** [self.failure_predictor.predict(metrics, health_scores)] *)
  predict_at : nat -> pyval -> pyval -> outcome pyval;
  (** [self._calculate_failure_timeline(predictions, health_scores)] *)
  failure_timeline : pyval -> pyval -> outcome pyval;
  store_predictions_at : nat -> string -> dict -> outcome unit;
  store_alert_at : nat -> string -> dict -> outcome unit
}.

Module Diagnosis.

(** The four variables the cascade of [predict_failures] sets. *)
Record verdict : Type := Verdict {
  critical_alert : bool;
  auto_schedule : bool;
  recommended_service : pyval;
  alert_level : string
}.

(** Their values before the cascade. *)
Definition all_clear : verdict := Verdict false false VNone "info".

Definition urgent (service : string) : verdict :=
  Verdict true true (VStr service) "critical".

Definition advisory (service : string) : verdict :=
  Verdict true false (VStr service) "warning".

(** [health_scores.get(...)] on a value that may not be a dictionary. *)
Definition as_dict (v : pyval) : outcome dict :=
  match v with
  | VDict d => Returns d
  | _ => Raises (Exception "AttributeError" "object has no attribute 'get'")
  end.

(** [len(anomalies) > 0]. *)
Definition has_anomalies (anomalies : pyval) : outcome bool :=
  match anomalies with
  | VList _ | VDict _ | VStr _ | VIso _ | VFmt _ _ =>
      Returns (truthy anomalies)
  | _ => Raises (Exception "TypeError" "object has no len()")
  end.

(** The first test of a chain of [if]/[elif] that holds decides; a test
    that raises ends the chain. *)
Fixpoint first_that_holds (tests : list (outcome bool * verdict))
  : outcome verdict :=
  match tests with
  | [] => Returns all_clear
  | (test, v) :: rest =>
      match test with
      | Returns true => Returns v
      | Returns false => first_that_holds rest
      | Raises e => Raises e
      end
  end.

Section WithClinic.
Context (env : Env) (clinic : Clinic).

(** [health_scores.get(key, 100) < bound]. *)
Definition score_below (health_scores : dict) (key : string) (bound : Z)
  : outcome bool :=
  match health_scores !! key with
  | Some score => below clinic score bound
  | None => Returns (100 <? bound)
  end.

(** The cascade of [predict_failures]. *)
Definition cascade (health_scores : dict) (anomalies : pyval)
  : outcome verdict :=
  first_that_holds
    [ (score_below health_scores "battery" 30, urgent "battery_replacement");
      (score_below health_scores "engine" 40, urgent "engine_inspection");
      (score_below health_scores "brakes" 30, urgent "brake_replacement");
      (score_below health_scores "oil" 40, advisory "oil_change");
      (score_below health_scores "overall" 50, advisory "general_inspection");
      (has_anomalies anomalies, advisory "diagnostic_check") ].

(** The dictionary [predict_failures] returns. *)
Definition diagnosis_result (vehicle_id : string)
    (predictions timeline health_scores : pyval) (v : verdict)
    (timestamp : Z) : dict :=
  list_to_map
    [ ("vehicle_id", VStr vehicle_id);
      ("predictions", predictions);
      ("failure_timeline", timeline);
      ("critical_alert", VBool (critical_alert v));
      ("alert_level", VStr (alert_level v));
      ("auto_schedule", VBool (auto_schedule v));
      ("recommended_service", recommended_service v);
      ("health_scores", health_scores);
      ("timestamp", VIso timestamp) ].

Definition diagnosis_error (e : exn) : log_line :=
  LogError (VStr ("❌ Diagnosis Agent error: " +:+ exn_msg e)).

(** [DiagnosisAgent.predict_failures]. *)
Definition predict_failures (vehicle_id : string) (analysis_result : dict)
  : M dict :=
  try_except
    (logger (LogInfo
               (VStr ("🔬 Diagnosis Agent: Predicting failures for vehicle "
                      +:+ vehicle_id))) ;;;
     let metrics := get analysis_result "metrics" (VDict ∅) in
     let health_scores := get analysis_result "health_scores" (VDict ∅) in
     let anomalies := get analysis_result "anomalies" (VList []) in
     predictions <-
       ask (fun n => predict_at clinic n metrics health_scores) ;;
     scores <- lift (as_dict health_scores) ;;
     v <- lift (cascade scores anomalies) ;;
     timeline <- lift (failure_timeline clinic predictions health_scores) ;;
     timestamp <- UEBA.utcnow env ;;
     let result :=
       diagnosis_result vehicle_id predictions timeline health_scores v
         timestamp in
     ask (fun n => store_predictions_at clinic n vehicle_id result) ;;;
     ret result)
    (fun e => logger (diagnosis_error e) ;;; raise e).

End WithClinic.

(** The services the cascade can recommend with a booking, and without. *)
Definition booked_services : list string :=
  ["battery_replacement"; "engine_inspection"; "brake_replacement"].

Definition advised_services : list string :=
  ["oil_change"; "general_inspection"; "diagnostic_check"].

(** A verdict the cascade can give. *)
Definition sound (v : verdict) : Prop :=
  v = all_clear
  \/ (exists service, service ∈ booked_services /\ v = urgent service)
  \/ (exists service, service ∈ advised_services /\ v = advisory service).

End Diagnosis.

(** ** [CustomerAgent.send_alert] *)

Module CustomerAlert.

Section WithClinic.
Context (clinic : Clinic).

(** [alert_level == "critical"]. *)
Definition is_critical (alert_level : pyval) : bool :=
  match alert_level with
  | VStr s => String.eqb s "critical"
  | _ => false
  end.

Definition critical_text : string :=
  "🚨 CRITICAL ALERT: Your vehicle {} requires immediate attention. Recommended service: {}".

Definition warning_text : string :=
  "⚠️ WARNING: Your vehicle {} needs maintenance. Recommended service: {}".

Definition alert_error (e : exn) : log_line :=
  LogError (VStr ("❌ Customer Agent alert error: " +:+ exn_msg e)).

(** [CustomerAgent.send_alert]. *)
Definition send_alert (vehicle_id : string) (diagnosis_result : dict)
  : M dict :=
  try_except
    (logger (LogInfo
               (VStr ("📢 Customer Agent: Sending alert for vehicle "
                      +:+ vehicle_id))) ;;;
     let alert_level := get diagnosis_result "alert_level" (VStr "info") in
     let recommended_service :=
       get diagnosis_result "recommended_service" (VStr "inspection") in
     let health_scores := get diagnosis_result "health_scores" (VDict ∅) in
     let message :=
       VFmt (if is_critical alert_level then critical_text else warning_text)
            [VStr vehicle_id; recommended_service] in
     ask (fun n =>
            store_alert_at clinic n vehicle_id
              (list_to_map
                 [ ("message", message);
                   ("level", alert_level);
                   ("recommended_service", recommended_service);
                   ("health_scores", health_scores) ])) ;;;
     ret (list_to_map
            [ ("status", VStr "sent");
              ("vehicle_id", VStr vehicle_id);
              ("message", message) ]))
    (fun e => logger (alert_error e) ;;; raise e).

End WithClinic.

End CustomerAlert.

(** A clinic in which a score is an integer, every call answers, and the
    database takes what it is given unless [db_fails]. *)
Module ScenarioClinic.

Import Scenario.

Definition clinic_of (db_fails : bool) : Clinic :=
  {| below := fun score bound =>
       match score with
       | VInt z => Returns (z <? bound)
       | _ => Raises (Exception "TypeError" "'<' not supported")
       end;
     predict_at := fun _ _ _ => Returns (VDict ∅);
     failure_timeline := fun _ _ => Returns (VDict ∅);
     store_predictions_at := fun _ _ _ =>
       if db_fails then Raises db_down else Returns tt;
     store_alert_at := fun _ _ _ =>
       if db_fails then Raises db_down else Returns tt |}.

(** An analysis with a weak battery and little oil. *)
Definition weak_battery : dict :=
  <["health_scores" :=
      VDict (<["battery" := VInt 20]> (<["oil" := VInt 10]> ∅))]> ∅.

End ScenarioClinic.

(** * Facts *)

(** ** The ledger *)

Module LedgerFacts.

Section Slices.
Context {A : Type}.
Implicit Types (l k : list A) (n : nat).

Lemma last_n_short n l : (length l <= n)%nat -> last_n n l = l.
Proof.
  intros Hle. unfold last_n.
  replace (length l - n)%nat with 0%nat by lia. apply drop_0.
Qed.

Lemma length_last_n n l : length (last_n n l) = (length l `min` n)%nat.
Proof. unfold last_n. rewrite length_drop. lia. Qed.

Lemma last_n_app n l k :
  last_n n (last_n n l ++ k) = last_n n (l ++ k).
Proof.
  unfold last_n. rewrite !length_app, length_drop.
  destruct (decide (length l <= n)%nat) as [Hle|Hgt].
  - replace (length l - n)%nat with 0%nat by lia.
    rewrite drop_0. f_equal. lia.
  - rewrite (drop_app l k (length l + length k - n)).
    rewrite (drop_app (drop _ l) k), drop_drop, length_drop.
    f_equal; f_equal; lia.
Qed.

Lemma last_n_suffix n l : exists front, l = front ++ last_n n l.
Proof. exists (take (length l - n) l). unfold last_n. by rewrite take_drop. Qed.

End Slices.

Lemma MAX_LOGS_eq : Z.of_nat UEBA.MAX_LOGS = 10000.
Proof. reflexivity. Qed.

(** The trimming of the source is [l[-10000:]] in both branches. *)
Lemma append_activity_last_n a logs :
  UEBA.append_activity a logs = last_n UEBA.MAX_LOGS (logs ++ [a]).
Proof.
  unfold UEBA.append_activity.
  destruct (len (logs ++ [a]) >? 10000) eqn:E; [done|].
  symmetry. apply last_n_short.
  unfold len in E. pose proof MAX_LOGS_eq. lia.
Qed.

Lemma appended_last_n evs : forall logs,
  (length logs <= UEBA.MAX_LOGS)%nat ->
  appended logs evs = last_n UEBA.MAX_LOGS (logs ++ evs).
Proof.
  unfold appended.
  induction evs as [|a evs IH] using rev_ind; intros logs Hlogs.
  - simpl. rewrite app_nil_r. symmetry. by apply last_n_short.
  - rewrite foldl_snoc, append_activity_last_n, IH by done.
    by rewrite last_n_app, app_assoc.
Qed.

(** The bound holds after every append, whatever the ledger was. *)
Lemma append_activity_bounded a logs :
  (length (UEBA.append_activity a logs) <= UEBA.MAX_LOGS)%nat.
Proof. rewrite append_activity_last_n, length_last_n. lia. Qed.

Lemma appended_bounded logs evs :
  (length logs <= UEBA.MAX_LOGS)%nat ->
  (length (appended logs evs) <= UEBA.MAX_LOGS)%nat.
Proof. intros H. rewrite appended_last_n, length_last_n by done. lia. Qed.

End LedgerFacts.

(** ** The monitor *)

Module UEBAFacts.

Lemma quiet_step_refl w : quiet_step w w.
Proof. by repeat split. Qed.

Lemma quiet_step_trans w1 w2 w3 :
  quiet_step w1 w2 -> quiet_step w2 w3 -> quiet_step w1 w3.
Proof. unfold quiet_step. intros (-> & -> & ->) (-> & -> & ->). done. Qed.

Lemma quiet_step_tick w : quiet_step w (tick w).
Proof. by repeat split. Qed.

Create HintDb ueba.
#[local] Hint Resolve quiet_step_refl quiet_step_tick : ueba.

Section WithEnv.
Context (env : Env).
Implicit Types (w : World) (agent_name action : string).

Lemma utcnow_eq w :
  UEBA.utcnow env w = (Returns (utcnow_at env (steps w)), tick w).
Proof. reflexivity. Qed.

(** The scan of check 1 returns, keeps only entries of the agent, and only
    reads the clock. *)
Lemma recent_within_spec agent_name logs : forall w,
  exists kept w',
    UEBA.recent_within env agent_name logs w = (Returns kept, w')
    /\ quiet_step w w'
    /\ (length kept
        <= length (filter (fun log => Activity.agent log = agent_name) logs))%nat.
Proof.
  induction logs as [|log rest IH]; intros w; simpl.
  - exists [], w. repeat split; auto with ueba.
  - rewrite filter_cons. destruct (decide (Activity.agent log = agent_name)).
    + unfold bind at 1. rewrite utcnow_eq.
      destruct (IH (tick w)) as (kept & w' & E & Q & L).
      unfold bind. rewrite E. unfold ret.
      eexists _, w'. split; [reflexivity|]. split.
      * eapply quiet_step_trans; [apply quiet_step_tick|done].
      * destruct (_ <? 60); simpl; lia.
    + apply IH.
Qed.

Lemma length_recent_le agent_name (logs : list Activity.t) :
  (length (filter (fun log => Activity.agent log = agent_name)
                  (last_n 100 logs)) <= 100)%nat.
Proof.
  etrans; [apply length_filter|].
  rewrite LedgerFacts.length_last_n. lia.
Qed.

(** Check 1 returns; its findings are rate-limit findings of severity high,
    and there is none without a profile or with a limit of 100 or more. *)
Lemma rate_limit_check_spec agent_name w :
  exists rate w',
    UEBA.rate_limit_check env agent_name w = (Returns rate, w')
    /\ quiet_step w w'
    /\ (forall a, a ∈ rate ->
          Anomaly.type a = "rate_limit_exceeded"
          /\ Anomaly.severity a = "high")
    /\ (normal_patterns (ueba_monitor w) !! agent_name = None -> rate = [])
    /\ (forall pattern,
          normal_patterns (ueba_monitor w) !! agent_name = Some pattern ->
          100 <= Pattern.max_calls_per_minute pattern -> rate = []).
Proof.
  unfold UEBA.rate_limit_check, bind, get_monitor.
  destruct (normal_patterns (ueba_monitor w) !! agent_name) as [pattern|] eqn:P.
  - destruct (recent_within_spec agent_name
                (last_n 100 (activity_logs (ueba_monitor w))) w)
      as (kept & w' & E & Q & L).
    rewrite E. unfold ret. eexists _, w'. split; [reflexivity|].
    split; [done|].
    pose proof (length_recent_le agent_name (activity_logs (ueba_monitor w))).
    split; [|split; [done|]].
    + intros a Ha. destruct (_ >? _); [|by apply elem_of_nil in Ha].
      apply list_elem_of_singleton in Ha. by subst.
    + intros p [= <-] Hbig.
      destruct (len kept >? Pattern.max_calls_per_minute pattern) eqn:G;
        [|done].
      unfold len in G. lia.
  - exists [], w. split; [done|]. split; [auto with ueba|].
    split; [|done]. intros a Ha. by apply elem_of_nil in Ha.
Qed.

(** [_extract_features] returns and only reads the clock; it gives a row
    exactly when the agent has five entries among the last hundred. *)
Lemma _extract_features_spec agent_name action w :
  exists features w',
    UEBA._extract_features env agent_name action w = (Returns features, w')
    /\ quiet_step w w'
    /\ (features = None <-> len (recent_of agent_name w) < 5).
Proof.
  unfold UEBA._extract_features, bind, get_monitor. fold (recent_of agent_name w).
  destruct (len (recent_of agent_name w) <? 5) eqn:E.
  - exists None, w. split; [done|]. split; [auto with ueba|]. split; [lia|done].
  - rewrite utcnow_eq. cbn. eexists (Some _), _. split; [reflexivity|].
    split; [by repeat split|]. split; [done|lia].
Qed.

(** Check 3 never raises and only reads the clock. When it reports, there
    was a model, scikit-learn, ten entries in the ledger, five recent ones of
    the agent, and the label -1 for the row. *)
Lemma ml_check_spec agent_name action w :
  exists ml w',
    UEBA.ml_check env agent_name action w = (Returns ml, w')
    /\ quiet_step w w'
    /\ (ml = []
        \/ ml = [UEBA.ml_anomaly agent_name]
           /\ exists the_model row labels,
                model (ueba_monitor w) = Some the_model
                /\ SKLEARN_AVAILABLE env = true
                /\ 10 <= len (activity_logs (ueba_monitor w))
                /\ 5 <= len (recent_of agent_name w)
                /\ predict the_model [row] = Returns (-1 :: labels)).
Proof.
  unfold UEBA.ml_check, bind, get_monitor.
  destruct (model (ueba_monitor w)) as [the_model|] eqn:Hm;
    [|exists [], w; auto with ueba].
  destruct (SKLEARN_AVAILABLE env) eqn:Hs; simpl;
    [|exists [], w; auto with ueba].
  destruct (len (activity_logs (ueba_monitor w)) >=? 10) eqn:Hlen;
    [|exists [], w; auto with ueba].
  unfold try_except, bind.
  destruct (_extract_features_spec agent_name action w)
    as (features & w' & E & Q & Hf).
  rewrite E. destruct features as [row|]; [|exists [], w'; auto].
  unfold lift, ret. destruct (predict the_model [row]) as [prediction|e] eqn:Hp;
    [|exists [], w'; auto].
  destruct prediction as [|label labels]; simpl; [exists [], w'; auto|].
  destruct (label =? -1) eqn:Hl; [|exists [], w'; auto].
  eexists _, w'. split; [reflexivity|]. split; [done|]. right.
  split; [done|]. exists the_model, row, labels.
  assert (label = -1) as -> by lia.
  repeat split; try done; try lia.
  destruct (decide (len (recent_of agent_name w) < 5)) as [Hlt|]; [|lia].
  apply Hf in Hlt. done.
Qed.

(** [_check_anomaly] never raises: it returns the report made of the
    findings of the three checks, in this order. *)
Lemma _check_anomaly_spec agent_name action w :
  exists rate ml w1 w',
    UEBA.rate_limit_check env agent_name w = (Returns rate, w1)
    /\ UEBA.ml_check env agent_name action w1 = (Returns ml, w')
    /\ UEBA._check_anomaly env agent_name action w
       = (Returns (UEBA.make_report agent_name action
                     (rate
                      ++ UEBA.unauthorized_check (ueba_monitor w)
                           agent_name action
                      ++ ml)), w')
    /\ quiet_step w w1 /\ quiet_step w1 w'.
Proof.
  destruct (rate_limit_check_spec agent_name w) as (rate & w1 & E1 & Q1 & _).
  destruct (ml_check_spec agent_name action w1) as (ml & w' & E2 & Q2 & _).
  exists rate, ml, w1, w'. repeat split; try done; try apply Q1; try apply Q2.
  unfold UEBA._check_anomaly, bind. rewrite E1. unfold get_monitor.
  rewrite E2. unfold ret. destruct Q1 as (-> & _). done.
Qed.

(** [log_agent_activity] never raises and its value is [None]. It appends
    the activity, checks it in the world [after_append], hands a report to
    [_handle_anomaly] if the check made one, and counts the call. *)
Lemma log_agent_activity_spec agent_name action metadata w :
  exists found w2 w',
    UEBA._check_anomaly env agent_name action
      (after_append env agent_name action metadata w) = (Returns found, w2)
    /\ UEBA.log_agent_activity env agent_name action metadata w
       = (Returns None, w')
    /\ activity_logs (ueba_monitor w')
       = UEBA.append_activity (activity_at env agent_name action metadata w)
           (activity_logs (ueba_monitor w))
    /\ model (ueba_monitor w') = model (ueba_monitor w)
    /\ normal_patterns (ueba_monitor w') = normal_patterns (ueba_monitor w)
    /\ calls w' = calls w ++ [Recorded agent_name action]
    /\ alerts w' = alerts w ++ match found with Some r => [r] | None => [] end.
Proof.
  destruct (_check_anomaly_spec agent_name action
              (after_append env agent_name action metadata w))
    as (rate & ml & w1 & w2 & _ & _ & E & Q1 & Q2).
  pose proof (quiet_step_trans _ _ _ Q1 Q2) as (Qm & Ql & Qc).
  clear Q1 Q2.
  remember (UEBA.make_report agent_name action _) as found eqn:Hfound.
  clear Hfound. exists found, w2. unfold UEBA.log_agent_activity.
  unfold bind at 1. rewrite utcnow_eq.
  unfold bind at 1. rewrite utcnow_eq.
  unfold bind at 1. rewrite utcnow_eq.
  unfold bind at 1. unfold get_monitor at 1.
  unfold bind at 1. unfold put_monitor at 1.
  unfold bind at 1. unfold emit at 1. cbn [tick with_monitor ueba_monitor steps logged calls].
  unfold bind at 1.
  change (UEBA._check_anomaly env agent_name action _)
    with (UEBA._check_anomaly env agent_name action
            (after_append env agent_name action metadata w)).
  rewrite E.
  destruct found as [r|]; cbn.
  - eexists. split; [reflexivity|]. split; [reflexivity|].
    cbn. rewrite Qm, Qc. cbn. repeat split.
    unfold alerts. cbn. rewrite Ql. cbn.
    rewrite <- !app_assoc. rewrite omap_app. reflexivity.
  - eexists. split; [reflexivity|]. split; [reflexivity|].
    cbn. rewrite Qm, Qc. cbn. repeat split.
    unfold alerts. cbn. rewrite Ql. cbn. by rewrite app_nil_r.
Qed.

End WithEnv.

End UEBAFacts.

(** ** What the monitor guarantees *)

Module MonitorClaims.

Import UEBAFacts LedgerFacts Scenario.

Lemma findings_make_report agent_name action anomalies :
  findings (UEBA.make_report agent_name action anomalies) = anomalies.
Proof. by destruct anomalies. Qed.

Lemma has_type_app ty l k : has_type ty (l ++ k) <-> has_type ty l \/ has_type ty k.
Proof.
  unfold has_type. split.
  - intros (a & Ha & Hty). apply elem_of_app in Ha as [Ha|Ha]; eauto.
  - intros [(a & Ha & Hty)|(a & Ha & Hty)]; exists a;
      (split; [apply elem_of_app; auto|done]).
Qed.

Lemma has_type_nil ty : ~ has_type ty [].
Proof. intros (a & Ha & _). by apply elem_of_nil in Ha. Qed.

(** The findings of check 2 are of type [unauthorized_action]. *)
Lemma unauthorized_check_type self agent_name action a :
  a ∈ UEBA.unauthorized_check self agent_name action ->
  Anomaly.type a = "unauthorized_action" /\ Anomaly.severity a = "critical".
Proof.
  unfold UEBA.unauthorized_check.
  destruct (normal_patterns self !! agent_name) as [pattern|];
    [|by intros ?%elem_of_nil].
  destruct (decide _); [by intros ?%elem_of_nil|].
  intros ->%list_elem_of_singleton. done.
Qed.

Lemma ledger_log_all env requests : forall w,
  activity_logs (ueba_monitor (log_all env requests w))
  = appended (activity_logs (ueba_monitor w)) (activities_of env requests w).
Proof.
  induction requests as [|[[agent_name action] metadata] rest IH]; intros w.
  - done.
  - simpl. rewrite IH.
    destruct (log_agent_activity_spec env agent_name action metadata w)
      as (found & w2 & w' & _ & E & Hlogs & _).
    rewrite E. simpl. by rewrite Hlogs.
Qed.

Lemma activities_of_requests env requests : forall w,
  map (fun a => (Activity.agent a, Activity.action a))
      (activities_of env requests w)
  = map (fun r => (r.1.1, r.1.2)) requests.
Proof.
  induction requests as [|[[agent_name action] metadata] rest IH]; intros w.
  - done.
  - simpl. by rewrite IH.
Qed.

(** C6: after [N] calls of the record operation on an empty ledger, with
    [N] above the capacity of 10000, the ledger holds exactly the 10000
    activities built last, in the order of the calls; the activities are
    those of the requests, whatever their agents; and after any number of
    the calls the ledger is within the capacity. *)
Theorem ledger_keeps_most_recent env requests w :
  activity_logs (ueba_monitor w) = [] ->
  (UEBA.MAX_LOGS < length requests)%nat ->
  let built := activities_of env requests w in
  let ledger := activity_logs (ueba_monitor (log_all env requests w)) in
  ledger = drop (length requests - UEBA.MAX_LOGS) built
  /\ length ledger = UEBA.MAX_LOGS
  /\ map (fun a => (Activity.agent a, Activity.action a)) built
     = map (fun r => (r.1.1, r.1.2)) requests
  /\ forall k,
       (length (activity_logs
                  (ueba_monitor (log_all env (take k requests) w)))
        <= UEBA.MAX_LOGS)%nat.
Proof.
  intros Hempty Hmany built ledger.
  assert (length built = length requests) as Hlen.
  { pose proof (activities_of_requests env requests w) as H.
    apply (f_equal length) in H. by rewrite !length_map in H. }
  assert (ledger = last_n UEBA.MAX_LOGS built) as ->.
  { unfold ledger. rewrite ledger_log_all, Hempty.
    rewrite appended_last_n by (simpl; lia). done. }
  split; [unfold last_n; by rewrite Hlen|].
  split; [rewrite length_last_n; lia|].
  split; [apply activities_of_requests|].
  intros k. rewrite ledger_log_all, Hempty.
  apply appended_bounded. simpl. lia.
Qed.

Lemma ledger_keeps_most_recent_witness :
  let requests :=
    replicate (S UEBA.MAX_LOGS) ("feedback_agent", "process_feedback", None) in
  let built := activities_of quiet requests world0 in
  let ledger := activity_logs (ueba_monitor (log_all quiet requests world0)) in
  ledger = drop (length requests - UEBA.MAX_LOGS) built
  /\ length ledger = UEBA.MAX_LOGS.
Proof.
  intros requests built ledger.
  destruct (ledger_keeps_most_recent quiet requests world0) as (H1 & H2 & _).
  - reflexivity.
  - unfold requests. rewrite length_replicate. lia.
  - split; [exact H1|exact H2].
Defined.

(** C8: for an agent with a profile, the check reports an
    [unauthorized_action] finding of severity critical when the action is
    not among the allowed ones, and none when it is, whatever the ledger
    holds; the finding stands next to whatever check 1 found for the rate:
    the findings are those of check 1, then those of check 2, then those of
    check 3. *)
Theorem unauthorized_action_iff_not_allowed env agent_name action pattern w :
  normal_patterns (ueba_monitor w) !! agent_name = Some pattern ->
  exists found rate ml w1 w',
    UEBA._check_anomaly env agent_name action w = (Returns found, w')
    /\ UEBA.rate_limit_check env agent_name w = (Returns rate, w1)
    /\ findings found
       = rate ++ UEBA.unauthorized_check (ueba_monitor w) agent_name action
         ++ ml
    /\ (action ∉ Pattern.allowed_actions pattern ->
        exists a, a ∈ findings found
                  /\ Anomaly.type a = "unauthorized_action"
                  /\ Anomaly.severity a = "critical")
    /\ (action ∈ Pattern.allowed_actions pattern ->
        ~ has_type "unauthorized_action" (findings found)).
Proof.
  intros Hp.
  destruct (_check_anomaly_spec env agent_name action w)
    as (rate & ml & w1 & w' & E1 & E2 & E & _ & _).
  destruct (rate_limit_check_spec env agent_name w)
    as (rate' & w1' & E1' & _ & Hrate & _).
  rewrite E1 in E1'. injection E1' as <- <-.
  destruct (ml_check_spec env agent_name action w1)
    as (ml' & w'' & E2' & _ & Hml).
  rewrite E2 in E2'. injection E2' as <- <-.
  eexists _, rate, ml, w1, w'. split; [exact E|]. split; [exact E1|].
  rewrite findings_make_report. split; [done|].
  unfold UEBA.unauthorized_check. rewrite Hp. split.
  - intros Hnot. destruct (decide _) as [|_]; [done|].
    eexists. split.
    { apply elem_of_app. right. apply elem_of_app. left.
      apply list_elem_of_singleton. reflexivity. }
    split; reflexivity.
  - intros Hin. destruct (decide _) as [_|]; [|done].
    rewrite !has_type_app. intros [(a & Ha & Hty)|[H|(a & Ha & Hty)]].
    + apply Hrate in Ha as [Ha _]. congruence.
    + by apply has_type_nil in H.
    + destruct Hml as [->|[-> _]]; [by apply elem_of_nil in Ha|].
      apply list_elem_of_singleton in Ha. subst a. discriminate.
Qed.

Lemma unauthorized_action_iff_not_allowed_witness :
  exists found w',
    UEBA._check_anomaly quiet "feedback_agent" "reboot" world0
    = (Returns found, w')
    /\ exists a, a ∈ findings found
                 /\ Anomaly.type a = "unauthorized_action"
                 /\ Anomaly.severity a = "critical".
Proof.
  destruct (unauthorized_action_iff_not_allowed quiet
              "feedback_agent" "reboot"
              (Pattern.Build 20 ["process_feedback"; "get_feedback_summary"])
              world0)
    as (found & rate & ml & w1 & w' & E & _ & _ & Hnot & _).
  - reflexivity.
  - exists found, w'. split; [exact E|]. apply Hnot.
    intros Hin. repeat (apply elem_of_cons in Hin as [Hin|Hin]; [discriminate|]).
    by apply elem_of_nil in Hin.
Defined.

(** The entries of an agent among the last hundred of the ledger are
    entries of the agent in the ledger: fewer than five in the ledger means
    fewer than five recent ones. *)
Lemma recent_of_le_ledger agent_name w :
  len (recent_of agent_name w)
  <= len (filter (fun log => Activity.agent log = agent_name)
                 (activity_logs (ueba_monitor w))).
Proof.
  unfold recent_of, len.
  destruct (last_n_suffix 100 (activity_logs (ueba_monitor w)))
    as [front Hfront].
  rewrite Hfront at 2. rewrite filter_app, length_app. lia.
Qed.

(** C9: when the agent has fewer than five entries among the last hundred
    of the ledger, and so also when it has fewer than five in the whole
    ledger, the check returns and reports no [ml_anomaly] finding, the
    finding the specification calls a statistical outlier. *)
Theorem no_outlier_below_five_events env agent_name action w :
  len (recent_of agent_name w) < 5 ->
  exists found w',
    UEBA._check_anomaly env agent_name action w = (Returns found, w')
    /\ ~ has_type "ml_anomaly" (findings found).
Proof.
  intros Hfew.
  destruct (_check_anomaly_spec env agent_name action w)
    as (rate & ml & w1 & w' & E1 & E2 & E & Q1 & _).
  destruct (rate_limit_check_spec env agent_name w)
    as (rate' & w1' & E1' & _ & Hrate & _).
  rewrite E1 in E1'. injection E1' as <- <-.
  destruct (ml_check_spec env agent_name action w1)
    as (ml' & w'' & E2' & _ & Hml).
  rewrite E2 in E2'. injection E2' as <- <-.
  eexists _, w'. split; [exact E|].
  rewrite findings_make_report, !has_type_app.
  intros [(a & Ha & Hty)|[(a & Ha & Hty)|H]].
  - apply Hrate in Ha as [Ha _]. congruence.
  - apply unauthorized_check_type in Ha as [Ha _]. congruence.
  - destruct Hml as [->|[_ (m & row & labels & _ & _ & _ & Hfive & _)]];
      [by apply has_type_nil in H|].
    unfold recent_of in Hfive, Hfew. destruct Q1 as (Qm & _).
    rewrite Qm in Hfive. lia.
Qed.

Lemma no_outlier_below_five_events_witness :
  exists found w',
    UEBA._check_anomaly (env_with_model outlier_model) "feedback_agent"
      "process_feedback"
      (world_with (Some outlier_model)
         (replicate 4 (activity_of "feedback_agent" "process_feedback")
          ++ replicate 8 (activity_of "master_agent" "submit_feedback")))
    = (Returns found, w')
    /\ ~ has_type "ml_anomaly" (findings found).
Proof.
  apply (no_outlier_below_five_events (env_with_model outlier_model)).
  vm_compute. reflexivity.
Defined.

(** The world the scenarios start from is the one [MasterAgent()] leaves
    when there is neither scikit-learn nor a persisted model. *)
Lemma fresh_world_quiet : Agents.fresh_world quiet = Returns world0.
Proof. vm_compute. reflexivity. Qed.

(** C10: the check reports an [ml_anomaly] finding only if the ledger
    holds at least ten entries, of any agents; the agent must also have five
    among the last hundred, and there must be a model and scikit-learn. *)
Theorem outlier_needs_ten_events env agent_name action w found w' :
  UEBA._check_anomaly env agent_name action w = (Returns found, w') ->
  has_type "ml_anomaly" (findings found) ->
  10 <= len (activity_logs (ueba_monitor w))
  /\ 5 <= len (recent_of agent_name w)
  /\ model (ueba_monitor w) <> None
  /\ SKLEARN_AVAILABLE env = true.
Proof.
  intros Hrun Hml.
  destruct (_check_anomaly_spec env agent_name action w)
    as (rate & ml & w1 & w2 & E1 & E2 & E & Q1 & _).
  rewrite Hrun in E. injection E as -> <-.
  destruct (rate_limit_check_spec env agent_name w)
    as (rate' & w1' & E1' & _ & Hrate & _).
  rewrite E1 in E1'. injection E1' as <- <-.
  destruct (ml_check_spec env agent_name action w1)
    as (ml' & w'' & E2' & _ & Hcase).
  rewrite E2 in E2'. injection E2' as <- <-.
  rewrite findings_make_report, !has_type_app in Hml.
  destruct Hml as [(a & Ha & Hty)|[(a & Ha & Hty)|H]].
  - apply Hrate in Ha as [Ha _]. congruence.
  - apply unauthorized_check_type in Ha as [Ha _]. congruence.
  - destruct Hcase
      as [->|[_ (m & row & labels & Hm & Hs & Hten & Hfive & _)]];
      [by apply has_type_nil in H|].
    unfold recent_of in *. destruct Q1 as (Qm & _). rewrite Qm in *.
    rewrite Hm. done.
Qed.

Lemma outlier_needs_ten_events_witness :
  let w := world_with (Some outlier_model)
             (replicate 10 (activity_of "feedback_agent" "process_feedback")) in
  10 <= len (activity_logs (ueba_monitor w))
  /\ 5 <= len (recent_of "feedback_agent" w)
  /\ model (ueba_monitor w) <> None
  /\ SKLEARN_AVAILABLE (env_with_model outlier_model) = true.
Proof.
  intros w.
  pose (run := UEBA._check_anomaly (env_with_model outlier_model)
                 "feedback_agent" "process_feedback" w).
  apply (outlier_needs_ten_events (env_with_model outlier_model)
           "feedback_agent" "process_feedback" w
           (match fst run with Returns found => found | Raises _ => None end)
           (snd run)).
  - vm_compute. reflexivity.
  - exists (UEBA.ml_anomaly "feedback_agent"). split; [|reflexivity].
    vm_compute. constructor.
Defined.

(** The bound on the whole ledger is a condition of its own: with nine
    entries, all of one agent, the model that calls every row an outlier is
    not asked, and with ten it is; a model that calls every row an inlier
    gives no finding. *)
Lemma nine_events_are_not_scored :
  let run n m :=
    UEBA._check_anomaly (env_with_model m) "feedback_agent" "process_feedback"
      (world_with (Some m)
         (replicate n (activity_of "feedback_agent" "process_feedback"))) in
  fst (run 9%nat outlier_model) = Returns None
  /\ (exists r, fst (run 10%nat outlier_model) = Returns (Some r)
                /\ Report.anomalies r = [UEBA.ml_anomaly "feedback_agent"])
  /\ fst (run 10%nat inlier_model) = Returns None.
Proof.
  split; [vm_compute; reflexivity|].
  split; [|vm_compute; reflexivity].
  eexists. split; vm_compute; reflexivity.
Qed.

(** Without scikit-learn, a missing or unreadable model file leaves the
    monitor without a model; the constructor does not raise. *)
Lemma no_model_without_sklearn env :
  SKLEARN_AVAILABLE env = false ->
  (persisted_model env = None
   \/ exists e, persisted_model env = Some (Raises e)) ->
  exists self, UEBA.__init__ env = Returns self /\ model self = None.
Proof.
  intros Hs Hfile. unfold UEBA.__init__, UEBA._load_or_create_model,
    UEBA._create_model.
  destruct Hfile as [->|[e ->]]; rewrite Hs; simpl; eauto.
Qed.

(** Check 3 is silent when the model cannot give a verdict. *)
Lemma ml_check_silent env agent_name action w :
  model_unusable env w ->
  exists w', UEBA.ml_check env agent_name action w = (Returns [], w').
Proof.
  intros Hno.
  destruct (ml_check_spec env agent_name action w)
    as (ml & w' & E & _ & [->|[_ (m & row & labels & Hm & Hs & _ & _ & Hp)]]);
    [by exists w'|].
  destruct Hno as [Hnone|[Hfalse|(m' & Hm' & Hraise)]]; [congruence..|].
  rewrite Hm in Hm'. injection Hm' as <-.
  destruct (Hraise [row]) as [e He]. congruence.
Qed.

(** When the model cannot give a verdict, the record operation does not
    raise: the check it makes on the ledger with the new activity returns
    the report of the findings of checks 1 and 2 alone, and that report, if
    any, is what the call hands to its handler. *)
Theorem policy_findings_without_model env agent_name action metadata w :
  model_unusable env w ->
  exists rate w1 w2 w',
    let checked := after_append env agent_name action metadata w in
    let policy :=
      rate ++ UEBA.unauthorized_check (ueba_monitor checked) agent_name action in
    UEBA.rate_limit_check env agent_name checked = (Returns rate, w1)
    /\ UEBA._check_anomaly env agent_name action checked
       = (Returns (UEBA.make_report agent_name action policy), w2)
    /\ UEBA.log_agent_activity env agent_name action metadata w
       = (Returns None, w')
    /\ alerts w'
       = alerts w ++ match UEBA.make_report agent_name action policy with
                     | Some r => [r]
                     | None => []
                     end.
Proof.
  intros Hno.
  set (checked := after_append env agent_name action metadata w).
  destruct (log_agent_activity_spec env agent_name action metadata w)
    as (found & w2 & w' & Hcheck & Hcall & _ & _ & _ & _ & Halerts).
  fold checked in Hcheck.
  destruct (_check_anomaly_spec env agent_name action checked)
    as (rate & ml & w1 & w2' & E1 & E2 & E & (Qm & _) & _).
  destruct (ml_check_silent env agent_name action w1) as (w2'' & Hsilent).
  { unfold model_unusable in *. rewrite Qm. exact Hno. }
  rewrite E2 in Hsilent. injection Hsilent as -> <-.
  rewrite app_nil_r in E. rewrite Hcheck in E. injection E as -> <-.
  exists rate, w1, w2, w'. cbn zeta. fold checked. repeat split; done.
Qed.

Lemma policy_findings_without_model_witness :
  exists w',
    UEBA.log_agent_activity quiet "feedback_agent" "reboot" None
      (world_with (Some broken_model) [])
    = (Returns None, w')
    /\ exists r, alerts w' = [r]
                 /\ has_type "unauthorized_action" (Report.anomalies r).
Proof.
  destruct (policy_findings_without_model quiet "feedback_agent" "reboot"
              None (world_with (Some broken_model) []))
    as (rate & w1 & w2 & w' & E1 & _ & Hcall & Halerts).
  - right. left. reflexivity.
  - exists w'. split; [exact Hcall|].
    vm_compute in E1. injection E1 as <- _. vm_compute in Halerts.
    eexists. split; [exact Halerts|].
    eexists. split; [constructor|reflexivity].
Defined.

(** C1, as the code has it: the record operation never raises and its
    value is [None] on every call. The report of the merged findings is the
    value of the check the call makes on the ledger with the new activity:
    a report carrying the findings, the agent and the action when there is
    at least one finding, [None] when there is none; the call hands that
    report to its handler and does not return it. *)
Theorem log_agent_activity_returns_none env agent_name action metadata w :
  exists found w2 w',
    UEBA._check_anomaly env agent_name action
      (after_append env agent_name action metadata w) = (Returns found, w2)
    /\ (found = None <-> findings found = [])
    /\ (forall r, found = Some r ->
          Report.agent r = agent_name /\ Report.action r = action
          /\ Report.detected r = true)
    /\ UEBA.log_agent_activity env agent_name action metadata w
       = (Returns None, w')
    /\ alerts w' = alerts w ++ match found with Some r => [r] | None => [] end.
Proof.
  destruct (log_agent_activity_spec env agent_name action metadata w)
    as (found & w2 & w' & Hcheck & Hcall & _ & _ & _ & _ & Halerts).
  destruct (_check_anomaly_spec env agent_name action
              (after_append env agent_name action metadata w))
    as (rate & ml & w1 & w2' & _ & _ & E & _).
  rewrite Hcheck in E. injection E as -> <-.
  eexists _, w2, w'. split; [exact Hcheck|].
  split; [|split; [|split; [exact Hcall|exact Halerts]]].
  - rewrite findings_make_report.
    destruct (rate ++ _ ++ ml); simpl; split; intros; congruence.
  - intros r. destruct (rate ++ _ ++ ml); simpl; [done|].
    intros [= <-]. done.
Qed.

(** C1, as the specification words it, fails: the call below finds an
    unauthorized action and hands the report to the handler, and its value
    is [None], not the report. *)
Lemma report_found_but_not_returned :
  let run :=
    UEBA.log_agent_activity quiet "feedback_agent" "reboot" None world0 in
  exists r,
    alerts (snd run) = [r]
    /\ has_type "unauthorized_action" (Report.anomalies r)
    /\ fst run = Returns None
    /\ fst run <> Returns (Some r).
Proof.
  eexists. split; [vm_compute; reflexivity|].
  split; [eexists; split; [constructor|reflexivity]|].
  split; [vm_compute; reflexivity|].
  vm_compute. discriminate.
Qed.

(** No rate-limit finding is ever made for a profile whose limit is 100 or
    more: check 1 counts within the last hundred entries of the ledger. *)
Lemma rate_limit_silent_from_hundred env agent_name action pattern w :
  normal_patterns (ueba_monitor w) !! agent_name = Some pattern ->
  100 <= Pattern.max_calls_per_minute pattern ->
  exists found w',
    UEBA._check_anomaly env agent_name action w = (Returns found, w')
    /\ ~ has_type "rate_limit_exceeded" (findings found).
Proof.
  intros Hp Hbig.
  destruct (_check_anomaly_spec env agent_name action w)
    as (rate & ml & w1 & w' & E1 & E2 & E & _ & _).
  destruct (rate_limit_check_spec env agent_name w)
    as (rate' & w1' & E1' & _ & _ & _ & Hsilent).
  rewrite E1 in E1'. injection E1' as <- <-.
  destruct (ml_check_spec env agent_name action w1)
    as (ml' & w'' & E2' & _ & Hml).
  rewrite E2 in E2'. injection E2' as <- <-.
  eexists _, w'. split; [exact E|].
  rewrite findings_make_report, (Hsilent pattern Hp Hbig), !has_type_app.
  intros [H|[(a & Ha & Hty)|(a & Ha & Hty)]].
  - by apply has_type_nil in H.
  - apply unauthorized_check_type in Ha as [Ha _]. congruence.
  - destruct Hml as [->|[-> _]]; [by apply elem_of_nil in Ha|].
    apply list_elem_of_singleton in Ha. subst a. discriminate.
Qed.

(** C3 on the code: [master_agent] has the limit 100. After 100 calls of
    it, a further call at the same instant puts 101 entries of the agent
    into the ledger, all with the same timestamp, and no finding is made:
    nothing reaches the handler. *)
Theorem rate_limit_missed_for_master_agent :
  let w100 :=
    repeat_log quiet 100 "master_agent" "process_telematics_data" world0 in
  let run :=
    UEBA.log_agent_activity quiet "master_agent" "process_telematics_data"
      None w100 in
  Pattern.max_calls_per_minute
    <$> normal_patterns (ueba_monitor w100) !! "master_agent" = Some 100
  /\ map (fun a => (Activity.agent a, Activity.timestamp a))
         (activity_logs (ueba_monitor (snd run)))
     = replicate 101 ("master_agent", 0)
  /\ fst run = Returns None
  /\ alerts (snd run) = [].
Proof. vm_compute. repeat split; reflexivity. Qed.

(** C7 on the code: without scikit-learn and without a persisted model the
    monitor has no model. [data_analysis_agent] has the limit 200. After 200
    calls of it, a further call at the same instant does not raise, and it
    makes no rate-limit finding either: with or without a model, check 1
    counts within the last hundred entries of the ledger, and nothing
    reaches the handler. *)
Theorem rate_limit_missed_without_model :
  let w200 :=
    repeat_log quiet 200 "data_analysis_agent" "analyze_data" world0 in
  let run :=
    UEBA.log_agent_activity quiet "data_analysis_agent" "analyze_data"
      None w200 in
  Agents.fresh_world quiet = Returns world0
  /\ model (ueba_monitor w200) = None
  /\ Pattern.max_calls_per_minute
       <$> normal_patterns (ueba_monitor w200) !! "data_analysis_agent"
     = Some 200
  /\ map (fun a => (Activity.agent a, Activity.timestamp a))
         (activity_logs (ueba_monitor (snd run)))
     = replicate 201 ("data_analysis_agent", 0)
  /\ fst run = Returns None
  /\ alerts (snd run) = [].
Proof. vm_compute. repeat split; reflexivity. Qed.

(** With a limit below 100 and no other agent in between the check does
    fire: [feedback_agent] has the limit 20, its 20th call at one instant
    is silent and its 21st is reported with severity high. *)
Lemma rate_limit_fires_for_feedback_agent :
  let w20 :=
    repeat_log quiet 20 "feedback_agent" "process_feedback" world0 in
  let run :=
    UEBA.log_agent_activity quiet "feedback_agent" "process_feedback"
      None w20 in
  alerts w20 = []
  /\ exists r, alerts (snd run) = [r]
               /\ map (fun a => (Anomaly.type a, Anomaly.severity a))
                      (Report.anomalies r)
                  = [("rate_limit_exceeded", "high")].
Proof.
  split; [vm_compute; reflexivity|].
  eexists. split; vm_compute; reflexivity.
Qed.

(** An entry a day and five seconds old passes the test of check 1: only
    the seconds field of the difference is compared with 60. *)
Lemma stale_entry_counts_as_recent :
  (td_seconds (days 1 + 5 * US_PER_SECOND) <? 60) = true.
Proof. vm_compute. reflexivity. Qed.

End MonitorClaims.

(** ** The agents *)

Module AgentFacts.

Import UEBAFacts.

Section Keeps.
Context {A B : Type}.

Lemma keeps_ret (a : A) : keeps_monitor_and_calls (ret a).
Proof. by intros w. Qed.

Lemma keeps_raise e : keeps_monitor_and_calls (@raise A e).
Proof. by intros w. Qed.

Lemma keeps_lift (o : outcome A) : keeps_monitor_and_calls (lift o).
Proof. by intros w. Qed.

Lemma keeps_ask (answer : nat -> outcome A) :
  keeps_monitor_and_calls (ask answer).
Proof. by intros w. Qed.

Lemma keeps_logger l : keeps_monitor_and_calls (logger l).
Proof. by intros w. Qed.

Lemma keeps_bind (c : M A) (k : A -> M B) :
  keeps_monitor_and_calls c -> (forall a, keeps_monitor_and_calls (k a)) ->
  keeps_monitor_and_calls (bind c k).
Proof.
  intros Hc Hk w. unfold bind. specialize (Hc w).
  destruct (c w) as [[a|e] w1]; simpl in *; [|done].
  specialize (Hk a w1). unfold same_monitor_and_calls in *.
  destruct Hc, Hk. split; congruence.
Qed.

Lemma keeps_try_except (body : M A) (handler : exn -> M A) :
  keeps_monitor_and_calls body ->
  (forall e, keeps_monitor_and_calls (handler e)) ->
  keeps_monitor_and_calls (try_except body handler).
Proof.
  intros Hc Hk w. unfold try_except. specialize (Hc w).
  destruct (body w) as [[a|e] w1]; simpl in *; [done|].
  specialize (Hk e w1). unfold same_monitor_and_calls in *.
  destruct Hc, Hk. split; congruence.
Qed.

End Keeps.

Create HintDb keeps.
#[local] Hint Resolve keeps_ret keeps_raise keeps_lift keeps_ask keeps_logger
  : keeps.

Ltac keeps :=
  repeat first
    [ apply keeps_bind; [|intros ?]
    | apply keeps_try_except; [|intros ?]
    | solve [auto with keeps]
    | match goal with
      | |- keeps_monitor_and_calls (match ?x with _ => _ end) => destruct x
      end ].

(** Find an element in a list that is written out. *)
Ltac in_list :=
  solve [repeat first [apply list_elem_of_here | apply list_elem_of_further]].

(** Unfold the primitive steps of a computation. *)
Ltac run_prims :=
  unfold bind, logger, emit, Agents.stage, Agents.noted, ret, raise;
  cbn [tick ueba_monitor steps logged calls].

Section WithEnv.
Context (env : Env).

Lemma keeps_utcnow : keeps_monitor_and_calls (UEBA.utcnow env).
Proof. apply keeps_ask. Qed.

Lemma keeps_now : keeps_monitor_and_calls (Agents.now env).
Proof. apply keeps_ask. Qed.

Hint Resolve keeps_utcnow keeps_now : keeps.

Lemma keeps__find_available_slot date :
  keeps_monitor_and_calls (Agents._find_available_slot env date).
Proof. unfold Agents._find_available_slot. keeps. Qed.

Hint Resolve keeps__find_available_slot : keeps.

(** The scheduling agent does not touch the monitor and makes no stage
    call. *)
Lemma keeps_schedule_appointment vehicle_id service_type preferred_date :
  keeps_monitor_and_calls
    (Agents.schedule_appointment env vehicle_id service_type preferred_date).
Proof. unfold Agents.schedule_appointment. keeps. Qed.

Lemma keeps_auto_schedule vehicle_id service_type :
  keeps_monitor_and_calls (Agents.auto_schedule env vehicle_id service_type).
Proof.
  unfold Agents.auto_schedule. apply keeps_bind; [keeps|intros t].
  apply keeps_bind; [keeps|intros tomorrow].
  apply keeps_schedule_appointment.
Qed.

(** Every run of the pipeline records one activity first and then goes
    one of the seven ways of [run_shape]; the activity is in the ledger
    however the run ends. *)
Lemma pipeline_shape vehicle_id sensor_data w res w' :
  Agents.process_telematics_data env vehicle_id sensor_data w = (res, w') ->
  exists tail,
    calls w'
    = calls w ++ Recorded "master_agent" "process_telematics_data" :: tail
    /\ run_shape vehicle_id sensor_data res tail
    /\ activity_logs (ueba_monitor w')
       = UEBA.append_activity
           (activity_at env "master_agent" "process_telematics_data"
              (Some (<["vehicle_id" := VStr vehicle_id]> ∅)) w)
           (activity_logs (ueba_monitor w)).
Proof.
  destruct (log_agent_activity_spec env "master_agent"
              "process_telematics_data"
              (Some (<["vehicle_id" := VStr vehicle_id]> ∅)) w)
    as (found & w2 & w1 & _ & Hlog & Hledger & _ & _ & Hcalls & _).
  unfold Agents.process_telematics_data, try_except.
  unfold bind at 1. rewrite Hlog.
  run_prims.
  assert (forall tail w'',
            calls w'' = calls w1 ++ tail -> ueba_monitor w'' = ueba_monitor w1 ->
            run_shape vehicle_id sensor_data res tail ->
            w'' = w' ->
            exists tail,
              calls w'
              = calls w
                ++ Recorded "master_agent" "process_telematics_data" :: tail
              /\ run_shape vehicle_id sensor_data res tail
              /\ activity_logs (ueba_monitor w')
                 = UEBA.append_activity
                     (activity_at env "master_agent" "process_telematics_data"
                        (Some (<["vehicle_id" := VStr vehicle_id]> ∅)) w)
                     (activity_logs (ueba_monitor w))) as Hend.
  { intros tail w'' Hc Hm Hshape <-. exists tail.
    rewrite Hc, Hcalls, <- app_assoc, Hm. done. }
  destruct (analyze_data_at env (steps w1) vehicle_id sensor_data)
    as [a|e]; run_prims.
  2:{ intros [= <- <-]. eapply Hend; [..|reflexivity]; [done|done|].
      constructor. }
  destruct (predict_failures_at env _ vehicle_id a) as [d|e]; run_prims.
  2:{ intros [= <- <-]. eapply Hend; [..|reflexivity]; cbn;
        [by rewrite <- app_assoc|done|]. constructor. }
  fold (critical d). fold (wants_schedule d).
  destruct (critical d) eqn:Hcrit; run_prims.
  2:{ intros [= <- <-]. eapply Hend; [..|reflexivity]; cbn;
        [by rewrite <- app_assoc|done|]. by constructor. }
  destruct (send_alert_at env _ vehicle_id d) as [n|e]; run_prims.
  2:{ intros [= <- <-]. eapply Hend; [..|reflexivity]; cbn;
        [by rewrite <- !app_assoc|done|]. by constructor. }
  destruct (wants_schedule d) eqn:Hauto; run_prims.
  2:{ intros [= <- <-]. eapply Hend; [..|reflexivity]; cbn;
        [by rewrite <- !app_assoc|done|]. by econstructor. }
  match goal with
  | |- context [Agents.auto_schedule env ?v ?st ?w0] =>
      pose proof (keeps_auto_schedule v st w0) as [Hm Hc];
      destruct (Agents.auto_schedule env v st w0) as [[sr|e] ws]
  end; cbn in Hm, Hc; run_prims.
  - intros [= <- <-]. eapply Hend; [..|reflexivity]; cbn;
      [rewrite Hc; by rewrite <- !app_assoc|done|]. by econstructor.
  - intros [= <- <-]. eapply Hend; [..|reflexivity]; cbn;
      [rewrite Hc; by rewrite <- !app_assoc|done|]. by econstructor.
Qed.

End WithEnv.

End AgentFacts.

(** ** What the pipeline guarantees *)

Module PipelineClaims.

Import AgentFacts Scenario.

Section WithEnv.
Context (env : Env).

(** The new calls of a run, with its result. *)
Lemma run_new_calls vehicle_id sensor_data w :
  let run := Agents.process_telematics_data env vehicle_id sensor_data w in
  exists tail,
    new_calls w (snd run)
    = Recorded "master_agent" "process_telematics_data" :: tail
    /\ run_shape vehicle_id sensor_data (fst run) tail
    /\ activity_logs (ueba_monitor (snd run))
       = UEBA.append_activity
           (activity_at env "master_agent" "process_telematics_data"
              (Some (<["vehicle_id" := VStr vehicle_id]> ∅)) w)
           (activity_logs (ueba_monitor w)).
Proof.
  intros run. unfold run.
  destruct (Agents.process_telematics_data env vehicle_id sensor_data w)
    as [res w'] eqn:E.
  destruct (pipeline_shape env _ _ _ _ _ E) as (tail & Hc & Hs & Hl).
  exists tail. unfold new_calls. simpl. rewrite Hc.
  by rewrite drop_app_length.
Qed.

(** C4, as the code has it: a run records exactly one activity, that of
    [master_agent] doing [process_telematics_data]. The record comes before
    the analyze call and so before every stage call of the run; no other
    activity is recorded between the stages; and the activity is in the
    ledger however the run ends, also when a stage call raises. *)
Theorem one_record_before_all_stages vehicle_id sensor_data w :
  let run := Agents.process_telematics_data env vehicle_id sensor_data w in
  exists res tail,
    new_calls w (snd run)
    = Recorded "master_agent" "process_telematics_data"
      :: Analyze vehicle_id res :: tail
    /\ Forall is_stage_call tail
    /\ activity_logs (ueba_monitor (snd run))
       = UEBA.append_activity
           (activity_at env "master_agent" "process_telematics_data"
              (Some (<["vehicle_id" := VStr vehicle_id]> ∅)) w)
           (activity_logs (ueba_monitor w)).
Proof.
  intros run.
  destruct (run_new_calls vehicle_id sensor_data w)
    as (tail & Hnew & Hshape & Hledger).
  fold run in Hnew, Hshape, Hledger. rewrite Hnew.
  destruct Hshape; eexists _, _; (split; [reflexivity|]);
    (split; [|exact Hledger]); repeat constructor.
Qed.

(** C5, as the code has it: the stage calls of a run follow the diagnosis.
    Without a critical alert there is no notify and no schedule call; with a
    critical alert and no automatic scheduling there is a notify call and no
    schedule call. With both there is a notify call; when it raises, the run
    raises with it and no schedule call is made; when it returns, the
    schedule call follows, and its result is in the diagnosis of the outcome
    under [scheduling] when it returns, while the run raises with it, and
    nothing is attached, when it raises. *)
Theorem branching_follows_diagnosis vehicle_id sensor_data w d :
  let run := Agents.process_telematics_data env vehicle_id sensor_data w in
  let new := new_calls w (snd run) in
  Diagnose vehicle_id (Returns d) ∈ new ->
  (critical d = false -> stages new = [analyze; diagnose])
  /\ (critical d = true -> wants_schedule d = false ->
      stages new = [analyze; diagnose; notify])
  /\ (critical d = true -> wants_schedule d = true ->
      (exists e, Notify vehicle_id (Raises e) ∈ new
                 /\ stages new = [analyze; diagnose; notify]
                 /\ fst run = Raises e)
      \/ (stages new = [analyze; diagnose; notify; schedule]
          /\ (exists n, Notify vehicle_id (Returns n) ∈ new)
          /\ (forall sr, Schedule vehicle_id (Returns sr) ∈ new ->
                exists a,
                  fst run
                  = Returns (pipeline_outcome vehicle_id sensor_data a
                               (<["scheduling" := VDict sr]> d)))
          /\ (forall e, Schedule vehicle_id (Raises e) ∈ new ->
                fst run = Raises e))).
Proof.
  intros run new Hd.
  destruct (run_new_calls vehicle_id sensor_data w)
    as (tail & Hnew & Hshape & _).
  fold run in Hnew, Hshape. fold new in Hnew. rewrite Hnew in *.
  destruct Hshape; set_unfold in Hd;
    destruct_or!; simplify_eq; (split; [|split]); intros; try congruence;
    try reflexivity.
  - left. eexists. split; [in_list|]. split; reflexivity.
  - right. split; [reflexivity|]. split; [eexists; in_list|].
    split; intros x Hx; set_unfold in Hx; destruct_or!; simplify_eq.
    reflexivity.
  - right. split; [reflexivity|]. split; [eexists; in_list|].
    split; intros x Hx; set_unfold in Hx; destruct_or!; simplify_eq.
    eauto.
Qed.

(** C2, as the code has it: when the schedule call raises, the run raises
    the same exception and returns no outcome; the notify call had returned
    before. Only when the schedule call returns, be it with an appointment
    or with the status [error] for want of a free slot, does the run return
    an outcome, with that result in the diagnosis under [scheduling]. *)
Theorem schedule_failure_propagates vehicle_id sensor_data w :
  let run := Agents.process_telematics_data env vehicle_id sensor_data w in
  let new := new_calls w (snd run) in
  (forall e, Schedule vehicle_id (Raises e) ∈ new ->
     fst run = Raises e
     /\ exists d n,
          Diagnose vehicle_id (Returns d) ∈ new
          /\ critical d = true /\ wants_schedule d = true
          /\ Notify vehicle_id (Returns n) ∈ new)
  /\ (forall sr, Schedule vehicle_id (Returns sr) ∈ new ->
        exists a d,
          Diagnose vehicle_id (Returns d) ∈ new
          /\ fst run
             = Returns (pipeline_outcome vehicle_id sensor_data a
                          (<["scheduling" := VDict sr]> d))).
Proof.
  intros run new.
  destruct (run_new_calls vehicle_id sensor_data w)
    as (tail & Hnew & Hshape & _).
  fold run in Hnew, Hshape. fold new in Hnew. rewrite Hnew in *.
  split.
  - intros e He. destruct Hshape; set_unfold in He;
      destruct_or!; simplify_eq.
    split; [done|]. eexists _, _.
    split; [in_list|]. split; [done|]. split; [done|in_list].
  - intros sr Hsr. destruct Hshape; set_unfold in Hsr;
      destruct_or!; simplify_eq.
    eexists _, _. split; [in_list|reflexivity].
Qed.

End WithEnv.

Lemma branching_follows_diagnosis_witness :
  let run :=
    Agents.process_telematics_data (env_of 0 dying_battery false false)
      "V9" ∅ world0 in
  let new := new_calls world0 (snd run) in
  Diagnose "V9" (Returns dying_battery) ∈ new
  /\ (critical dying_battery = true -> wants_schedule dying_battery = true ->
      (exists e, Notify "V9" (Raises e) ∈ new
                 /\ stages new = [analyze; diagnose; notify]
                 /\ fst run = Raises e)
      \/ (stages new = [analyze; diagnose; notify; schedule]
          /\ (exists n, Notify "V9" (Returns n) ∈ new)
          /\ (forall sr, Schedule "V9" (Returns sr) ∈ new ->
                exists a,
                  fst run
                  = Returns (pipeline_outcome "V9" ∅ a
                               (<["scheduling" := VDict sr]> dying_battery)))
          /\ (forall e, Schedule "V9" (Raises e) ∈ new ->
                fst run = Raises e))).
Proof.
  intros run new. subst new run.
  pose proof (branching_follows_diagnosis (env_of 0 dying_battery false false)
                "V9" ∅ world0 dying_battery) as Hthm.
  cbv zeta in Hthm.
  match type of Hthm with
  | ?hyp -> _ => assert hyp as Hd by (vm_compute; in_list)
  end.
  split; [exact Hd|].
  destruct (Hthm Hd) as (_ & _ & Hboth). exact Hboth.
Defined.

Lemma schedule_failure_propagates_witness :
  let run :=
    Agents.process_telematics_data (env_of 0 dying_battery false true)
      "V9" ∅ world0 in
  Schedule "V9" (Raises db_down) ∈ new_calls world0 (snd run)
  /\ fst run = Raises db_down.
Proof.
  intros run. subst run.
  pose proof (schedule_failure_propagates
                (env_of 0 dying_battery false true) "V9" ∅ world0) as Hthm.
  cbv zeta in Hthm. destruct Hthm as (Hraises & _).
  specialize (Hraises db_down).
  match type of Hraises with
  | ?hyp -> _ => assert hyp as Hs by (vm_compute; in_list)
  end.
  split; [exact Hs|].
  destruct (Hraises Hs) as (Hrun & _). exact Hrun.
Defined.

(** C5, as the specification words it, fails: the diagnosis asks for a
    notification and for scheduling, the customer agent raises, and the run
    ends there: the notify call is the last stage call, no schedule call is
    made and the run returns no outcome a result could be attached to. *)
Lemma notify_failure_skips_schedule :
  let run := Agents.process_telematics_data alert_down "V9" ∅ world0 in
  critical dying_battery = true
  /\ wants_schedule dying_battery = true
  /\ calls (snd run)
     = [ Recorded "master_agent" "process_telematics_data";
         Analyze "V9" (Returns analysis);
         Diagnose "V9" (Returns dying_battery);
         Notify "V9" (Raises db_down) ]
  /\ stages (calls (snd run)) = [analyze; diagnose; notify]
  /\ fst run = Raises db_down.
Proof. vm_compute. repeat split; reflexivity. Qed.

(** C2, as the specification words it, fails: the diagnosis asks for a
    notification and for scheduling, the notification is sent, the database
    refuses the appointment, and the run raises instead of returning an
    outcome. *)
Lemma schedule_failure_aborts_run :
  let run :=
    Agents.process_telematics_data (env_of 0 dying_battery false true)
      "V9" ∅ world0 in
  critical dying_battery = true
  /\ wants_schedule dying_battery = true
  /\ calls (snd run)
     = [ Recorded "master_agent" "process_telematics_data";
         Analyze "V9" (Returns analysis);
         Diagnose "V9" (Returns dying_battery);
         Notify "V9" (Returns alert_sent);
         Schedule "V9" (Raises db_down) ]
  /\ fst run = Raises db_down
  /\ ~ exists outcome, fst run = Returns outcome.
Proof.
  split; [vm_compute; reflexivity|].
  split; [vm_compute; reflexivity|].
  split; [vm_compute; reflexivity|].
  split; [vm_compute; reflexivity|].
  intros [outcome H]. vm_compute in H. discriminate.
Qed.

(** When no slot is free on either day the scheduling agent returns the
    status [error], and the run returns with it in the diagnosis. *)
Lemma no_free_slot_is_attached :
  let run :=
    Agents.process_telematics_data (env_of 0 dying_battery true false)
      "V9" ∅ world0 in
  fst run
  = Returns
      (pipeline_outcome "V9" ∅ analysis
         (<["scheduling" :=
              VDict (<["status" := VStr "error"]>
                     (<["message" :=
                          VStr "No available slots found. Please try a different date."]>
                      ∅))]> dying_battery)).
Proof. vm_compute. reflexivity. Qed.

(** A critical alert without automatic scheduling: the customer is
    notified and no appointment is sought. *)
Lemma low_oil_notifies_only :
  let run :=
    Agents.process_telematics_data (env_of 0 low_oil false false)
      "V2" ∅ world0 in
  stages (calls (snd run)) = [analyze; diagnose; notify]
  /\ fst run = Returns (pipeline_outcome "V2" ∅ analysis low_oil).
Proof. split; vm_compute; reflexivity. Qed.

(** C4, as the specification words it, fails: in the run below one
    activity is recorded, before the analyze call, and none between the
    analyze call and the diagnose call. *)
Lemma diagnose_stage_not_monitored :
  let run := Agents.process_telematics_data quiet "V1" ∅ world0 in
  calls (snd run)
  = [ Recorded "master_agent" "process_telematics_data";
      Analyze "V1" (Returns analysis);
      Diagnose "V1" (Returns healthy) ]
  /\ each_stage_monitored false (calls (snd run)) = false.
Proof. split; vm_compute; reflexivity. Qed.

End PipelineClaims.

(** * More facts *)

(** ** More about the checks of the monitor *)

Module MonitorMore.

Import UEBAFacts LedgerFacts MonitorClaims Scenario SpecMore ScenarioMore.

Section WithEnv.
Context (env : Env).
Implicit Types (w : World) (agent_name action : string).

(** The scan of check 1, entry by entry: the clock is read for each entry of
    the agent, and the entry is kept when the seconds field of its age at
    that reading is below 60. *)
Lemma recent_within_exact agent_name logs : forall w,
  exists w',
    UEBA.recent_within env agent_name logs w
    = (Returns
         (filter (fun p => td_seconds (p.1 - Activity.timestamp p.2) < 60)
                 (zip (map (utcnow_at env)
                         (seq (steps w)
                            (length (filter (fun log =>
                                               Activity.agent log = agent_name)
                                            logs))))
                      (filter (fun log => Activity.agent log = agent_name)
                              logs))).*2,
       w').
Proof.
  induction logs as [|log rest IH]; intros w; simpl.
  - by exists w.
  - rewrite filter_cons. destruct (decide (Activity.agent log = agent_name)).
    + unfold bind at 1. rewrite utcnow_eq.
      destruct (IH (tick w)) as (w' & E).
      unfold bind. rewrite E. unfold ret. exists w'.
      cbn [length seq map zip_with steps tick]. rewrite filter_cons.
      cbn [fst snd].
      destruct (decide (td_seconds (utcnow_at env (steps w)
                                    - Activity.timestamp log) < 60));
        destruct (_ <? 60) eqn:T; try lia; reflexivity.
    + apply IH.
Qed.

(** What check 1 returns: nothing without a profile; with a profile, one
    finding exactly when the scan kept more entries than the limit. *)
Lemma rate_limit_check_count agent_name w :
  exists rate kept w',
    UEBA.rate_limit_check env agent_name w = (Returns rate, w')
    /\ (length kept <= length (recent_of agent_name w))%nat
    /\ match normal_patterns (ueba_monitor w) !! agent_name with
       | Some pattern =>
           (rate = [] /\ len kept <= Pattern.max_calls_per_minute pattern)
           \/ (length rate = 1%nat
               /\ Pattern.max_calls_per_minute pattern < len kept)
       | None => rate = []
       end
    /\ kept = within_a_minute env agent_name w.
Proof.
  destruct (recent_within_spec env agent_name
              (last_n 100 (activity_logs (ueba_monitor w))) w)
    as (kept & w' & E & _ & L).
  destruct (recent_within_exact agent_name
              (last_n 100 (activity_logs (ueba_monitor w))) w)
    as (w'' & E').
  rewrite E in E'. injection E' as Hkept _.
  unfold UEBA.rate_limit_check, bind, get_monitor.
  destruct (normal_patterns (ueba_monitor w) !! agent_name) as [pattern|].
  - rewrite E. unfold ret. eexists _, kept, w'. split; [reflexivity|].
    split; [exact L|]. split; [|exact Hkept].
    destruct (len kept >? Pattern.max_calls_per_minute pattern) eqn:G;
      [right|left]; (split; [done|lia]).
  - exists [], kept, w. split; [done|]. split; [exact L|]. split; done.
Qed.

(** The findings of a check, split by the check that made them. *)
Lemma _check_anomaly_parts agent_name action w :
  exists rate kept ml w',
    UEBA._check_anomaly env agent_name action w
    = (Returns (UEBA.make_report agent_name action
                  (rate
                   ++ UEBA.unauthorized_check (ueba_monitor w)
                        agent_name action
                   ++ ml)), w')
    /\ (forall a, a ∈ rate ->
          Anomaly.type a = "rate_limit_exceeded"
          /\ Anomaly.severity a = "high")
    /\ (length rate <= 1)%nat
    /\ (length kept <= length (recent_of agent_name w))%nat
    /\ match normal_patterns (ueba_monitor w) !! agent_name with
       | Some pattern =>
           (rate = [] /\ len kept <= Pattern.max_calls_per_minute pattern)
           \/ (length rate = 1%nat
               /\ Pattern.max_calls_per_minute pattern < len kept)
       | None => rate = []
       end
    /\ kept = within_a_minute env agent_name w
    /\ (ml = [] \/ ml = [UEBA.ml_anomaly agent_name]).
Proof.
  destruct (_check_anomaly_spec env agent_name action w)
    as (rate & ml & w1 & w' & E1 & E2 & E & _ & _).
  destruct (rate_limit_check_spec env agent_name w)
    as (rate' & w1' & E1' & _ & Hrate & _).
  rewrite E1 in E1'. injection E1' as <- <-.
  destruct (rate_limit_check_count agent_name w)
    as (rate' & kept & w1' & E1' & Hkept & Hcount & Hall).
  rewrite E1 in E1'. injection E1' as <- <-.
  destruct (ml_check_spec env agent_name action w1)
    as (ml' & w'' & E2' & _ & Hml).
  rewrite E2 in E2'. injection E2' as <- <-.
  exists rate, kept, ml, w'. split; [exact E|]. split; [exact Hrate|].
  split.
  { destruct (normal_patterns (ueba_monitor w) !! agent_name).
    - destruct Hcount as [[-> _]|[-> _]]; simpl; lia.
    - subst rate. simpl; lia. }
  split; [exact Hkept|]. split; [exact Hcount|]. split; [exact Hall|].
  destruct Hml as [->|[-> _]]; auto.
Qed.

(** X1. An agent without a profile gets no policy finding, whatever it does
    and however often: the only finding its check can make is the one of the
    model. *)
Theorem unknown_agent_has_no_policy_findings agent_name action w :
  normal_patterns (ueba_monitor w) !! agent_name = None ->
  exists found w',
    UEBA._check_anomaly env agent_name action w = (Returns found, w')
    /\ ~ has_type "rate_limit_exceeded" (findings found)
    /\ ~ has_type "unauthorized_action" (findings found)
    /\ (found = None \/ findings found = [UEBA.ml_anomaly agent_name]).
Proof.
  intros Hnone.
  destruct (_check_anomaly_parts agent_name action w)
    as (rate & kept & ml & w' & E & _ & _ & _ & Hcount & _ & Hml).
  rewrite Hnone in Hcount. subst rate.
  unfold UEBA.unauthorized_check in E. rewrite Hnone in E. simpl in E.
  eexists _, w'. split; [exact E|].
  destruct Hml as [->| ->]; simpl.
  - split; [apply has_type_nil|]. split; [apply has_type_nil|]. by left.
  - split; [|split; [|by right]];
      intros (a & ->%list_elem_of_singleton & Hty); discriminate.
Qed.

(** X2. A rate-limit finding is never made up: when the check reports one, the
    agent has a profile and more entries among the last hundred of the
    ledger than its limit. *)
Theorem rate_limit_finding_is_sound agent_name action w found w' :
  UEBA._check_anomaly env agent_name action w = (Returns found, w') ->
  has_type "rate_limit_exceeded" (findings found) ->
  exists pattern,
    normal_patterns (ueba_monitor w) !! agent_name = Some pattern
    /\ Pattern.max_calls_per_minute pattern < len (recent_of agent_name w)
    /\ Pattern.max_calls_per_minute pattern < 100.
Proof.
  intros Hrun Hfinding.
  destruct (_check_anomaly_parts agent_name action w)
    as (rate & kept & ml & w2 & E & Hrate & _ & Hkept & Hcount & _ & Hml).
  rewrite Hrun in E. injection E as -> <-.
  rewrite findings_make_report, !has_type_app in Hfinding.
  assert (rate <> []) as Hne.
  { intros ->. destruct Hfinding as [H|[(a & Ha & Hty)|(a & Ha & Hty)]].
    - by apply has_type_nil in H.
    - apply unauthorized_check_type in Ha as [Ha _]. congruence.
    - destruct Hml as [->| ->]; [by apply elem_of_nil in Ha|].
      apply list_elem_of_singleton in Ha. subst a. discriminate. }
  destruct (normal_patterns (ueba_monitor w) !! agent_name) as [pattern|];
    [|done].
  destruct Hcount as [[-> _]|[_ Hmore]]; [done|].
  exists pattern. split; [done|].
  pose proof (length_recent_le agent_name (activity_logs (ueba_monitor w))).
  unfold len, recent_of in *. lia.
Qed.

(** X3. Check 1 counts within a minute and within the last hundred: the check
    reports a rate-limit finding exactly when the limit of the agent is
    below the number of its entries, among the last hundred of the ledger,
    whose age has a seconds field below 60 at the reading of the clock made
    for the entry. *)
Theorem rate_limit_counts_recent_entries agent_name action pattern w :
  normal_patterns (ueba_monitor w) !! agent_name = Some pattern ->
  exists found w',
    UEBA._check_anomaly env agent_name action w = (Returns found, w')
    /\ (has_type "rate_limit_exceeded" (findings found)
        <-> Pattern.max_calls_per_minute pattern
            < len (within_a_minute env agent_name w)).
Proof.
  intros Hp.
  destruct (_check_anomaly_parts agent_name action w)
    as (rate & kept & ml & w' & E & Hrate & _ & _ & Hcount & Hkept & Hml).
  rewrite Hp in Hcount. subst kept.
  eexists _, w'. split; [exact E|].
  rewrite findings_make_report, !has_type_app. split.
  - intros [(a & Ha & _)|[(a & Ha & Hty)|(a & Ha & Hty)]].
    + destruct Hcount as [[-> _]|[_ Hmore]];
        [by apply elem_of_nil in Ha|done].
    + apply unauthorized_check_type in Ha as [Ha _]. congruence.
    + destruct Hml as [->| ->]; [by apply elem_of_nil in Ha|].
      apply list_elem_of_singleton in Ha. subst a. discriminate.
  - intros Hmore. left. destruct Hcount as [[_ Hle]|[Hone _]]; [lia|].
    destruct rate as [|a rate]; [done|].
    exists a. split; [by left|]. apply Hrate. by left.
Qed.

(** X4. A check makes at most three findings, one of each type at most, and
    the type of a finding fixes its severity. *)
Theorem findings_are_few_and_typed agent_name action w :
  exists found w',
    UEBA._check_anomaly env agent_name action w = (Returns found, w')
    /\ (length (findings found) <= 3)%nat
    /\ NoDup (Anomaly.type <$> findings found)
    /\ (forall a, a ∈ findings found ->
          (Anomaly.type a, Anomaly.severity a)
          ∈ [ ("rate_limit_exceeded", "high");
              ("unauthorized_action", "critical");
              ("ml_anomaly", "medium") ]).
Proof.
  destruct (_check_anomaly_parts agent_name action w)
    as (rate & kept & ml & w' & E & Hrate & Hone & _ & _ & _ & Hml).
  eexists _, w'. split; [exact E|]. rewrite findings_make_report.
  assert (rate = [] \/ exists a, rate = [a]
                                 /\ Anomaly.type a = "rate_limit_exceeded"
                                 /\ Anomaly.severity a = "high") as Hr.
  { destruct rate as [|a [|b rate]]; [by left| |simpl in Hone; lia].
    right. exists a. split; [done|]. apply Hrate. by left. }
  assert (UEBA.unauthorized_check (ueba_monitor w) agent_name action = []
          \/ exists a,
               UEBA.unauthorized_check (ueba_monitor w) agent_name action = [a]
               /\ Anomaly.type a = "unauthorized_action"
               /\ Anomaly.severity a = "critical") as Hu.
  { unfold UEBA.unauthorized_check.
    destruct (normal_patterns (ueba_monitor w) !! agent_name); [|by left].
    destruct (decide _); [by left|]. right. eexists. done. }
  assert (ml = [] \/ exists a, ml = [a]
                               /\ Anomaly.type a = "ml_anomaly"
                               /\ Anomaly.severity a = "medium") as Hm.
  { destruct Hml as [->| ->]; [by left|]. right. eexists. done. }
  clear Hrate Hone Hml E.
  destruct Hr as [->|(a & -> & Ha1 & Ha2)];
    destruct Hu as [->|(b & -> & Hb1 & Hb2)];
    destruct Hm as [->|(c & -> & Hc1 & Hc2)]; simpl;
    (split; [lia|]);
    (split;
     [rewrite ?Ha1, ?Hb1, ?Hc1; apply (bool_decide_unpack _);
      vm_compute; exact I|]);
    intros x Hx;
    repeat (apply elem_of_cons in Hx as [->|Hx]);
    try (by apply elem_of_nil in Hx);
    rewrite ?Ha1, ?Ha2, ?Hb1, ?Hb2, ?Hc1, ?Hc2;
    solve [repeat first [apply list_elem_of_here
                        | apply list_elem_of_further]].
Qed.

End WithEnv.

Lemma unknown_agent_has_no_policy_findings_witness :
  exists found w',
    UEBA._check_anomaly quiet "intruder" "drop_tables" world0
    = (Returns found, w')
    /\ ~ has_type "unauthorized_action" (findings found).
Proof.
  destruct (unknown_agent_has_no_policy_findings quiet
              "intruder" "drop_tables" world0)
    as (found & w' & E & _ & Hno & _).
  - vm_compute. reflexivity.
  - by exists found, w'.
Defined.

Lemma rate_limit_finding_is_sound_witness :
  exists pattern,
    UEBA.the_normal_patterns !! "feedback_agent" = Some pattern
    /\ Pattern.max_calls_per_minute pattern < 100.
Proof.
  pose (w := world_with None
               (replicate 21 (activity_of "feedback_agent" "process_feedback"))).
  pose (run := UEBA._check_anomaly quiet "feedback_agent" "process_feedback" w).
  destruct (rate_limit_finding_is_sound quiet
              "feedback_agent" "process_feedback" w
              (match fst run with Returns found => found | Raises _ => None end)
              (snd run))
    as (pattern & Hp & _ & Hlt).
  - vm_compute. reflexivity.
  - eexists. split.
    { vm_compute. constructor. }
    reflexivity.
  - exists pattern. split; [exact Hp|exact Hlt].
Defined.

(** At second 100 the feedback agent, whose limit is 20, has thirty entries
    of second 10 in the ledger. With 21 more of second 90 the check reports
    it; with 20 more it does not, though fifty entries of the agent are among
    the last hundred. *)
Lemma rate_limit_counts_recent_entries_witness :
  (exists found w',
     UEBA._check_anomaly at_second_100 "feedback_agent" "process_feedback"
       (world_with None (feedback_ledger 30 21))
     = (Returns found, w')
     /\ has_type "rate_limit_exceeded" (findings found))
  /\ (exists found w',
        UEBA._check_anomaly at_second_100 "feedback_agent" "process_feedback"
          (world_with None (feedback_ledger 30 20))
        = (Returns found, w')
        /\ ~ has_type "rate_limit_exceeded" (findings found)).
Proof.
  split.
  - destruct (rate_limit_counts_recent_entries at_second_100
                "feedback_agent" "process_feedback"
                (Pattern.Build 20 ["process_feedback"; "get_feedback_summary"])
                (world_with None (feedback_ledger 30 21)))
      as (found & w' & E & Hiff); [vm_compute; reflexivity|].
    exists found, w'. split; [exact E|].
    apply Hiff. vm_compute. reflexivity.
  - destruct (rate_limit_counts_recent_entries at_second_100
                "feedback_agent" "process_feedback"
                (Pattern.Build 20 ["process_feedback"; "get_feedback_summary"])
                (world_with None (feedback_ledger 30 20)))
      as (found & w' & E & Hiff); [vm_compute; reflexivity|].
    exists found, w'. split; [exact E|].
    intros H. apply Hiff in H. vm_compute in H. discriminate.
Defined.

(** X5. The age test of check 1 looks at the seconds field of the difference
    only: an entry and one a whole number of days older are not told apart,
    and the field is always within a day. *)
Theorem age_test_ignores_whole_days d n :
  td_seconds (d + days n) = td_seconds d /\ 0 <= td_seconds d < 86400.
Proof.
  unfold td_seconds, days, US_PER_DAY, US_PER_SECOND. split.
  - by rewrite Z.mod_add.
  - pose proof (Z.mod_pos_bound d (86400 * 1000000) eq_refl) as [Hlo Hhi].
    split; [apply Z.div_pos; lia|].
    apply Z.div_lt_upper_bound; lia.
Qed.

(** A [defaultdict(int)] that is incremented once for each element of a
    list holds, under every key, the number of elements with that key. *)
Lemma count_foldl {A : Type} (key : A -> string) (l : list A) :
  forall (counts : gmap string Z) (k : string),
    default 0 (foldl (fun counts a => UEBA.count_activity (key a) counts)
                     counts l !! k)
    = default 0 (counts !! k) + len (filter (fun a => key a = k) l).
Proof.
  unfold len.
  induction l as [|a l IH]; intros counts k; simpl; [lia|].
  rewrite IH, filter_cons. unfold UEBA.count_activity.
  destruct (decide (key a = k)) as [->|Hne].
  - rewrite lookup_insert_eq. simpl. lia.
  - by rewrite lookup_insert_ne.
Qed.

Lemma count_foldl_dom {A : Type} (key : A -> string) (l : list A) :
  forall (counts : gmap string Z) (k : string),
    foldl (fun counts a => UEBA.count_activity (key a) counts) counts l !! k
    = None
    <-> counts !! k = None /\ filter (fun a => key a = k) l = [].
Proof.
  induction l as [|a l IH]; intros counts k; simpl; [tauto|].
  rewrite IH, filter_cons. unfold UEBA.count_activity.
  destruct (decide (key a = k)) as [->|Hne].
  - rewrite lookup_insert_eq.
    split; [intros [? _]; discriminate|intros [_ ?]; discriminate].
  - rewrite lookup_insert_ne by done. tauto.
Qed.

Section Calls.
Context (env : Env).

(** What a call of the record operation does to the monitor. *)
Lemma log_agent_activity_monitor agent_name action metadata w :
  ueba_monitor (snd (UEBA.log_agent_activity env agent_name action metadata w))
  = {| activity_logs :=
         UEBA.append_activity (activity_at env agent_name action metadata w)
           (activity_logs (ueba_monitor w));
       model_path := model_path (ueba_monitor w);
       model := model (ueba_monitor w);
       agent_activity_counts :=
         UEBA.count_activity (Summary.activity_key agent_name action)
           (agent_activity_counts (ueba_monitor w));
       normal_patterns := normal_patterns (ueba_monitor w) |}.
Proof.
  destruct (_check_anomaly_spec env agent_name action
              (after_append env agent_name action metadata w))
    as (rate & ml & w1 & w2 & _ & _ & E & Q1 & Q2).
  pose proof (quiet_step_trans _ _ _ Q1 Q2) as (Qm & _ & _).
  clear Q1 Q2.
  remember (UEBA.make_report agent_name action _) as found eqn:Hfound.
  clear Hfound. unfold UEBA.log_agent_activity.
  unfold bind at 1. rewrite utcnow_eq.
  unfold bind at 1. rewrite utcnow_eq.
  unfold bind at 1. rewrite utcnow_eq.
  unfold bind at 1. unfold get_monitor at 1.
  unfold bind at 1. unfold put_monitor at 1.
  unfold bind at 1. unfold emit at 1.
  cbn [tick with_monitor ueba_monitor steps logged calls].
  unfold bind at 1.
  change (UEBA._check_anomaly env agent_name action _)
    with (UEBA._check_anomaly env agent_name action
            (after_append env agent_name action metadata w)).
  rewrite E.
  destruct found as [r|]; cbn; rewrite Qm; reflexivity.
Qed.

(** X6. The counter of the monitor counts the calls: after any calls of the
    record operation the entry under a key has grown by the number of calls
    with that key, where the key of a call is its agent, a colon and its
    action. *)
Theorem activity_counts_count_calls requests : forall w key,
  default 0 (agent_activity_counts (ueba_monitor (log_all env requests w))
             !! key)
  = default 0 (agent_activity_counts (ueba_monitor w) !! key)
    + len (filter (fun r => Summary.activity_key r.1.1 r.1.2 = key) requests).
Proof.
  unfold len.
  induction requests as [|[[agent_name action] metadata] rest IH];
    intros w key; simpl; [lia|].
  rewrite IH, log_agent_activity_monitor, filter_cons. simpl.
  unfold UEBA.count_activity.
  destruct (decide (Summary.activity_key agent_name action = key))
    as [->|Hne].
  - rewrite lookup_insert_eq. simpl. lia.
  - by rewrite lookup_insert_ne.
Qed.

(** X7. After every call of the record operation, from whatever ledger, the
    ledger ends with the activity just built, holds between one and 10000
    entries, and is the end of the old ledger followed by that activity; the
    profiles, the model and its path are as before. *)
Theorem ledger_ends_with_new_activity agent_name action metadata w :
  let self := ueba_monitor w in
  let self' :=
    ueba_monitor
      (snd (UEBA.log_agent_activity env agent_name action metadata w)) in
  let activity := activity_at env agent_name action metadata w in
  last (activity_logs self') = Some activity
  /\ (1 <= length (activity_logs self') <= UEBA.MAX_LOGS)%nat
  /\ (exists dropped,
        activity_logs self ++ [activity] = dropped ++ activity_logs self')
  /\ normal_patterns self' = normal_patterns self
  /\ model self' = model self
  /\ model_path self' = model_path self.
Proof.
  intros self self' activity. unfold self'.
  rewrite log_agent_activity_monitor. simpl. fold self activity.
  rewrite append_activity_last_n.
  destruct (last_n_suffix UEBA.MAX_LOGS (activity_logs self ++ [activity]))
    as [dropped Hdropped].
  assert (1 <= length (last_n UEBA.MAX_LOGS (activity_logs self ++ [activity]))
          <= UEBA.MAX_LOGS)%nat as Hlen.
  { rewrite length_last_n, length_app. simpl.
    pose proof MAX_LOGS_eq. lia. }
  split; [|split; [exact Hlen|split; [by exists dropped|done]]].
  destruct (last_n UEBA.MAX_LOGS (activity_logs self ++ [activity]))
    as [|x l] eqn:El using rev_ind; [simpl in Hlen; lia|].
  rewrite app_assoc in Hdropped. apply app_inj_tail in Hdropped as [_ ->].
  apply last_snoc.
Qed.

End Calls.

End MonitorMore.

(** ** The activity summary *)

Module SummaryFacts.

Import LedgerFacts MonitorMore Summary.

Lemma count_activities_split (l : list Activity.t) :
  forall (c : gmap string Z * gmap string Z),
    foldl (fun counters activity =>
             (UEBA.count_activity (Activity.agent activity) counters.1,
              UEBA.count_activity
                (activity_key (Activity.agent activity)
                   (Activity.action activity)) counters.2)) c l
    = (foldl (fun counts a => UEBA.count_activity (Activity.agent a) counts)
             c.1 l,
       foldl (fun counts a =>
                UEBA.count_activity
                  (activity_key (Activity.agent a) (Activity.action a)) counts)
             c.2 l).
Proof.
  induction l as [|a l IH]; intros [c1 c2]; simpl; [done|].
  by rewrite IH.
Qed.

Lemma filter_agent_twice (l : list Activity.t) (name other : string) :
  filter (fun a => Activity.agent a = other)
         (filter (fun a => Activity.agent a = name) l)
  = if decide (other = name)
    then filter (fun a => Activity.agent a = name) l else [].
Proof.
  induction l as [|a l IH]; [by destruct (decide _)|].
  rewrite (filter_cons _ a l).
  destruct (decide (Activity.agent a = name)) as [Ha|Ha]; [|exact IH].
  rewrite filter_cons, IH.
  destruct (decide (other = name)) as [->|Hother].
  - by rewrite decide_True.
  - rewrite decide_False by congruence. done.
Qed.

(** The keys of the summary, read off a non-empty selection. *)
Lemma summary_lookup self agent_name :
  selected self agent_name <> [] ->
  let activities := selected self agent_name in
  let summary := get_activity_summary self agent_name in
  summary !! "total_activities" = Some (VInt (len activities))
  /\ summary !! "by_agent" = Some (VDict (VInt <$> (count_activities activities).1))
  /\ summary !! "by_action" = Some (VDict (VInt <$> (count_activities activities).2))
  /\ summary !! "recent_activities"
     = Some (VList (map recent_entry (last_n 10 activities))).
Proof.
  intros Hne activities summary. unfold summary, get_activity_summary.
  fold activities. destruct activities as [|a l] eqn:E; [done|].
  simpl list_to_map.
  repeat split;
    repeat (rewrite lookup_insert_ne by done); by rewrite lookup_insert_eq.
Qed.

(** X8. The summary always tells the number of selected activities; when none
    is selected it tells nothing else, and otherwise it lists the newest
    ones in the order of the ledger, ten at most. *)
Theorem summary_total_and_recent self agent_name :
  let activities := selected self agent_name in
  let summary := get_activity_summary self agent_name in
  summary !! "total_activities" = Some (VInt (len activities))
  /\ (activities = [] -> summary = <["total_activities" := VInt 0]> ∅)
  /\ (activities <> [] ->
      exists recent,
        summary !! "recent_activities" = Some (VList (map recent_entry recent))
        /\ length recent = (length activities `min` 10)%nat
        /\ exists older, activities = older ++ recent).
Proof.
  intros activities summary. split; [|split].
  - destruct (decide (activities = [])) as [E|Hne].
    + unfold summary, get_activity_summary. fold activities. rewrite E.
      by rewrite lookup_insert_eq.
    + by destruct (summary_lookup self agent_name Hne) as (H & _).
  - intros E. unfold summary, get_activity_summary. fold activities.
    by rewrite E.
  - intros Hne. destruct (summary_lookup self agent_name Hne) as (_ & _ & _ & H).
    exists (last_n 10 activities). split; [exact H|].
    split; [apply length_last_n|]. apply last_n_suffix.
Qed.

(** The two counters of the loop count the activities by agent and by
    agent and action. *)
Lemma count_activities_counts (activities : list Activity.t) :
  (forall name,
     default 0 ((count_activities activities).1 !! name)
     = len (filter (fun a => Activity.agent a = name) activities))
  /\ (forall name,
        (count_activities activities).1 !! name = None
        <-> filter (fun a => Activity.agent a = name) activities = [])
  /\ (forall key,
        default 0 ((count_activities activities).2 !! key)
        = len (filter (fun a => activity_key (Activity.agent a)
                                  (Activity.action a) = key) activities)).
Proof.
  unfold count_activities. rewrite count_activities_split. simpl.
  split; [|split].
  - intros name. by rewrite count_foldl, lookup_empty.
  - intros name. rewrite count_foldl_dom, lookup_empty. tauto.
  - intros key. by rewrite count_foldl, lookup_empty.
Qed.

(** X9. The counts of the summary are right: under every agent the number of
    selected activities of that agent, under every key the number of
    selected activities with that agent and action, and no entry for an
    agent without activity. *)
Theorem summary_counts_activities self agent_name :
  selected self agent_name <> [] ->
  let activities := selected self agent_name in
  let summary := get_activity_summary self agent_name in
  exists by_agent by_action : gmap string Z,
    summary !! "by_agent" = Some (VDict (VInt <$> by_agent))
    /\ summary !! "by_action" = Some (VDict (VInt <$> by_action))
    /\ (forall name,
          default 0 (by_agent !! name)
          = len (filter (fun a => Activity.agent a = name) activities))
    /\ (forall name,
          by_agent !! name = None
          <-> filter (fun a => Activity.agent a = name) activities = [])
    /\ (forall key,
          default 0 (by_action !! key)
          = len (filter (fun a => activity_key (Activity.agent a)
                                    (Activity.action a) = key) activities)).
Proof.
  intros Hne activities summary.
  destruct (summary_lookup self agent_name Hne) as (_ & Ha & Hb & _).
  fold activities summary in Ha, Hb.
  eexists _, _. split; [exact Ha|]. split; [exact Hb|].
  apply count_activities_counts.
Qed.

(** X10. Asked about one agent, the summary counts that agent alone, with the
    total as its count; an empty agent name selects everything, like no
    name at all. *)
Theorem summary_of_one_agent self name :
  name <> "" ->
  selected self (Some name) <> [] ->
  let summary := get_activity_summary self (Some name) in
  summary !! "by_agent"
  = Some (VDict (VInt <$> {[ name := len (selected self (Some name)) ]}))
  /\ selected self (Some name)
     = filter (fun a => Activity.agent a = name) (activity_logs self)
  /\ get_activity_summary self (Some "") = get_activity_summary self None.
Proof.
  intros Hname Hne summary.
  assert (selected self (Some name)
          = filter (fun a => Activity.agent a = name) (activity_logs self))
    as Hsel.
  { unfold selected. destruct (String.eqb_spec name ""); [done|done]. }
  split; [|split; [exact Hsel|done]].
  destruct (summary_lookup self (Some name) Hne) as (_ & Ha & _).
  fold summary in Ha. rewrite Ha. do 3 f_equal.
  destruct (count_activities_counts (selected self (Some name)))
    as (Hcount & Hdom & _).
  set (by_agent := (count_activities (selected self (Some name))).1) in *.
  assert (forall other,
            filter (fun a => Activity.agent a = other) (selected self (Some name))
            = if decide (other = name) then selected self (Some name) else [])
    as Hfilter.
  { intros other. rewrite Hsel. apply filter_agent_twice. }
  apply map_eq. intros other.
  destruct (decide (other = name)) as [->|Hother].
  - rewrite lookup_singleton_eq.
    specialize (Hcount name). specialize (Hdom name).
    rewrite Hfilter in Hcount, Hdom. rewrite decide_True in Hcount, Hdom by done.
    destruct (by_agent !! name) as [n|]; [simpl in Hcount; by subst|].
    by destruct Hdom as [Hdom _]; specialize (Hdom eq_refl).
  - rewrite lookup_singleton_ne by done. apply Hdom.
    rewrite Hfilter. by rewrite decide_False.
Qed.

End SummaryFacts.

(** ** The scheduling agent *)

Module SchedulingFacts.

Import AgentFacts SchedulingMore Scenario.

(** The head of a filtered list is the first element that passes. *)
Lemma filter_first {A : Type} (P : A -> Prop) `{!forall x, Decision (P x)}
    (l : list A) x t :
  filter P l = x :: t ->
  exists l1 l2, l = l1 ++ x :: l2 /\ P x /\ Forall (fun y => ~ P y) l1.
Proof.
  induction l as [|a l IH]; [done|].
  rewrite filter_cons. destruct (decide (P a)) as [Ha|Ha].
  - intros [= -> _]. exists [], l. by repeat split.
  - intros (l1 & l2 & -> & Hx & Hl1)%IH.
    exists (a :: l1), l2. repeat split; [done|]. by constructor.
Qed.

Lemma filter_none {A : Type} (P : A -> Prop) `{!forall x, Decision (P x)}
    (l : list A) :
  filter P l = [] -> Forall (fun y => ~ P y) l.
Proof.
  induction l as [|a l IH]; [constructor|].
  rewrite filter_cons. destruct (decide (P a)) as [Ha|Ha]; [done|].
  intros Hl. constructor; auto.
Qed.

Lemma available_slots_range h : h ∈ Agents.available_slots -> 9 <= h <= 16.
Proof.
  unfold Agents.available_slots. intros H.
  repeat (apply elem_of_cons in H as [->|H]; [lia|]).
  by apply elem_of_nil in H.
Qed.

(** Every duration the table can give lies between half an hour and two
    hours. *)
Lemma service_duration_range service_type duration :
  Agents._get_service_duration service_type = Returns duration ->
  30 <= duration <= 120.
Proof.
  destruct service_type; simpl; try (intros [= <-]; lia); try done.
  intros [= <-]. destruct (Agents.durations !! s) as [d|] eqn:E; simpl; [|lia].
  apply elem_of_list_to_map_2 in E.
  repeat (apply elem_of_cons in E as [[= -> ->]|E]; [lia|]).
  by apply elem_of_nil in E.
Qed.

Section WithEnv.
Context (env : Env).

(** What [_find_available_slot] computes from the answer of the database. *)
Lemma _find_available_slot_eq date w :
  Agents._find_available_slot env date w
  = (match get_appointments_by_date_at env (steps w) (date_of date) with
     | Returns appointments =>
         Returns
           (match filter (fun slot => hour_is_booked appointments slot = false)
                         Agents.available_slots with
            | slot :: _ => Some (date, slot)
            | [] => None
            end)
     | Raises e => Raises e
     end, tick w).
Proof.
  unfold Agents._find_available_slot, bind, ask, ret.
  by destruct (get_appointments_by_date_at env (steps w) (date_of date)).
Qed.

(** The scan of the eight hours against the appointments of a day. *)
Lemma free_hours_scan appointments :
  match filter (fun slot => hour_is_booked appointments slot = false)
               Agents.available_slots with
  | [] =>
      Forall (fun h => hour_is_booked appointments h = true)
             Agents.available_slots
  | hour :: _ =>
      hour_is_booked appointments hour = false
      /\ 9 <= hour <= 16
      /\ exists earlier later,
           Agents.available_slots = earlier ++ hour :: later
           /\ Forall (fun h => hour_is_booked appointments h = true) earlier
  end.
Proof.
  destruct (filter _ Agents.available_slots) as [|hour rest] eqn:E.
  - apply filter_none in E. eapply Forall_impl; [exact E|].
    intros h Hh. simpl in Hh. by destruct (hour_is_booked appointments h).
  - apply filter_first in E as (earlier & later & Hsplit & Hfree & Hearlier).
    split; [done|]. split.
    + apply available_slots_range. rewrite Hsplit.
      apply elem_of_app. right. by left.
    + exists earlier, later. split; [done|].
      eapply Forall_impl; [exact Hearlier|].
      intros h Hh. simpl in Hh. by destruct (hour_is_booked appointments h).
Qed.

(** X11. The hour found is the first free one of the day, in the order 9 to 16;
    no hour is found exactly when all eight are taken. *)
Theorem first_free_hour_is_found date w appointments :
  get_appointments_by_date_at env (steps w) (date_of date)
  = Returns appointments ->
  exists found,
    Agents._find_available_slot env date w = (Returns found, tick w)
    /\ match found with
       | None =>
           Forall (fun h => hour_is_booked appointments h = true)
                  Agents.available_slots
       | Some (slot_date, hour) =>
           slot_date = date
           /\ hour_is_booked appointments hour = false
           /\ 9 <= hour <= 16
           /\ exists earlier later,
                Agents.available_slots = earlier ++ hour :: later
                /\ Forall (fun h => hour_is_booked appointments h = true)
                          earlier
       end.
Proof.
  intros Hdb. rewrite _find_available_slot_eq, Hdb.
  eexists. split; [reflexivity|].
  pose proof (free_hours_scan appointments) as Hscan.
  destruct (filter _ Agents.available_slots) as [|hour rest]; [exact Hscan|].
  split; [reflexivity|exact Hscan].
Qed.

(** [dt + td] gives the sum when it is a datetime and overflows else. *)
Lemma plus_timedelta_cases t d :
  (plus_timedelta t d = Returns (t + d) /\ is_datetime (t + d))
  \/ (plus_timedelta t d = Raises date_out_of_range /\ ~ is_datetime (t + d)).
Proof.
  unfold plus_timedelta, is_datetime.
  destruct (DATETIME_MIN <=? t + d) eqn:A;
    destruct (t + d <=? DATETIME_MAX) eqn:B; simpl;
    [left|right..]; (split; [reflexivity|lia]).
Qed.

Lemma plus_timedelta_returns t d r :
  plus_timedelta t d = Returns r -> r = t + d.
Proof.
  destruct (plus_timedelta_cases t d) as [[-> _]|[-> _]]; [|done].
  by intros [= <-].
Qed.

Lemma plus_timedelta_raises t d e :
  plus_timedelta t d = Raises e -> e = date_out_of_range.
Proof.
  destruct (plus_timedelta_cases t d) as [[-> _]|[-> _]]; [done|].
  by intros [= <-].
Qed.

(** What a search over two days can end with. *)
Lemma two_day_search date w :
  exists res w',
    bind (Agents._find_available_slot env date)
         (fun available_slot =>
            match available_slot with
            | Some slot => ret (Some slot)
            | None =>
                appointment_date <- lift (plus_timedelta date (days 1)) ;;
                Agents._find_available_slot env appointment_date
            end) w
    = (res, w')
    /\ same_monitor_and_calls w w' /\ logged w' = logged w
    /\ (steps w < steps w')%nat
    /\ match res with
       | Returns (Some (slot_date, hour)) =>
           (slot_date = date
            \/ plus_timedelta date (days 1) = Returns slot_date)
           /\ hour ∈ Agents.available_slots
       | Returns None =>
           exists first next second,
             get_appointments_by_date_at env (steps w) (date_of date)
             = Returns first
             /\ plus_timedelta date (days 1) = Returns next
             /\ get_appointments_by_date_at env (S (steps w)) (date_of next)
                = Returns second
             /\ Forall (fun h => hour_is_booked first h = true)
                       Agents.available_slots
             /\ Forall (fun h => hour_is_booked second h = true)
                       Agents.available_slots
       | Raises e =>
           get_appointments_by_date_at env (steps w) (date_of date) = Raises e
           \/ plus_timedelta date (days 1) = Raises e
           \/ exists next,
                plus_timedelta date (days 1) = Returns next
                /\ steps w' = S (S (steps w))
                /\ get_appointments_by_date_at env (S (steps w))
                     (date_of next) = Raises e
       end.
Proof.
  unfold bind at 1. rewrite _find_available_slot_eq.
  destruct (get_appointments_by_date_at env (steps w) (date_of date))
    as [first|e] eqn:E1.
  2:{ eexists _, _. split; [reflexivity|]. split; [done|]. split; [done|].
      split; [simpl; lia|]. simpl. by left. }
  pose proof (free_hours_scan first) as Hfound.
  destruct (filter (fun slot => hour_is_booked first slot = false)
                   Agents.available_slots) as [|hour rest].
  - unfold bind, lift.
    destruct (plus_timedelta date (days 1)) as [next|e] eqn:Eplus.
    2:{ eexists _, _. split; [reflexivity|]. split; [done|]. split; [done|].
        split; [simpl; lia|]. simpl. right. by left. }
    rewrite _find_available_slot_eq. simpl steps.
    destruct (get_appointments_by_date_at env (S (steps w)) (date_of next))
      as [second|e] eqn:E2.
    2:{ eexists _, _. split; [reflexivity|]. split; [done|]. split; [done|].
        split; [simpl; lia|]. simpl. right. right. by exists next. }
    pose proof (free_hours_scan second) as Hfound2.
    destruct (filter (fun slot => hour_is_booked second slot = false)
                     Agents.available_slots) as [|hour rest].
    + eexists _, _. split; [reflexivity|]. split; [done|]. split; [done|].
      split; [simpl; lia|]. simpl. by exists first, next, second.
    + eexists _, _. split; [reflexivity|]. split; [done|]. split; [done|].
      split; [simpl; lia|].
      simpl. destruct Hfound2 as (_ & _ & earlier & later & Hsplit & _).
      split; [by right|]. rewrite Hsplit. apply elem_of_app. right. by left.
  - eexists _, _. split; [reflexivity|]. split; [done|]. split; [done|].
    split; [simpl; lia|]. simpl.
    destruct Hfound as (_ & _ & earlier & later & Hsplit & _).
    split; [by left|]. rewrite Hsplit. apply elem_of_app. right. by left.
Qed.

Lemma bind_assoc {A B C : Type} (c : M A) (k1 : A -> M B) (k2 : B -> M C) w :
  bind (bind c k1) k2 w = bind c (fun a => bind (k1 a) k2) w.
Proof. unfold bind. by destruct (c w) as [[a|e] w1]. Qed.

(** The date the search starts from. *)
Lemma requested_date_step preferred_date w :
  exists w',
    (if truthy preferred_date then
       try_except (lift (Agents.fromisoformat env preferred_date))
                  (fun _ => t <- Agents.now env ;;
                            lift (plus_timedelta t (days 1)))
     else t <- Agents.now env ;; lift (plus_timedelta t (days 1))) w
    = (requested_date env preferred_date w, w')
    /\ same_monitor_and_calls w w' /\ logged w' = logged w
    /\ (steps w <= steps w')%nat.
Proof.
  unfold requested_date.
  assert (exists w',
             (t <- Agents.now env ;; lift (plus_timedelta t (days 1))) w
             = (plus_timedelta (now_at env (steps w)) (days 1), w')
             /\ same_monitor_and_calls w w' /\ logged w' = logged w
             /\ (steps w <= steps w')%nat) as Htomorrow.
  { unfold bind, Agents.now, ask, lift. cbn.
    destruct (plus_timedelta (now_at env (steps w)) (days 1));
      (eexists; split; [reflexivity|]; repeat split; simpl; lia). }
  destruct (truthy preferred_date); [|exact Htomorrow].
  unfold try_except, lift.
  destruct (Agents.fromisoformat env preferred_date); [|exact Htomorrow].
  exists w. by repeat split.
Qed.

Lemma requested_date_raises preferred_date w e :
  requested_date env preferred_date w = Raises e -> e = date_out_of_range.
Proof.
  unfold requested_date. destruct (truthy preferred_date);
    [destruct (Agents.fromisoformat env preferred_date); [done|]|];
    apply plus_timedelta_raises.
Qed.

(** The ways [schedule_appointment] ends: with the result for no slot,
    with a stored appointment on the requested day or the day after, or with
    an exception that was logged and has one of the causes of
    [failure_cause]. *)
Lemma schedule_appointment_cases vehicle_id service_type preferred_date w :
  exists res w',
    Agents.schedule_appointment env vehicle_id service_type preferred_date w
    = (res, w')
    /\ same_monitor_and_calls w w'
    /\ match res with
       | Returns r =>
           r = no_slot_result
           \/ exists d0 d h dur created n,
                requested_date env preferred_date w = Returns d0
                /\ (d = d0 \/ plus_timedelta d0 (days 1) = Returns d)
                /\ h ∈ Agents.available_slots
                /\ Agents._get_service_duration service_type = Returns dur
                /\ r = scheduled_result vehicle_id service_type d h dur created
                /\ store_appointment_at env n
                     (the_appointment vehicle_id service_type d h dur created)
                   = Returns tt
       | Raises e =>
           last (logged w') = Some (scheduling_error e)
           /\ failure_cause env vehicle_id service_type preferred_date w w' e
       end.
Proof.
  unfold Agents.schedule_appointment. unfold try_except at 1.
  unfold bind at 1. unfold logger at 1.
  set (w1 := {| ueba_monitor := ueba_monitor w; steps := steps w;
                logged := logged w ++ _; calls := calls w |}).
  unfold bind at 1.
  destruct (requested_date_step preferred_date w1)
    as (w2 & Ed & [Hm2 Hc2] & Hl2 & Hs2).
  rewrite Ed.
  change (requested_date env preferred_date w1)
    with (requested_date env preferred_date w).
  change (steps w1) with (steps w) in Hs2.
  destruct (requested_date env preferred_date w) as [d0|e] eqn:Hd0.
  2:{ eexists _, _. split; [reflexivity|]. split; [done|]. cbn.
      split; [apply last_snoc|]. left. split; [done|].
      by eapply requested_date_raises. }
  rewrite <- bind_assoc. unfold bind at 1.
  destruct (two_day_search d0 w2)
    as (res & w3 & Es & [Hm3 Hc3] & Hl3 & Hs3 & Hres).
  rewrite Es.
  assert (same_monitor_and_calls w w3) as Hsame.
  { split; [by rewrite Hm3, Hm2|by rewrite Hc3, Hc2]. }
  destruct res as [[[slot_date hour]|]|e].
  - destruct Hres as (Hdate & Hhour).
    unfold bind at 1, lift.
    destruct (Agents._get_service_duration service_type) as [dur|e] eqn:Edur.
    2:{ eexists _, _. split; [reflexivity|]. split; [done|]. cbn.
        split; [apply last_snoc|]. right. exists d0. split; [done|].
        right. right. by left. }
    unfold bind at 1. rewrite UEBAFacts.utcnow_eq.
    unfold bind at 1, ask. cbn [tick steps].
    match goal with
    | |- context [store_appointment_at env ?n ?a] =>
        destruct (store_appointment_at env n a) as [[]|e] eqn:Estore
    end.
    + eexists _, _. split; [reflexivity|]. split; [done|]. right.
      eexists d0, slot_date, hour, dur, _, _.
      split; [done|]. split; [exact Hdate|]. split; [exact Hhour|].
      split; [done|]. split; [reflexivity|]. exact Estore.
    + eexists _, _. split; [reflexivity|]. split; [done|]. cbn.
      split; [apply last_snoc|]. right. exists d0. split; [done|].
      right. right. right.
      eexists (S (steps w3)), slot_date, hour, dur, _.
      split; [simpl; lia|]. exact Estore.
  - eexists _, _. split; [reflexivity|]. split; [done|]. by left.
  - eexists _, _. split; [reflexivity|]. split; [done|]. cbn.
    split; [apply last_snoc|]. right. exists d0. split; [done|].
    destruct Hres as [He|[He|(next & Hnext & Hsteps & He)]].
    + right. left. exists (steps w2), d0.
      split; [simpl; lia|]. split; [by left|done].
    + left. split; [done|]. by eapply plus_timedelta_raises.
    + right. left. exists (S (steps w2)), next.
      split; [simpl; lia|]. split; [by right|done].
Qed.

Lemma scheduled_result_fields vehicle_id service_type d h dur created :
  let r := scheduled_result vehicle_id service_type d h dur created in
  r !! "status" = Some (VStr "scheduled")
  /\ appointment_field r "vehicle_id" = VStr vehicle_id
  /\ appointment_field r "service_type" = service_type
  /\ appointment_field r "date" = VIso d
  /\ appointment_field r "time" = VInt h
  /\ appointment_field r "estimated_duration" = VInt dur
  /\ appointment_field r "status" = VStr "scheduled".
Proof. repeat split. Qed.

(** X12. An appointment made by [auto_schedule] is for tomorrow or the day
    after, at a full hour from 9 to 16, for the vehicle and the service
    asked for, with a duration between 30 and 120 minutes; the only other
    result is the one for no free slot. *)
Theorem auto_schedule_books_within_two_days vehicle_id service_type w r w' :
  Agents.auto_schedule env vehicle_id service_type w = (Returns r, w') ->
  r = no_slot_result
  \/ (r !! "status" = Some (VStr "scheduled")
      /\ appointment_field r "vehicle_id" = VStr vehicle_id
      /\ appointment_field r "service_type" = service_type
      /\ exists d h dur,
           appointment_field r "date" = VIso d
           /\ (d = now_at env (steps w) + days 1
               \/ d = now_at env (steps w) + days 2)
           /\ appointment_field r "time" = VInt h /\ 9 <= h <= 16
           /\ appointment_field r "estimated_duration" = VInt dur
           /\ 30 <= dur <= 120).
Proof.
  unfold Agents.auto_schedule, bind, Agents.now, ask, lift. intros Hrun.
  destruct (plus_timedelta_cases (now_at env (steps w)) (days 1))
    as [[Hplus _]|[Hplus _]]; rewrite Hplus in Hrun; [|discriminate].
  destruct (schedule_appointment_cases vehicle_id service_type
              (VIso (now_at env (steps w) + days 1)) (tick w))
    as (res & w2 & E & _ & Hres).
  rewrite Hrun in E. injection E as <- <-.
  destruct Hres
    as [->|(d0 & d & h & dur & created & n & Hd0 & Hd & Hh & Hdur & -> & _)];
    [by left|right].
  destruct (scheduled_result_fields vehicle_id service_type d h dur created)
    as (H1 & H2 & H3 & H4 & H5 & H6 & _).
  split; [exact H1|]. split; [exact H2|]. split; [exact H3|].
  exists d, h, dur. split; [exact H4|]. split.
  { injection Hd0 as <-.
    destruct Hd as [->|Hd%plus_timedelta_returns]; [by left|right].
    unfold days in *. lia. }
  split; [exact H5|]. split; [by apply available_slots_range|].
  split; [exact H6|]. by eapply service_duration_range.
Qed.

(** X13. When the database answers every question, the service type can be
    looked up and the day after the requested date is still a datetime,
    [schedule_appointment] returns, with the status scheduled or with the
    result for no free slot. *)
Theorem schedule_appointment_returns_when_database_answers
    vehicle_id service_type preferred_date w d0 :
  (forall n d, exists l, get_appointments_by_date_at env n d = Returns l) ->
  (forall n a, store_appointment_at env n a = Returns tt) ->
  (exists dur, Agents._get_service_duration service_type = Returns dur) ->
  requested_date env preferred_date w = Returns d0 ->
  is_datetime (d0 + days 1) ->
  exists r w',
    Agents.schedule_appointment env vehicle_id service_type preferred_date w
    = (Returns r, w')
    /\ (r = no_slot_result \/ r !! "status" = Some (VStr "scheduled")).
Proof.
  intros Hget Hstore [dur Hdur] Hd0 Hnext.
  destruct (schedule_appointment_cases vehicle_id service_type
              preferred_date w) as (res & w' & E & _ & Hres).
  destruct res as [r|e].
  - exists r, w'. split; [exact E|].
    destruct Hres
      as [->|(d0' & d & h & dur' & created & n & _ & _ & _ & _ & -> & _)];
      [by left|by right].
  - exfalso. destruct Hres as (_ & [[He _]|(d0' & Hd0' & Hcause)]);
      [congruence|].
    rewrite Hd0 in Hd0'. injection Hd0' as <-.
    destruct Hcause
      as [[Hover _]|[(n & d & _ & _ & He)|[He|(n & d & h & dur' & created
                                                 & _ & He)]]].
    + destruct (plus_timedelta_cases d0 (days 1)) as [[H _]|[_ H]];
        [congruence|done].
    + destruct (Hget n (date_of d)) as [l Hl]. congruence.
    + congruence.
    + rewrite Hstore in He. done.
Qed.


(** X15. A preferred date that is empty or cannot be parsed is as good as none:
    the search starts tomorrow. *)
Theorem unparsable_date_means_tomorrow
    vehicle_id service_type preferred_date w :
  truthy preferred_date = false
  \/ (exists e, Agents.fromisoformat env preferred_date = Raises e) ->
  Agents.schedule_appointment env vehicle_id service_type preferred_date w
  = Agents.schedule_appointment env vehicle_id service_type VNone w.
Proof.
  intros Hbad. unfold Agents.schedule_appointment.
  unfold try_except at 1 3. unfold bind at 1 6. unfold logger at 1 3.
  unfold bind at 1 5.
  match goal with
  | |- context [(if truthy preferred_date then ?a else ?b) ?w1] =>
      assert ((if truthy preferred_date then a else b) w1 = b w1) as ->
  end; [|reflexivity].
  destruct (truthy preferred_date) eqn:T; [|done].
  destruct Hbad as [|[e He]]; [done|].
  unfold try_except, lift. by rewrite He.
Qed.

(** X16. [get_available_slots] never raises. When the date cannot be parsed or
    the database fails it logs the error and returns the empty list; else it
    returns the eight hours from 9 to 16 in order, each marked available
    exactly when no appointment of that day has its hour. *)
Theorem get_available_slots_never_raises date w :
  exists slots w',
    get_available_slots env date w = (Returns slots, w')
    /\ same_monitor_and_calls w w'
    /\ match Agents.fromisoformat env date with
       | Raises e => slots = [] /\ logged w' <> logged w
       | Returns d =>
           match get_appointments_by_date_at env (steps w) (date_of d) with
           | Raises e => slots = [] /\ logged w' <> logged w
           | Returns appointments =>
               length slots = 8%nat
               /\ logged w' = logged w
               /\ Forall2 (fun hour slot =>
                             slot !! "time" = Some (VInt hour)
                             /\ slot !! "available"
                                = Some (VBool (negb (hour_is_booked
                                                       appointments hour))))
                          Agents.available_slots slots
           end
       end.
Proof.
  unfold get_available_slots, try_except, bind, lift.
  destruct (Agents.fromisoformat env date) as [d|e].
  2:{ eexists _, _. split; [reflexivity|]. split; [done|]. split; [done|].
      cbn. intros H. apply (f_equal length) in H.
      rewrite length_app in H. simpl in H. lia. }
  unfold ask.
  destruct (get_appointments_by_date_at env (steps w) (date_of d))
    as [appointments|e].
  2:{ eexists _, _. split; [reflexivity|]. split; [done|]. split; [done|].
      cbn. intros H. apply (f_equal length) in H.
      rewrite length_app in H. simpl in H. lia. }
  eexists _, _. split; [reflexivity|]. split; [done|].
  split; [by rewrite length_map|]. split; [done|].
  apply Forall2_fmap_r, Forall_Forall2_diag, Forall_forall.
  intros hour _. unfold hour_is_booked, compose. cbv beta.
  destruct (existsb _ _); split; reflexivity.
Qed.

End WithEnv.

End SchedulingFacts.

(** ** Computations that keep a relation *)

Module KeepsFacts.

Import SpecMore.

Section Keeps.
Context (R : World -> World -> Prop).
Context (R_refl : forall w, R w w).
Context (R_trans : forall w1 w2 w3, R w1 w2 -> R w2 w3 -> R w1 w3).
Context (R_quiet : forall w w',
           ueba_monitor w' = ueba_monitor w -> alerts w' = alerts w -> R w w').

Lemma frame_ret {A : Type} (a : A) : keeps R (ret a).
Proof. intros w. apply R_refl. Qed.

Lemma frame_raise {A : Type} e : keeps R (@raise A e).
Proof. intros w. apply R_refl. Qed.

Lemma frame_lift {A : Type} (o : outcome A) : keeps R (lift o).
Proof. intros w. apply R_refl. Qed.

Lemma frame_ask {A : Type} (answer : nat -> outcome A) : keeps R (ask answer).
Proof. intros w. by apply R_quiet. Qed.

Lemma frame_emit c : keeps R (emit c).
Proof. intros w. by apply R_quiet. Qed.

Lemma frame_log_info text : keeps R (logger (LogInfo text)).
Proof.
  intros w. apply R_quiet; [done|]. unfold alerts. simpl.
  rewrite omap_app. simpl. by rewrite app_nil_r.
Qed.

Lemma frame_log_warning text : keeps R (logger (LogWarning text)).
Proof.
  intros w. apply R_quiet; [done|]. unfold alerts. simpl.
  rewrite omap_app. simpl. by rewrite app_nil_r.
Qed.

Lemma frame_log_error text : keeps R (logger (LogError text)).
Proof.
  intros w. apply R_quiet; [done|]. unfold alerts. simpl.
  rewrite omap_app. simpl. by rewrite app_nil_r.
Qed.

Lemma frame_bind {A B : Type} (c : M A) (k : A -> M B) :
  keeps R c -> (forall a, keeps R (k a)) -> keeps R (bind c k).
Proof.
  intros Hc Hk w. unfold bind. specialize (Hc w).
  destruct (c w) as [[a|e] w1]; simpl in *; [|done].
  eapply R_trans; [exact Hc|apply Hk].
Qed.

Lemma frame_try_except {A : Type} (body : M A) (handler : exn -> M A) :
  keeps R body -> (forall e, keeps R (handler e)) ->
  keeps R (try_except body handler).
Proof.
  intros Hc Hk w. unfold try_except. specialize (Hc w).
  destruct (body w) as [[a|e] w1]; simpl in *; [done|].
  eapply R_trans; [exact Hc|apply Hk].
Qed.

Lemma frame_stage note answer : keeps R (Agents.stage note answer).
Proof. intros w. by apply R_quiet. Qed.

Lemma frame_noted note (c : M dict) :
  keeps R c -> keeps R (Agents.noted note c).
Proof.
  intros Hc w. unfold Agents.noted. specialize (Hc w).
  destruct (c w) as [res w1]. simpl in *.
  eapply R_trans; [exact Hc|]. by apply R_quiet.
Qed.

End Keeps.

(** Prove that a computation built from the steps above keeps a relation;
    [leaf] proves what it keeps at the calls that are not unfolded. *)
Ltac frame_steps_using leaf :=
  repeat first
    [ solve [leaf]
    | apply frame_bind; [try assumption .. | intros ?]
    | apply frame_try_except; [try assumption .. | intros ?]
    | apply frame_noted; try assumption
    | solve [ apply frame_ret; assumption | apply frame_raise; assumption
            | apply frame_lift; assumption | apply frame_ask; assumption
            | apply frame_emit; assumption
            | apply frame_log_info; assumption
            | apply frame_log_warning; assumption
            | apply frame_log_error; assumption
            | apply frame_stage; assumption ]
    | match goal with
      | |- keeps _ (match ?x with _ => _ end) => destruct x
      end ].

Ltac frame_steps := frame_steps_using fail.

Section Agents.
Context (R : World -> World -> Prop).
Context (R_refl : forall w, R w w).
Context (R_trans : forall w1 w2 w3, R w1 w2 -> R w2 w3 -> R w1 w3).
Context (R_quiet : forall w w',
           ueba_monitor w' = ueba_monitor w -> alerts w' = alerts w -> R w w').
Context (env : Env) (out : Outside).

Lemma frame_schedule_appointment vehicle_id service_type preferred_date :
  keeps R (Agents.schedule_appointment env vehicle_id service_type
             preferred_date).
Proof.
  unfold Agents.schedule_appointment, Agents._find_available_slot,
    Agents.now, UEBA.utcnow.
  frame_steps.
Qed.

Lemma frame_auto_schedule vehicle_id service_type :
  keeps R (Agents.auto_schedule env vehicle_id service_type).
Proof.
  unfold Agents.auto_schedule, Agents.now.
  apply frame_bind; try assumption; [by apply frame_ask|intros t].
  apply frame_bind; [try assumption ..|intros tomorrow].
  by apply frame_schedule_appointment.
Qed.

Lemma frame_get_available_slots date :
  keeps R (SchedulingMore.get_available_slots env date).
Proof. unfold SchedulingMore.get_available_slots. frame_steps. Qed.

Lemma frame_process_message message session_id :
  keeps R (Customer.process_message out message session_id).
Proof.
  unfold Customer.process_message, Customer._generate_response.
  frame_steps.
Qed.

End Agents.

End KeepsFacts.

(** ** The chat of the customer agent *)

Module ChatFacts.

Import Customer LedgerFacts.

Lemma contains_cons needle c text :
  contains needle (String c text)
  = String.prefix needle (String c text) || contains needle text.
Proof.
  unfold contains. cbn [String.index].
  destruct (String.prefix needle (String c text)); [done|].
  by destruct (String.index 0 needle text).
Qed.

Lemma prefix_app needle post : String.prefix needle (needle +:+ post) = true.
Proof.
  induction needle as [|a needle IH]; simpl; [by destruct post|].
  by destruct (Ascii.ascii_dec a a).
Qed.

(** A text contains every word written somewhere inside it. *)
Lemma contains_app needle pre post :
  contains needle (pre +:+ needle +:+ post) = true.
Proof.
  induction pre as [|c pre IH].
  - change ("" +:+ needle +:+ post) with (needle +:+ post).
    pose proof (prefix_app needle post) as Hp.
    destruct (needle +:+ post) as [|c text] eqn:E.
    + destruct needle; [|done]. by destruct post.
    + by rewrite contains_cons, Hp.
  - change (String c pre +:+ needle +:+ post)
      with (String c (pre +:+ needle +:+ post)).
    rewrite contains_cons, IH. apply orb_true_r.
Qed.

Lemma length_flat_map_two {A B : Type} (f : A -> list B) (l : list A) :
  (forall x, length (f x) = 2%nat) ->
  length (flat_map f l) = (2 * length l)%nat.
Proof.
  intros Hf. induction l as [|x l IH]; simpl; [done|].
  rewrite length_app, Hf, IH. lia.
Qed.

(** X17. The rule-based answer is the last one exactly when the lowered message
    contains none of the six words; a word counts wherever it stands, also
    inside another word, as [hi] does in [vehicle]. *)
Theorem rule_based_answer_looks_inside_words out message :
  (_fallback_response out message = answer_other
   <-> Forall (fun word => contains word (lower out message) = false)
              keywords)
  /\ forall word pre post,
       word ∈ keywords ->
       lower out message = pre +:+ word +:+ post ->
       _fallback_response out message <> answer_other.
Proof.
  assert (_fallback_response out message = answer_other
          <-> Forall (fun word => contains word (lower out message) = false)
                     keywords) as Hiff.
  { unfold _fallback_response, keywords. cbv zeta.
    rewrite !Forall_cons.
    destruct (contains "schedule" (lower out message));
      [split; [discriminate|intros (? & _); congruence]|].
    destruct (contains "appointment" (lower out message));
      [split; [discriminate|intros (_ & ? & _); congruence]|].
    destruct (contains "battery" (lower out message));
      [split; [discriminate|intros (_ & _ & ? & _); congruence]|].
    destruct (contains "brake" (lower out message));
      [split; [discriminate|intros (_ & _ & _ & ? & _); congruence]|].
    destruct (contains "hello" (lower out message));
      [split; [discriminate|intros (_ & _ & _ & _ & ? & _); congruence]|].
    destruct (contains "hi" (lower out message));
      [split; [discriminate|intros (_ & _ & _ & _ & _ & ? & _); congruence]|].
    simpl. split; [|done]. intros _. by repeat split. }
  split; [exact Hiff|].
  intros word pre post Hword Hlow Hother.
  apply Hiff in Hother. rewrite Forall_forall in Hother.
  specialize (Hother word Hword). rewrite Hlow, contains_app in Hother.
  discriminate.
Qed.

(** X18. The model is sent the system message first, then the last five
    exchanges of the history at most, each as a user and an assistant
    message, and the new message last. *)
Theorem chat_sends_last_five_exchanges message context history :
  let messages := chat_messages message context history in
  length messages = (2 + 2 * (length history `min` 5))%nat
  /\ head messages = Some ("system", VStr (system_prompt context))
  /\ last messages = Some ("user", VStr message)
  /\ exists older recent,
       history = older ++ recent
       /\ messages
          = ("system", VStr (system_prompt context))
            :: flat_map (fun h => [ ("user", get h "message" (VStr ""));
                                    ("assistant", get h "response" (VStr "")) ])
                        recent
            ++ [("user", VStr message)].
Proof.
  intros messages. unfold messages, chat_messages.
  split; [|split; [done|split]].
  - simpl. rewrite length_app, length_flat_map_two, length_last_n by done.
    simpl. lia.
  - simpl. rewrite app_comm_cons. apply last_snoc.
  - destruct (last_n_suffix 5 history) as [older Holder].
    exists older, (last_n 5 history). split; [exact Holder|done].
Qed.

(** What [_generate_response] does, by the client. *)
Lemma _generate_response_cases out message context history w :
  exists reply w',
    _generate_response out message context history w = (Returns reply, w')
    /\ ueba_monitor w' = ueba_monitor w
    /\ ((exists create,
           openai_client out = Some create
           /\ create (steps w) (chat_messages message context history)
              = Returns reply
           /\ logged w' = logged w)
        \/ (reply = VStr (_fallback_response out message)
            /\ (openai_client out = None /\ logged w' = logged w
                \/ exists create e,
                     openai_client out = Some create
                     /\ create (steps w)
                          (chat_messages message context history)
                        = Raises e
                     /\ logged w'
                        = logged w
                          ++ [LogError (VStr ("OpenAI API error: "
                                              +:+ exn_msg e))]))).
Proof.
  unfold _generate_response.
  destruct (openai_client out) as [create|] eqn:Hc.
  - unfold try_except, ask, bind, logger, ret.
    destruct (create (steps w) (chat_messages message context history))
      as [reply|e] eqn:E.
    + eexists _, _. split; [reflexivity|]. split; [done|]. left.
      by exists create.
    + eexists _, _. split; [reflexivity|]. split; [done|]. right.
      split; [done|]. right. by exists create, e.
  - eexists _, _. split; [reflexivity|]. split; [done|]. right.
    split; [done|]. by left.
Qed.

(** X19. [_generate_response] never raises. Its value is the text the model
    gave, or, when there is no client or the call of the model raised, the
    rule-based answer; the failure of the model is logged. *)
Theorem reply_is_from_the_model_or_rule_based out message context history w :
  let run := _generate_response out message context history w in
  exists reply,
    fst run = Returns reply
    /\ ((exists create,
           openai_client out = Some create
           /\ create (steps w) (chat_messages message context history)
              = Returns reply)
        \/ (reply = VStr (_fallback_response out message)
            /\ (openai_client out = None
                \/ exists create e,
                     openai_client out = Some create
                     /\ create (steps w)
                          (chat_messages message context history)
                        = Raises e
                     /\ last (logged (snd run))
                        = Some (LogError (VStr ("OpenAI API error: "
                                                +:+ exn_msg e)))))).
Proof.
  intros run. unfold run.
  destruct (_generate_response_cases out message context history w)
    as (reply & w' & E & _ & H).
  rewrite E. exists reply. split; [done|].
  destruct H as [(create & Hc & Hr & _)|[-> H]]; [left; by exists create|].
  right. split; [done|].
  destruct H as [[Hc _]|(create & e & Hc & Hr & Hl)]; [by left|].
  right. exists create, e. split; [done|]. split; [done|].
  simpl. rewrite Hl. apply last_snoc.
Qed.

(** What [process_message] does. *)
Lemma process_message_cases out message session_id w :
  exists reply w',
    process_message out message session_id w = (Returns reply, w')
    /\ ueba_monitor w' = ueba_monitor w
    /\ alerts w' = alerts w
    /\ ((exists history n,
           get_conversation_history_at out (steps w) session_id
           = Returns history
           /\ store_conversation_at out n session_id message reply
              = Returns tt)
        \/ (reply = VStr apology
            /\ exists e,
                 last (logged w')
                 = Some (LogError (VStr ("❌ Customer Agent error: "
                                         +:+ exn_msg e))))).
Proof.
  assert (exists reply w',
             process_message out message session_id w = (Returns reply, w')
             /\ ((exists history n,
                    get_conversation_history_at out (steps w) session_id
                    = Returns history
                    /\ store_conversation_at out n session_id message reply
                       = Returns tt)
                 \/ (reply = VStr apology
                     /\ exists e,
                          last (logged w')
                          = Some (LogError (VStr ("❌ Customer Agent error: "
                                                  +:+ exn_msg e))))))
    as (reply & w' & E & H).
  { unfold process_message, try_except.
    unfold bind at 1. unfold logger at 1.
    unfold bind at 1. unfold ask at 1.
    cbn [steps tick].
    destruct (get_conversation_history_at out (steps w) session_id)
      as [history|e] eqn:Hh.
    2:{ unfold bind, logger, ret. cbn.
        eexists _, _. split; [reflexivity|].
        right. split; [done|]. exists e. apply last_snoc. }
    unfold bind at 1.
    match goal with
    | |- context [_generate_response out ?m ?c ?h ?w0] =>
        destruct (_generate_response_cases out m c h w0)
          as (reply & w1 & E & _ & _); rewrite E
    end.
    unfold bind at 1. unfold ask at 1.
    destruct (store_conversation_at out (steps w1) session_id message reply)
      as [[]|e] eqn:Hs.
    - unfold ret. cbn. eexists _, _. split; [reflexivity|].
      left. by exists history, (steps w1).
    - unfold bind, logger, ret. cbn. eexists _, _. split; [reflexivity|].
      right. split; [done|]. exists e. apply last_snoc. }
  exists reply, w'. split; [exact E|].
  pose proof (KeepsFacts.frame_process_message
                (fun w w' => ueba_monitor w' = ueba_monitor w
                             /\ alerts w' = alerts w)
                ltac:(done)
                ltac:(intros ? ? ? [-> ->] [-> ->]; done)
                ltac:(done) out message session_id w) as Hkeep.
  rewrite E in Hkeep. destruct Hkeep as [Hm Ha]. done.
Qed.

(** X20. The chat never raises. Its reply was stored with the message in the
    history of the session, or it is the apology, given when the history
    could not be read or the exchange not be stored, and then the failure
    is the last line of the log. *)
Theorem chat_reply_is_stored_or_an_apology out message session_id w :
  let run := process_message out message session_id w in
  exists reply,
    fst run = Returns reply
    /\ ((exists history n,
           get_conversation_history_at out (steps w) session_id
           = Returns history
           /\ store_conversation_at out n session_id message reply
              = Returns tt)
        \/ (reply = VStr apology
            /\ exists e,
                 last (logged (snd run))
                 = Some (LogError (VStr ("❌ Customer Agent error: "
                                         +:+ exn_msg e))))).
Proof.
  intros run. unfold run.
  destruct (process_message_cases out message session_id w)
    as (reply & w' & E & _ & _ & H).
  rewrite E. by exists reply.
Qed.

End ChatFacts.

(** ** The routes and the entry points of the master agent *)

Module RouteFacts.

Import SpecMore UEBAFacts MonitorClaims MonitorMore AgentFacts KeepsFacts
  ChatFacts Routes.

(** A step that makes [S], followed by steps that keep [R]. *)
Section Then.
Context (S R : World -> World -> Prop).
Context (S_then_R : forall w1 w2 w3, S w1 w2 -> R w2 w3 -> S w1 w3).

Lemma frame_bind_then {A B : Type} (c : M A) (k : A -> M B) :
  keeps S c -> (forall a, keeps R (k a)) -> keeps S (bind c k).
Proof.
  intros Hc Hk w. unfold bind. specialize (Hc w).
  destruct (c w) as [[a|e] w1]; simpl in *; [|done].
  eapply S_then_R; [exact Hc|apply Hk].
Qed.

Lemma frame_try_then {A : Type} (body : M A) (handler : exn -> M A) :
  keeps S body -> (forall e, keeps R (handler e)) ->
  keeps S (try_except body handler).
Proof.
  intros Hc Hk w. unfold try_except. specialize (Hc w).
  destruct (body w) as [[a|e] w1]; simpl in *; [done|].
  eapply S_then_R; [exact Hc|apply Hk].
Qed.

End Then.

Lemma same_monitor_refl w : same_monitor w w.
Proof. done. Qed.

Lemma same_monitor_trans w1 w2 w3 :
  same_monitor w1 w2 -> same_monitor w2 w3 -> same_monitor w1 w3.
Proof. unfold same_monitor. congruence. Qed.

Lemma same_monitor_quiet w w' :
  ueba_monitor w' = ueba_monitor w -> alerts w' = alerts w -> same_monitor w w'.
Proof. done. Qed.

Lemma recorded_once_then env action w1 w2 w3 :
  recorded_once env action w1 w2 -> same_monitor w2 w3 ->
  recorded_once env action w1 w3.
Proof. intros [metadata H] H'. exists metadata. by rewrite H'. Qed.

Lemma model_alerts_only_refl w : model_alerts_only w w.
Proof.
  intros _. split; [done|]. split; [done|]. exists [].
  by rewrite app_nil_r.
Qed.

Lemma model_alerts_only_trans w1 w2 w3 :
  model_alerts_only w1 w2 -> model_alerts_only w2 w3 ->
  model_alerts_only w1 w3.
Proof.
  intros H12 H23 Hb. destruct (H12 Hb) as (Hp & Hm & new & Ha & Hnew).
  assert (built_in_profiles w2) as Hb2.
  { unfold built_in_profiles in *. congruence. }
  destruct (H23 Hb2) as (Hp' & Hm' & new' & Ha' & Hnew').
  split; [congruence|]. split; [congruence|].
  exists (new ++ new'). split; [by rewrite Ha', Ha, app_assoc|].
  by apply Forall_app.
Qed.

Lemma model_alerts_only_quiet w w' :
  ueba_monitor w' = ueba_monitor w -> alerts w' = alerts w ->
  model_alerts_only w w'.
Proof.
  intros Hm Ha _. unfold only_model_alerts. rewrite Hm, Ha.
  split; [done|]. split; [done|]. exists []. by rewrite app_nil_r.
Qed.

Lemma model_unusable_same env w w' :
  model (ueba_monitor w') = model (ueba_monitor w) ->
  model_unusable env w -> model_unusable env w'.
Proof. unfold model_unusable. intros ->. done. Qed.

Lemma silent_refl env w : silent env w w.
Proof. by intros _ _. Qed.

Lemma silent_trans env w1 w2 w3 :
  silent env w1 w2 -> silent env w2 w3 -> silent env w1 w3.
Proof.
  intros H12 H23 Hb Hu. destruct (H12 Hb Hu) as (Hp & Hm & Ha).
  assert (built_in_profiles w2) as Hb2.
  { unfold built_in_profiles in *. congruence. }
  destruct (H23 Hb2 (model_unusable_same _ _ _ Hm Hu)) as (Hp' & Hm' & Ha').
  split; [congruence|]. split; congruence.
Qed.

Lemma silent_quiet env w w' :
  ueba_monitor w' = ueba_monitor w -> alerts w' = alerts w -> silent env w w'.
Proof. intros Hm Ha _ _. unfold no_alert. by rewrite Hm. Qed.

Lemma master_profile :
  UEBA.the_normal_patterns !! "master_agent"
  = Some (Pattern.Build 100 master_actions).
Proof. vm_compute. reflexivity. Qed.

Section WithEnv.
Context (env : Env) (out : Outside) (routes_monitor : UEBAMonitor).

Lemma log_agent_activity_returns agent_name action metadata w :
  fst (UEBA.log_agent_activity env agent_name action metadata w)
  = Returns None.
Proof.
  destruct (log_agent_activity_spec env agent_name action metadata w)
    as (found & w2 & w' & _ & E & _).
  by rewrite E.
Qed.


(** What a call of the record operation by the master agent hands to the
    handler, under the profiles of [__init__]. *)
Lemma master_activity_alerts action metadata w :
  action ∈ master_actions ->
  built_in_profiles w ->
  let w' := snd (UEBA.log_agent_activity env "master_agent" action metadata w) in
  normal_patterns (ueba_monitor w') = normal_patterns (ueba_monitor w)
  /\ model (ueba_monitor w') = model (ueba_monitor w)
  /\ (alerts w' = alerts w
      \/ ~ model_unusable env w
         /\ exists r, alerts w' = alerts w ++ [r] /\ model_alert r).
Proof.
  intros Haction Hb w'. unfold w'.
  destruct (log_agent_activity_spec env "master_agent" action metadata w)
    as (found & w2 & w1 & Hcheck & E & _ & Hm & Hp & _ & Ha).
  rewrite E. simpl. split; [exact Hp|]. split; [exact Hm|].
  set (wa := after_append env "master_agent" action metadata w) in *.
  assert (normal_patterns (ueba_monitor wa) !! "master_agent"
          = Some (Pattern.Build 100 master_actions)) as Hprofile.
  { unfold wa. simpl. rewrite Hb. apply master_profile. }
  destruct (_check_anomaly_spec env "master_agent" action wa)
    as (rate & ml & wr & wm & E1 & E2 & Ec & [Qm _] & _).
  rewrite Hcheck in Ec. injection Ec as -> _.
  destruct (rate_limit_check_spec env "master_agent" wa)
    as (rate' & wr' & E1' & _ & _ & _ & Hsilent).
  rewrite E1 in E1'. injection E1' as <- <-.
  rewrite (Hsilent _ Hprofile) in Ha by (simpl; lia).
  assert (UEBA.unauthorized_check (ueba_monitor wa) "master_agent" action
          = []) as Hun.
  { unfold UEBA.unauthorized_check. rewrite Hprofile. simpl.
    by rewrite decide_True. }
  change (UEBA.unauthorized_check _ "master_agent" action)
    with (UEBA.unauthorized_check (ueba_monitor wa) "master_agent" action)
    in Ha.
  rewrite Hun in Ha. simpl in Ha.
  destruct (ml_check_spec env "master_agent" action wr)
    as (ml' & wm' & E2' & _ & Hml).
  rewrite E2 in E2'. injection E2' as <- <-.
  destruct Hml as [->|[-> (m & row & labels & Hmodel & Hs & _ & _ & Hpred)]].
  - left. simpl in Ha. by rewrite app_nil_r in Ha.
  - right. split.
    + intros [Hnone|[Hfalse|(m' & Hm' & Hraise)]].
      * rewrite Qm in Hmodel. unfold wa in Hmodel. simpl in Hmodel. congruence.
      * congruence.
      * rewrite Qm in Hmodel. unfold wa in Hmodel. simpl in Hmodel.
        rewrite Hmodel in Hm'. injection Hm' as <-.
        destruct (Hraise [row]) as [e He]. congruence.
    + eexists. split; [exact Ha|]. by split.
Qed.

Lemma log_model_alerts_only action metadata :
  action ∈ master_actions ->
  keeps model_alerts_only
    (UEBA.log_agent_activity env "master_agent" action metadata).
Proof.
  intros Haction w Hb.
  destruct (master_activity_alerts action metadata w Haction Hb)
    as (Hp & Hm & [Ha|(_ & r & Ha & Hr)]).
  - split; [done|]. split; [done|]. exists []. by rewrite app_nil_r.
  - split; [done|]. split; [done|]. exists [r]. split; [done|].
    by constructor.
Qed.

Lemma log_silent action metadata :
  action ∈ master_actions ->
  keeps (silent env)
    (UEBA.log_agent_activity env "master_agent" action metadata).
Proof.
  intros Haction w Hb Hu.
  destruct (master_activity_alerts action metadata w Haction Hb)
    as (Hp & Hm & [Ha|(Hno & _)]); [done|].
  by destruct Hno.
Qed.

Lemma log_recorded_once action metadata :
  keeps (recorded_once env action)
    (UEBA.log_agent_activity env "master_agent" action metadata).
Proof. intros w. exists metadata. apply log_agent_activity_monitor. Qed.

(** Open the handlers down to the record operation. *)
Ltac open_handlers :=
  unfold handle, awaited, response_key, respond, as_value,
    MasterMore.handle_customer_query,
    MasterMore.submit_feedback, MasterMore.get_vehicle_status,
    Agents.process_telematics_data, Agents.schedule_maintenance,
    Customer.process_message, Customer._generate_response,
    SchedulingMore.get_available_slots, Agents.auto_schedule,
    Agents.schedule_appointment, Agents._find_available_slot,
    Agents.now, UEBA.utcnow;
  cbv zeta.

(** X21. Under the profiles of [__init__] no request makes the monitor hand
    a policy finding to its handler, whatever the ledger holds and however
    often the master agent is called: every report handed over while a
    request is served is about [master_agent] and carries the finding of the
    model alone. The profiles and the model stay as they are. *)
Theorem requests_raise_only_model_alerts r w :
  built_in_profiles w ->
  only_model_alerts w (snd (handle env out routes_monitor r w)).
Proof.
  revert w. change (keeps model_alerts_only (handle env out routes_monitor r)).
  pose proof model_alerts_only_refl as Hrefl.
  pose proof model_alerts_only_trans as Htrans.
  pose proof model_alerts_only_quiet as Hquiet.
  destruct r; open_handlers;
    frame_steps_using ltac:(apply log_model_alerts_only; in_list).
Qed.

(** X22. When the model cannot give a verdict, no request makes the monitor
    hand anything to its handler: the master agent is never flagged. *)
Theorem requests_raise_no_alert_without_model r w :
  built_in_profiles w ->
  model_unusable env w ->
  no_alert w (snd (handle env out routes_monitor r w)).
Proof.
  revert w. change (keeps (silent env) (handle env out routes_monitor r)).
  pose proof (silent_refl env) as Hrefl.
  pose proof (silent_trans env) as Htrans.
  pose proof (silent_quiet env) as Hquiet.
  destruct r; open_handlers;
    frame_steps_using ltac:(apply log_silent; in_list).
Qed.

Lemma handle_same_monitor r :
  master_action r = None -> keeps same_monitor (handle env out routes_monitor r).
Proof.
  pose proof same_monitor_refl as Hrefl.
  pose proof same_monitor_trans as Htrans.
  pose proof same_monitor_quiet as Hquiet.
  destruct r; try discriminate; intros _; open_handlers; frame_steps.
Qed.

Lemma handle_recorded_once r action :
  master_action r = Some action ->
  keeps (recorded_once env action) (handle env out routes_monitor r).
Proof.
  pose proof same_monitor_refl as Hrefl.
  pose proof same_monitor_trans as Htrans.
  pose proof same_monitor_quiet as Hquiet.
  destruct r; try discriminate; intros [= <-]; open_handlers;
    repeat first
      [ apply log_recorded_once
      | apply (frame_try_then _ same_monitor
                 (recorded_once_then env _)); [|intros ?]
      | apply (frame_bind_then _ same_monitor
                 (recorded_once_then env _)); [|intros ?] ];
    frame_steps.
Qed.

(** X23. A request served by the master agent adds exactly one activity to its
    ledger and one to its counter: that of [master_agent] doing the action
    of the route, however the request ends. The other routes leave the
    monitor of the master agent as it is. *)
Theorem request_records_one_activity_or_none r w :
  let w' := snd (handle env out routes_monitor r w) in
  match master_action r with
  | Some action => recorded_once env action w w'
  | None => ueba_monitor w' = ueba_monitor w
  end.
Proof.
  intros w'. unfold w'. destruct (master_action r) as [action|] eqn:E.
  - by apply handle_recorded_once.
  - by apply handle_same_monitor.
Qed.

(** What [respond] makes of its body. *)
Lemma respond_cases key (c : M pyval) w :
  match fst (respond key c w) with
  | Returns d =>
      exists v,
        fst (c w) = Returns v
        /\ d = list_to_map [ ("status", VStr "success"); (key, v) ]
  | Raises e' => exists e, fst (c w) = Raises e /\ e' = HTTPException e
  end.
Proof.
  unfold respond, try_except, bind, ret, raise.
  destruct (c w) as [[v|e] w1]; simpl; eauto.
Qed.

Lemma respond_returns key (c : M pyval) w v :
  fst (c w) = Returns v ->
  fst (respond key c w)
  = Returns (list_to_map [ ("status", VStr "success"); (key, v) ]).
Proof.
  unfold respond, try_except, bind, ret, raise.
  destruct (c w) as [[v'|e] w1]; simpl; [|done]. by intros [= ->].
Qed.

Lemma handle_customer_query_returns session_id message w :
  exists reply,
    fst (MasterMore.handle_customer_query env out session_id message w)
    = Returns reply.
Proof.
  unfold MasterMore.handle_customer_query, bind.
  destruct (log_agent_activity_spec env "master_agent"
              "handle_customer_query"
              (Some (<["session_id" := VStr session_id]> ∅)) w)
    as (found & w2 & w' & _ & E & _).
  rewrite E.
  destruct (process_message_cases out message session_id w')
    as (reply & w'' & E' & _).
  rewrite E'. by exists reply.
Qed.

Lemma get_available_slots_returns date w :
  exists slots,
    fst (SchedulingMore.get_available_slots env date w) = Returns slots.
Proof.
  unfold SchedulingMore.get_available_slots, try_except, bind, lift, ask,
    logger, ret.
  destruct (Agents.fromisoformat env date) as [d|e]; [|by eexists].
  destruct (get_appointments_by_date_at env (steps w) (date_of d));
    by eexists.
Qed.

(** X24. Every route answers in one of two ways. When what its handler
    awaits returns, the answer is the dictionary with the status [success]
    and that very result under the key of the route; when it raises, the
    route raises an [HTTPException] with the message of that exception. The
    chat, the free slots and the activity summary are always answered the
    first way: what these three routes await never raises. *)
Theorem route_answers_success_or_http_error r w :
  match fst (awaited env out routes_monitor r w) with
  | Returns v =>
      fst (handle env out routes_monitor r w)
      = Returns (list_to_map
                   [ ("status", VStr "success"); (response_key r, v) ])
  | Raises e =>
      never_fails r = false
      /\ fst (handle env out routes_monitor r w)
         = Raises (Exception "HTTPException" (exn_msg e))
  end.
Proof.
  assert (forall e, fst (awaited env out routes_monitor r w) = Raises e ->
                    never_fails r = false) as Hnever.
  { intros e. destruct r; try done; unfold awaited.
    - destruct (handle_customer_query_returns session_id message w)
        as [reply ->]. done.
    - unfold bind.
      destruct (get_available_slots_returns date w) as [slots Hs].
      destruct (SchedulingMore.get_available_slots env date w)
        as [[slots'|e'] w1]; simpl in *; done. }
  pose proof (respond_cases (response_key r)
                (awaited env out routes_monitor r) w) as Hcases.
  fold (handle env out routes_monitor r) in Hcases.
  destruct (fst (awaited env out routes_monitor r w)) as [v|e] eqn:Ea.
  - destruct (fst (handle env out routes_monitor r w)) as [d|e'].
    + destruct Hcases as (v' & [= <-] & ->). reflexivity.
    + destruct Hcases as (e & He & _). discriminate.
  - split; [by eapply Hnever|].
    destruct (fst (handle env out routes_monitor r w)) as [d|e'].
    + destruct Hcases as (v & Hv & _). discriminate.
    + destruct Hcases as (e0 & [= <-] & ->). reflexivity.
Qed.

End WithEnv.

End RouteFacts.

(** ** The theorems above, on concrete runs *)

Module Runs.

Import Scenario ScenarioMore SpecMore Summary SchedulingMore Routes.
Import SummaryFacts SchedulingFacts RouteFacts.

(** Of three activities, two of the master agent: the summary counts two
    for it and has no entry for the diagnosis agent. *)
Lemma summary_counts_activities_witness :
  exists by_agent : gmap string Z,
    get_activity_summary (monitor_with None three_activities) None
    !! "by_agent"
    = Some (VDict (VInt <$> by_agent))
    /\ default 0 (by_agent !! "master_agent") = 2
    /\ by_agent !! "diagnosis_agent" = None.
Proof.
  assert (selected (monitor_with None three_activities) None <> [])
    as Hne by (vm_compute; discriminate).
  destruct (summary_counts_activities
              (monitor_with None three_activities) None Hne)
    as (by_agent & _ & Ha & _ & Hcount & Hdom & _).
  exists by_agent. split; [exact Ha|]. split.
  - rewrite Hcount. vm_compute. reflexivity.
  - apply Hdom. vm_compute. reflexivity.
Defined.

(** The summary of the master agent alone, on the same ledger. *)
Lemma summary_of_one_agent_witness :
  get_activity_summary (monitor_with None three_activities)
    (Some "master_agent") !! "by_agent"
  = Some (VDict
            (VInt <$>
             {[ "master_agent" :=
                  len (selected (monitor_with None three_activities)
                         (Some "master_agent")) ]})).
Proof.
  assert ("master_agent" <> "") as Hname by discriminate.
  assert (selected (monitor_with None three_activities)
            (Some "master_agent") <> [])
    as Hne by (vm_compute; discriminate).
  destruct (summary_of_one_agent (monitor_with None three_activities)
              "master_agent" Hname Hne) as [H _].
  exact H.
Defined.

(** With the hours 9 and 10 taken, the search of a day returns. *)
Lemma first_free_hour_is_found_witness :
  exists found,
    Agents._find_available_slot busy_morning 0 world0
    = (Returns found, tick world0)
    /\ match found with
       | None =>
           Forall (fun h => hour_is_booked morning_taken h = true)
                  Agents.available_slots
       | Some (slot_date, hour) =>
           slot_date = 0
           /\ hour_is_booked morning_taken hour = false
           /\ 9 <= hour <= 16
           /\ exists earlier later,
                Agents.available_slots = earlier ++ hour :: later
                /\ Forall (fun h => hour_is_booked morning_taken h = true)
                          earlier
       end.
Proof.
  apply (first_free_hour_is_found busy_morning 0 world0 morning_taken).
  vm_compute. reflexivity.
Defined.

(** An automatic booking on such a day. *)
Lemma auto_schedule_books_within_two_days_witness :
  exists r w',
    Agents.auto_schedule busy_morning "V1" (VStr "oil_change") world0
    = (Returns r, w')
    /\ (r = no_slot_result \/ r !! "status" = Some (VStr "scheduled")).
Proof.
  pose (run := Agents.auto_schedule busy_morning "V1" (VStr "oil_change")
                 world0).
  assert (Agents.auto_schedule busy_morning "V1" (VStr "oil_change") world0
          = (Returns (match fst run with Returns r => r | Raises _ => ∅ end),
             snd run)) as E by (vm_compute; reflexivity).
  eexists _, _. split; [exact E|].
  destruct (auto_schedule_books_within_two_days _ _ _ _ _ _ E)
    as [H|(H & _)]; [by left|by right].
Defined.

(** A booking when the database answers. *)
Lemma schedule_appointment_returns_when_database_answers_witness :
  exists r w',
    Agents.schedule_appointment quiet "V1" (VStr "oil_change") VNone world0
    = (Returns r, w')
    /\ (r = no_slot_result \/ r !! "status" = Some (VStr "scheduled")).
Proof.
  apply (schedule_appointment_returns_when_database_answers quiet "V1"
           (VStr "oil_change") VNone world0 (days 1)).
  - intros n d. eexists. reflexivity.
  - intros n a. reflexivity.
  - eexists. vm_compute. reflexivity.
  - vm_compute. reflexivity.
  - unfold is_datetime, DATETIME_MIN, DATETIME_MAX, days, US_PER_DAY,
      US_PER_SECOND. lia.
Defined.


(** A preferred date that is no date. *)
Lemma unparsable_date_means_tomorrow_witness :
  Agents.schedule_appointment quiet "V1" (VStr "oil_change") (VStr "soon")
    world0
  = Agents.schedule_appointment quiet "V1" (VStr "oil_change") VNone world0.
Proof.
  apply (unparsable_date_means_tomorrow quiet "V1" (VStr "oil_change")
           (VStr "soon") world0).
  right. eexists. vm_compute. reflexivity.
Defined.

(** A chat request on a fresh monitor. *)
Lemma requests_raise_only_model_alerts_witness :
  only_model_alerts world0
    (snd (handle quiet offline (monitor_with None [])
            (PostChat "my vehicle shakes" "s1") world0)).
Proof.
  apply (requests_raise_only_model_alerts quiet offline (monitor_with None [])
           (PostChat "my vehicle shakes" "s1") world0).
  vm_compute. reflexivity.
Defined.

(** A telematics request on a fresh monitor without model. *)
Lemma requests_raise_no_alert_without_model_witness :
  no_alert world0
    (snd (handle quiet offline (monitor_with None [])
            (PostTelematics "V1" ∅) world0)).
Proof.
  apply (requests_raise_no_alert_without_model quiet offline
           (monitor_with None []) (PostTelematics "V1" ∅) world0).
  - vm_compute. reflexivity.
  - left. reflexivity.
Defined.

End Runs.

(** ** The diagnosis and the alert *)

Module DiagnosisFacts.

Import SpecMore AgentFacts KeepsFacts Diagnosis CustomerAlert Scenario
  ScenarioClinic.

Lemma first_that_holds_sound tests v :
  Forall (fun t => sound t.2) tests ->
  first_that_holds tests = Returns v -> sound v.
Proof.
  induction tests as [|[test v'] rest IH]; simpl.
  - intros _ [= <-]. by left.
  - intros Hall. apply Forall_cons in Hall as [Hv Hrest].
    destruct test as [[|]|e]; [..|done].
    + by intros [= <-].
    + by apply IH.
Qed.

Lemma cascade_sound clinic health_scores anomalies v :
  cascade clinic health_scores anomalies = Returns v -> sound v.
Proof.
  apply first_that_holds_sound.
  repeat apply Forall_cons_2; try apply Forall_nil_2; simpl;
    first [ right; left; eexists; split; [|reflexivity]; in_list
          | right; right; eexists; split; [|reflexivity]; in_list ].
Qed.

(** What the flags of a sound verdict say. *)
Lemma sound_flags v :
  sound v ->
  (auto_schedule v = true -> critical_alert v = true)
  /\ (auto_schedule v = true <-> alert_level v = "critical")
  /\ (critical_alert v = false <-> alert_level v = "info")
  /\ (critical_alert v = false <-> recommended_service v = VNone)
  /\ (critical_alert v = true ->
      exists service,
        recommended_service v = VStr service
        /\ service ∈ (if auto_schedule v then booked_services
                      else advised_services)).
Proof.
  intros [->|[(service & Hs & ->)|(service & Hs & ->)]]; simpl.
  - repeat split; try done.
  - repeat split; try done. intros _. by exists service.
  - repeat split; try done. intros _. by exists service.
Qed.

Lemma diagnosis_result_lookup vehicle_id predictions timeline health_scores
    v timestamp :
  let d := diagnosis_result vehicle_id predictions timeline health_scores v
             timestamp in
  d !! "vehicle_id" = Some (VStr vehicle_id)
  /\ d !! "critical_alert" = Some (VBool (critical_alert v))
  /\ d !! "alert_level" = Some (VStr (alert_level v))
  /\ d !! "auto_schedule" = Some (VBool (auto_schedule v))
  /\ d !! "recommended_service" = Some (recommended_service v)
  /\ d !! "health_scores" = Some health_scores.
Proof.
  intros d. unfold d, diagnosis_result. simpl list_to_map.
  repeat split;
    repeat (rewrite lookup_insert_ne by done); by rewrite lookup_insert_eq.
Qed.

Section WithClinic.
Context (env : Env) (clinic : Clinic).

Lemma frame_predict_failures vehicle_id analysis_result :
  keeps same_monitor (predict_failures env clinic vehicle_id analysis_result).
Proof.
  pose proof RouteFacts.same_monitor_refl as Hrefl.
  pose proof RouteFacts.same_monitor_trans as Htrans.
  pose proof RouteFacts.same_monitor_quiet as Hquiet.
  unfold predict_failures, UEBA.utcnow, diagnosis_error. cbv zeta.
  frame_steps.
Qed.

(** How a diagnosis can end. *)
Lemma predict_failures_cases vehicle_id analysis_result w :
  let run := predict_failures env clinic vehicle_id analysis_result w in
  ueba_monitor (snd run) = ueba_monitor w
  /\ match fst run with
     | Returns d =>
         exists predictions timeline scores v timestamp,
           get analysis_result "health_scores" (VDict ∅) = VDict scores
           /\ cascade clinic scores
                (get analysis_result "anomalies" (VList [])) = Returns v
           /\ d = diagnosis_result vehicle_id predictions timeline
                    (VDict scores) v timestamp
     | Raises e => last (logged (snd run)) = Some (diagnosis_error e)
     end.
Proof.
  intros run. split; [apply frame_predict_failures|].
  unfold run. clear run.
  destruct (predict_failures env clinic vehicle_id analysis_result w)
    as [res w'] eqn:E.
  revert E. unfold predict_failures, try_except. cbv zeta.
  unfold bind at 1. unfold logger at 1.
  unfold bind at 1. unfold ask at 1. cbn [steps tick].
  destruct (predict_at clinic (steps w) _ _) as [predictions|e];
    [|unfold bind, logger, raise; intros [= <- <-]; apply last_snoc].
  unfold bind at 1. unfold lift at 1.
  destruct (get analysis_result "health_scores" (VDict ∅))
    as [| | | | | | | |scores] eqn:Hscores; simpl as_dict;
    try (unfold bind, logger, raise; intros [= <- <-]; apply last_snoc).
  unfold bind at 1. unfold lift at 1.
  destruct (cascade clinic scores _) as [v|e] eqn:Hv;
    [|unfold bind, logger, raise; intros [= <- <-]; apply last_snoc].
  unfold bind at 1. unfold lift at 1.
  destruct (failure_timeline clinic predictions (VDict scores))
    as [timeline|e];
    [|unfold bind, logger, raise; intros [= <- <-]; apply last_snoc].
  unfold bind at 1. rewrite UEBAFacts.utcnow_eq.
  unfold bind at 1. unfold ask at 1.
  destruct (store_predictions_at clinic _ vehicle_id _) as [[]|e];
    [|unfold bind, logger, raise; intros [= <- <-]; apply last_snoc].
  unfold ret. intros [= <- <-]. simpl. by eexists _, _, scores, v, _.
Qed.

(** X26. A diagnosis never touches the monitor. When it returns, its four
    flags fit together: a booking is asked for only with a critical alert,
    and exactly at the level critical; there is no alert exactly at the
    level info and exactly when no service is recommended; and the service
    recommended with an alert is one of the three that are booked when a
    booking is asked for, one of the three that are only advised when not.
    When it raises, the error line of the agent is the last line logged. *)
Theorem diagnosis_flags_fit_together vehicle_id analysis_result w :
  let run := predict_failures env clinic vehicle_id analysis_result w in
  ueba_monitor (snd run) = ueba_monitor w
  /\ match fst run with
     | Returns d =>
         d !! "vehicle_id" = Some (VStr vehicle_id)
         /\ (wants_schedule d = true -> critical d = true)
         /\ (wants_schedule d = true
             <-> d !! "alert_level" = Some (VStr "critical"))
         /\ (critical d = false <-> d !! "alert_level" = Some (VStr "info"))
         /\ (critical d = false
             <-> d !! "recommended_service" = Some VNone)
         /\ (critical d = true ->
             exists service,
               d !! "recommended_service" = Some (VStr service)
               /\ service ∈ (if wants_schedule d then booked_services
                             else advised_services))
     | Raises e => last (logged (snd run)) = Some (diagnosis_error e)
     end.
Proof.
  intros run.
  destruct (predict_failures_cases vehicle_id analysis_result w) as [Hm H].
  fold run in Hm, H. split; [exact Hm|].
  destruct (fst run) as [d|e]; [|exact H].
  destruct H as (predictions & timeline & scores & v & timestamp
                 & _ & Hv & ->).
  destruct (diagnosis_result_lookup vehicle_id predictions timeline
              (VDict scores) v timestamp)
    as (Hid & Hc & Hl & Ha & Hr & _).
  unfold critical, wants_schedule, get. rewrite Hid, Hc, Hl, Ha, Hr. simpl.
  destruct (sound_flags v (cascade_sound _ _ _ _ Hv))
    as (H1 & H2 & H3 & H4 & H5).
  split; [done|]. split; [exact H1|].
  split; [rewrite H2; split; [by intros ->|by intros [= ->]]|].
  split; [rewrite H3; split; [by intros ->|by intros [= ->]]|].
  split; [rewrite H4; split; [by intros ->|by intros [= ->]]|].
  intros Hcrit. destruct (H5 Hcrit) as (service & -> & Hs). by exists service.
Qed.

(** How an alert can end. *)
Lemma send_alert_cases vehicle_id d w :
  let run := send_alert clinic vehicle_id d w in
  let message :=
    VFmt (if is_critical (get d "alert_level" (VStr "info"))
          then critical_text else warning_text)
         [VStr vehicle_id; get d "recommended_service" (VStr "inspection")] in
  match fst run with
  | Returns r =>
      r = list_to_map [ ("status", VStr "sent");
                        ("vehicle_id", VStr vehicle_id);
                        ("message", message) ]
      /\ exists n stored,
           store_alert_at clinic n vehicle_id stored = Returns tt
           /\ stored !! "message" = Some message
  | Raises e =>
      last (logged (snd run)) = Some (alert_error e)
      /\ exists n stored, store_alert_at clinic n vehicle_id stored = Raises e
  end.
Proof.
  intros run message. unfold run. clear run.
  destruct (send_alert clinic vehicle_id d w) as [res w'] eqn:E.
  revert E. unfold send_alert, try_except. cbv zeta. fold message.
  unfold bind at 1. unfold logger at 1.
  unfold bind at 1. unfold ask at 1. cbn [steps tick].
  match goal with
  | |- context [store_alert_at clinic ?n vehicle_id ?stored] =>
      destruct (store_alert_at clinic n vehicle_id stored) as [[]|e] eqn:Es
  end.
  - unfold ret. intros [= <- <-]. simpl. split; [done|].
    eexists _, _. split; [exact Es|].
    simpl list_to_map. by rewrite lookup_insert_eq.
  - unfold bind, logger, raise. intros [= <- <-]. simpl.
    split; [apply last_snoc|]. eexists _, _. exact Es.
Qed.

(** X27. The alert sent for a diagnosis tells its urgency: for every
    diagnosis that [predict_failures] returned with an alert, the message of
    [send_alert] is the critical one exactly when a booking is asked for,
    else the warning, and it names the vehicle and the service the
    diagnosis recommends; the same message is what was stored. If storing
    raises, so does [send_alert], after logging its error line. *)
Theorem alert_tells_the_urgency vehicle_id analysis_result w d w1 w2 :
  predict_failures env clinic vehicle_id analysis_result w = (Returns d, w1) ->
  critical d = true ->
  let run := send_alert clinic vehicle_id d w2 in
  exists service,
    d !! "recommended_service" = Some (VStr service)
    /\ let message :=
         VFmt (if wants_schedule d then critical_text else warning_text)
              [VStr vehicle_id; VStr service] in
       match fst run with
       | Returns r =>
           r = list_to_map [ ("status", VStr "sent");
                             ("vehicle_id", VStr vehicle_id);
                             ("message", message) ]
           /\ exists n stored,
                store_alert_at clinic n vehicle_id stored = Returns tt
                /\ stored !! "message" = Some message
       | Raises e =>
           last (logged (snd run)) = Some (alert_error e)
           /\ exists n stored,
                store_alert_at clinic n vehicle_id stored = Raises e
       end.
Proof.
  intros Hd Hcrit run.
  destruct (predict_failures_cases vehicle_id analysis_result w) as [_ H].
  rewrite Hd in H. simpl in H.
  destruct H as (predictions & timeline & scores & v & timestamp
                 & _ & Hv & ->).
  destruct (diagnosis_result_lookup vehicle_id predictions timeline
              (VDict scores) v timestamp)
    as (Hid & Hc & Hl & Ha & Hr & _).
  destruct (sound_flags v (cascade_sound _ _ _ _ Hv))
    as (_ & H2 & _ & _ & H5).
  unfold critical, get in Hcrit. rewrite Hc in Hcrit. simpl in Hcrit.
  destruct (H5 Hcrit) as (service & Hservice & _).
  exists service. split; [by rewrite Hr, Hservice|].
  pose proof (send_alert_cases vehicle_id
                (diagnosis_result vehicle_id predictions timeline
                   (VDict scores) v timestamp) w2) as Hrun.
  cbv zeta in Hrun. fold run in Hrun.
  unfold get in Hrun. rewrite Hl, Hr, Hservice in Hrun. simpl in Hrun.
  unfold wants_schedule, get. rewrite Ha. simpl.
  assert (String.eqb (alert_level v) "critical" = auto_schedule v) as Heq.
  { destruct (auto_schedule v) eqn:Hauto.
    - apply String.eqb_eq. by apply H2.
    - apply String.eqb_neq. intros Hlevel. apply H2 in Hlevel. congruence. }
  rewrite Heq in Hrun. exact Hrun.
Qed.

End WithClinic.

(** A vehicle with a weak battery and little oil: the battery decides, a
    booking is asked for, and the alert names the service of the diagnosis. *)
Lemma alert_tells_the_urgency_witness :
  exists d w1 service,
    predict_failures quiet (clinic_of false) "V1" weak_battery world0
    = (Returns d, w1)
    /\ d !! "recommended_service" = Some (VStr service)
    /\ wants_schedule d = true.
Proof.
  pose (run := predict_failures quiet (clinic_of false) "V1" weak_battery
                 world0).
  pose (d := match fst run with Returns d => d | Raises _ => ∅ end).
  assert (predict_failures quiet (clinic_of false) "V1" weak_battery world0
          = (Returns d, snd run)) as E by (vm_compute; reflexivity).
  assert (critical d = true) as Hcrit by (vm_compute; reflexivity).
  destruct (alert_tells_the_urgency quiet (clinic_of false) "V1"
              weak_battery world0 d (snd run) world0 E Hcrit)
    as (service & Hservice & _).
  exists d, (snd run), service. split; [exact E|]. split; [exact Hservice|].
  vm_compute. reflexivity.
Defined.

End DiagnosisFacts.
